(** * python_ai_agents: the agent loop, the tool router and the transcript store

    A shallow embedding of [ai_agent.py], [gemini_chat.py] and
    [gemini_real_assistant.py].

    Conventions of the embedding.
    - A Python [str] is a [string]: the sequence of its UTF-8 bytes.  On ASCII
      text a byte is a character, so [str.lower], [in] and [==] are what
      Python computes; bytes above 127 are never changed by [lower].
      [str.strip] removes every white space character of Unicode, read in its
      UTF-8 form.
    - A Python [dict] is an association list searched from the front, with
      [dict_set] updating a present key in place and appending a fresh one,
      which is the insertion order Python keeps.
    - Integers are [nat]: every counter of the program starts at 0 and only
      grows.
    - An exception is a value of [exn]; fallible code returns [result]. *)

From Stdlib Require Import String Ascii List Bool Arith Lia DecimalString.
Import ListNotations.
Local Open Scope list_scope.
Local Open Scope string_scope.

Set Implicit Arguments.
Set Warnings "-register-all".

(* ------------------------------------------------------------------ *)
(** ** Python strings *)

Module PyStr.

Definition is_upper (c : ascii) : bool :=
  Nat.leb 65 (nat_of_ascii c) && Nat.leb (nat_of_ascii c) 90.

(** One character of [str.lower]. *)
Definition lower_char (c : ascii) : ascii :=
  if is_upper c then ascii_of_nat (nat_of_ascii c + 32) else c.

(** [s.lower()] *)
Fixpoint lower (s : string) : string :=
  match s with
  | EmptyString => EmptyString
  | String c s' => String (lower_char c) (lower s')
  end.

(** [needle in hay] *)
Fixpoint str_in (needle hay : string) : bool :=
  if prefix needle hay then true
  else match hay with
       | EmptyString => false
       | String _ hay' => str_in needle hay'
       end.

(** The ASCII characters that [str.strip] removes. *)
Definition is_space (c : ascii) : bool :=
  let n := nat_of_ascii c in
  (Nat.leb 9 n && Nat.leb n 13) || (Nat.leb 28 n && Nat.leb n 32).

(** The other characters that [str.strip] removes, by their UTF-8 bytes:
    U+0085 and U+00A0 on two bytes; U+1680, U+2000 to U+200A, U+2028, U+2029,
    U+202F, U+205F and U+3000 on three. *)
Definition is_space2 (a b : ascii) : bool :=
  Nat.eqb (nat_of_ascii a) 194
  && (Nat.eqb (nat_of_ascii b) 133 || Nat.eqb (nat_of_ascii b) 160).

Definition is_space3 (a b c : ascii) : bool :=
  let x := nat_of_ascii a in
  let y := nat_of_ascii b in
  let z := nat_of_ascii c in
  (Nat.eqb x 225 && Nat.eqb y 154 && Nat.eqb z 128)
  || (Nat.eqb x 226 && Nat.eqb y 128
      && ((Nat.leb 128 z && Nat.leb z 138)
          || Nat.eqb z 168 || Nat.eqb z 169 || Nat.eqb z 175))
  || (Nat.eqb x 226 && Nat.eqb y 129 && Nat.eqb z 159)
  || (Nat.eqb x 227 && Nat.eqb y 128 && Nat.eqb z 128).

(** The number of bytes of the white space character at the head of [s],
    0 when [s] does not start with one. *)
Definition space_width (s : string) : nat :=
  match s with
  | EmptyString => 0
  | String a rest =>
      if is_space a then 1
      else match rest with
           | EmptyString => 0
           | String b rest2 =>
               if is_space2 a b then 2
               else match rest2 with
                    | EmptyString => 0
                    | String c _ => if is_space3 a b c then 3 else 0
                    end
           end
  end.

Fixpoint lstrip (s : string) : string :=
  match s with
  | EmptyString => EmptyString
  | String _ rest =>
      match space_width s with
      | 1 => lstrip rest
      | 2 => match rest with
             | String _ rest2 => lstrip rest2
             | EmptyString => s
             end
      | 3 => match rest with
             | String _ (String _ rest3) => lstrip rest3
             | _ => s
             end
      | _ => s
      end
  end.

(** Nothing but white space in [s]. *)
Fixpoint all_space (s : string) : bool :=
  match s with
  | EmptyString => true
  | String _ rest =>
      match space_width s with
      | 1 => all_space rest
      | 2 => match rest with
             | String _ rest2 => all_space rest2
             | EmptyString => false
             end
      | 3 => match rest with
             | String _ (String _ rest3) => all_space rest3
             | _ => false
             end
      | _ => false
      end
  end.

(** Drops trailing white space: a byte is kept when something other than
    white space stands at it or after it. *)
Fixpoint rstrip (s : string) : string :=
  match s with
  | EmptyString => EmptyString
  | String c s' => if all_space s then EmptyString else String c (rstrip s')
  end.

(** [s.strip()] *)
Definition strip (s : string) : string := rstrip (lstrip s).

(** ['...'] around a string, as [repr] writes the elements of a list.  The
    text between the quotes is [s] itself: the slot strings of this program
    hold no quote, backslash or control character. *)
Definition repr_str (s : string) : string := "'" ++ s ++ "'".

Fixpoint join (sep : string) (l : list string) : string :=
  match l with
  | [] => ""
  | [x] => x
  | x :: l' => x ++ sep ++ join sep l'
  end.

(** [str(l)] for a list of strings: [['a', 'b']]. *)
Definition repr_list (l : list string) : string :=
  "[" ++ join ", " (map repr_str l) ++ "]".

End PyStr.

(* ------------------------------------------------------------------ *)
(** ** Exceptions *)

Inductive exn : Type :=
| JSONDecodeError
| KeyError (key : string)
| TypeError
| AttributeError
| KeyboardInterrupt
| NameError (name : string)        (* a global name that the module never bound *)
| OtherException (msg : string).   (* an [Exception] of a library; [msg] is [str(e)] *)

Inductive result (A : Type) : Type :=
| Ok (a : A)
| Raise (e : exn).
Arguments Ok {A} a.
Arguments Raise {A} e.

Definition bind {A B} (r : result A) (k : A -> result B) : result B :=
  match r with
  | Ok a => k a
  | Raise e => Raise e
  end.

Declare Scope result_scope.
Delimit Scope result_scope with result.
Notation "x <- r ;; k" := (bind r (fun x => k))
  (at level 61, r at next level, right associativity) : result_scope.

(** Code that prints, mutates objects and may raise: the state survives an
    exception, as the output already printed does in Python. *)
Definition M (S A : Type) : Type := S -> S * result A.

Definition ret {S A} (a : A) : M S A := fun s => (s, Ok a).

Definition raise {S A} (e : exn) : M S A := fun s => (s, Raise e).

Definition lift {S A} (r : result A) : M S A := fun s => (s, r).

Definition mbind {S A B} (m : M S A) (k : A -> M S B) : M S B :=
  fun s =>
    match m s with
    | (s', Ok a) => k a s'
    | (s', Raise e) => (s', Raise e)
    end.

Definition get {S} : M S S := fun s => (s, Ok s).

Definition modify {S} (f : S -> S) : M S unit := fun s => (f s, Ok tt).

Declare Scope py_scope.
Delimit Scope py_scope with py.
Notation "x <- m ;; k" := (mbind m (fun x => k))
  (at level 61, m at next level, right associativity) : py_scope.
Notation "m ;; k" := (mbind m (fun _ => k))
  (at level 61, right associativity) : py_scope.

(* ------------------------------------------------------------------ *)
(** ** Python values, dictionaries and the [json] module *)

(** The values that [json.loads] builds; a number keeps its literal. *)
Inductive value : Type :=
| VNone
| VBool (b : bool)
| VNum (literal : string)
| VStr (s : string)
| VList (l : list value)
| VDict (d : list (string * value)).

Definition dict := list (string * value).

(** [d.get(k)] *)
Fixpoint dict_get (d : dict) (k : string) : option value :=
  match d with
  | [] => None
  | (k', v) :: d' => if String.eqb k k' then Some v else dict_get d' k
  end.

(** [d[k] = v] *)
Fixpoint dict_set (d : dict) (k : string) (v : value) : dict :=
  match d with
  | [] => [(k, v)]
  | (k', v') :: d' =>
      if String.eqb k k' then (k', v) :: d' else (k', v') :: dict_set d' k v
  end.

(** [x[k]] for a string [k]: only a dictionary can be indexed by a string. *)
Definition subscript (x : value) (k : string) : result value :=
  match x with
  | VDict d =>
      match dict_get d k with
      | Some v => Ok v
      | None => Raise (KeyError k)
      end
  | _ => Raise TypeError
  end.

(** [x[k] = v] for a string [k]. *)
Definition setitem (x : value) (k : string) (v : value) : result value :=
  match x with
  | VDict d => Ok (VDict (dict_set d k v))
  | _ => Raise TypeError
  end.

(** [x.lower()]: a method of strings only. *)
Definition lower_method (x : value) : result string :=
  match x with
  | VStr s => Ok (PyStr.lower s)
  | _ => Raise AttributeError
  end.

(** [x == s] for a string literal [s]. *)
Definition eq_str (x : value) (s : string) : bool :=
  match x with
  | VStr t => String.eqb t s
  | _ => false
  end.

(** A dictionary whose values are all strings. *)
Definition str_dict (kvs : list (string * string)) : dict :=
  map (fun kv => (fst kv, VStr (snd kv))) kvs.

Definition newline : ascii := "010"%char.
Definition carriage_return : ascii := "013"%char.
Definition nl : string := String newline EmptyString.

(** No line break inside [s]. *)
Fixpoint one_line (s : string) : bool :=
  match s with
  | EmptyString => true
  | String c s' =>
      negb (Ascii.eqb c newline) && negb (Ascii.eqb c carriage_return) && one_line s'
  end.

(** The two functions of Python's [json] module that the programs call.
    [json_loads] answers [None] where Python raises [JSONDecodeError]. *)
Class Json : Type := {
  json_dumps : value -> string;
  json_loads : string -> option value
}.

(** What the programs rely on, for the documents they write themselves:
    dictionaries of strings with distinct keys.  Such a document is written
    on one line, and it is read back as it was written, also with the line
    break that follows it in a transcript. *)
Class JsonLaws (J : Json) : Prop := {
  loads_dumps : forall kvs,
    NoDup (map fst kvs) ->
    json_loads (json_dumps (VDict (str_dict kvs))) = Some (VDict (str_dict kvs));
  loads_dumps_nl : forall kvs,
    NoDup (map fst kvs) ->
    json_loads (json_dumps (VDict (str_dict kvs)) ++ nl) = Some (VDict (str_dict kvs));
  dumps_one_line : forall kvs,
    one_line (json_dumps (VDict (str_dict kvs))) = true
}.

Definition loads `{Json} (s : string) : result value :=
  match json_loads s with
  | Some v => Ok v
  | None => Raise JSONDecodeError
  end.

(** One call of [print]: the arguments and the [end] string. *)
Inductive out : Type :=
| Print (args : list value) (end_ : string).

Definition print (args : list value) : out := Print args nl.

(** [str(n)] for a counter. *)
Definition dec (n : nat) : string := NilZero.string_of_uint (Nat.to_uint n).

(* ------------------------------------------------------------------ *)
(** ** Text files *)

Module TextFile.

(** Reading in text mode: a carriage return, alone or before a line feed,
    arrives as one line feed. *)
Fixpoint universal_newlines (s : string) : string :=
  match s with
  | EmptyString => EmptyString
  | String c rest =>
      if Ascii.eqb c carriage_return then
        match rest with
        | String c' rest' =>
            if Ascii.eqb c' newline then String newline (universal_newlines rest')
            else String newline (universal_newlines rest)
        | EmptyString => String newline EmptyString
        end
      else String c (universal_newlines rest)
  end.

(** [for line in f]: every line keeps its line feed; a last line without
    one is a line too. *)
Fixpoint split_lines (s : string) : list string :=
  match s with
  | EmptyString => []
  | String c rest =>
      if Ascii.eqb c newline then String c EmptyString :: split_lines rest
      else match split_lines rest with
           | [] => [String c EmptyString]
           | l :: ls => String c l :: ls
           end
  end.

Definition readlines (content : string) : list string :=
  split_lines (universal_newlines content).

(** A file on disk: [None] when it does not exist. *)
Definition file := option string.

(** [open("a")] then [write(text)]: creates the file when it is missing.
    The text is written as it is, as on a system whose line separator is
    the line feed. *)
Definition append (f : file) (text : string) : file :=
  match f with
  | None => Some text
  | Some content => Some (content ++ text)
  end.

End TextFile.

(* ------------------------------------------------------------------ *)
(** ** [ai_agent.py], first program: the fake tools and the agent loop *)

Module AiAgent.
Import PyStr.

(** [CalendarAPI.check_availability]: [slots.get(person, [])]. *)
Definition check_availability (person : string) : list string :=
  if String.eqb person "user" then ["Wed 10AM"; "Thu 11AM"]
  else if String.eqb person "Priya" then ["Thu 11AM"; "Fri 2PM"]
  else [].

(** [EmailAPI.draft_email] *)
Definition draft_email (to subject body : string) : string :=
  "Drafted email to " ++ to ++ " with subject '" ++ subject ++ "': " ++ body.

(** What the loop asks of [self.gpt]: a method [run(task)] that may change
    the object and returns a text. *)
Class GPT (G : Type) : Type := gpt_run : G -> string -> G * string.

Module FakeGPT.
Section WithJson.
Context `{Json}.

Record t : Type := { step : nat }.

(** [__init__] *)
Definition init : t := {| step := 0 |}.

(** [run]: the scripted answers, by the number of the call. *)
Definition run (self : t) (task : string) : t * string :=
  let self := {| step := step self + 1 |} in
  if Nat.eqb (step self) 1 then
    (self, json_dumps (VDict (str_dict
      [("thought", "I need to start by checking calendars.");
       ("plan", "Step 1: Call CalendarAPI for user and Priya.");
       ("action", "CalendarAPI.check_availability");
       ("observation", "None yet.");
       ("final_answer", "Checking availability...")])))
  else if Nat.eqb (step self) 2 then
    (self, json_dumps (VDict (str_dict
      [("thought", "Now I have both calendars. I should find a common slot.");
       ("plan", "Compare availability of user and Priya.");
       ("action", "none");
       ("observation", "User: Wed 10AM, Thu 11AM | Priya: Thu 11AM, Fri 2PM");
       ("final_answer", "Both are free on Thu 11AM. Should I draft an email?")])))
  else if Nat.eqb (step self) 3 then
    (self, json_dumps (VDict (str_dict
      [("thought", "I should draft a confirmation email to Priya.");
       ("plan", "Use EmailAPI to create a draft.");
       ("action", "EmailAPI.draft_email");
       ("observation", "None yet.");
       ("final_answer", "Drafting the email now.")])))
  else
    (self, json_dumps (VDict (str_dict
      [("thought", "The task is complete.");
       ("plan", "No further action needed.");
       ("action", "none");
       ("observation", "All done.");
       ("final_answer", "Email drafted successfully and meeting scheduled.")]))).

Definition FakeGPT_GPT : GPT t := run.
End WithJson.
#[global] Existing Instance FakeGPT_GPT.
End FakeGPT.

Module AIAgent.
Section WithBackend.
Context `{Json} {G : Type} `{GPT G}.

(** The agent object.  [self.calendar] and [self.email] hold no data. *)
Record t : Type := { gpt : G }.

(** The local variables of [run], the object and the standard output. *)
Record frame : Type := {
  self : t;
  step : nat;
  done : bool;
  stdout : list out
}.

Definition emit (o : out) : M frame unit :=
  modify (fun f => {| self := self f; step := step f; done := done f;
                      stdout := stdout f ++ [o]%list |}).

(** [self.gpt.run(task)] *)
Definition call_gpt (task : string) : M frame string :=
  fun f =>
    let (g, response) := gpt_run (gpt (self f)) task in
    ({| self := {| gpt := g |}; step := step f; done := done f;
        stdout := stdout f |}, Ok response).

(** The body of the [while] loop. *)
Definition body (task : string) : M frame unit :=
  (modify (fun f => {| self := self f; step := step f + 1; done := done f;
                       stdout := stdout f |}) ;;
   f <- get ;;
   emit (print [VStr ("--- Step " ++ dec (step f) ++ " ---")]) ;;
   response <- call_gpt task ;;
   parsed <- lift (loads response) ;;
   thought <- lift (subscript parsed "thought") ;;
   emit (print [VStr "Thought:"; thought]) ;;
   plan <- lift (subscript parsed "plan") ;;
   emit (print [VStr "Plan:"; plan]) ;;
   action <- lift (subscript parsed "action") ;;
   emit (print [VStr "Action:"; action]) ;;
   parsed <-
     (if eq_str action "CalendarAPI.check_availability" then
        let obs_user := check_availability "user" in
        let obs_priya := check_availability "Priya" in
        lift (setitem parsed "observation"
                (VStr ("User: " ++ repr_list obs_user
                         ++ " | Priya: " ++ repr_list obs_priya)))
      else if eq_str action "EmailAPI.draft_email" then
        let email := draft_email "Priya" "Meeting Confirmation"
                       "Hi Priya, confirming our meeting on Thu 11AM." in
        lift (setitem parsed "observation" (VStr email))
      else ret parsed) ;;
   observation <- lift (subscript parsed "observation") ;;
   emit (print [VStr "Observation:"; observation]) ;;
   final_answer <- lift (subscript parsed "final_answer") ;;
   emit (print [VStr "Final Answer:"; final_answer; VStr nl]) ;;
   lowered <- lift (lower_method final_answer) ;;
   if str_in "successfully" lowered then
     modify (fun f => {| self := self f; step := step f; done := true;
                         stdout := stdout f |})
   else ret tt)%py.

(** [while not done and step < 5: body].  [None] when [fuel] rounds
    did not end the loop. *)
Fixpoint while_loop (fuel : nat) (task : string) (f : frame)
  : option (frame * result unit) :=
  if negb (done f) && Nat.ltb (step f) 5 then
    match fuel with
    | 0 => None
    | S fuel' =>
        match body task f with
        | (f', Ok _) => while_loop fuel' task f'
        | (f', Raise e) => Some (f', Raise e)
        end
    end
  else Some (f, Ok tt).

(** [run]: the frame at the end and the value returned (there is no
    [return] statement: the value is [None]) or the exception. *)
Definition run (agent : t) (task : string) : option (frame * result value) :=
  let f := {| self := agent; step := 0; done := false;
              stdout := [print [VStr ("User task: " ++ task ++ nl)]] |} in
  match while_loop 5 task f with
  | Some (f', Ok _) => Some (f', Ok VNone)
  | Some (f', Raise e) => Some (f', Raise e)
  | None => None
  end.
End WithBackend.
Arguments t G : clear implicits.
Arguments frame G : clear implicits.
End AIAgent.

(** [AIAgent()] *)
Definition new_agent `{Json} : AIAgent.t FakeGPT.t :=
  {| AIAgent.gpt := FakeGPT.init |}.

End AiAgent.

(* ------------------------------------------------------------------ *)
(** ** The transcript, the model client and the console *)

(** A tool call, recorded when a router hands control to a tool. *)
Inductive call : Type :=
| CheckCalendar (user : option string)
| CreateMeeting
| SendEmail (to subject body : string).

Module Client.

(** A streamed chunk, as far as the programs look into it:
    [chunk.candidates[i].content.parts[j].text]. *)
Record part : Type := { text : option string }.
Record candidate : Type := { parts : list part }.
Record chunk : Type := { candidates : list candidate }.

(** How a model call can fail: with an [Exception] whose [str] is [msg], or
    with a [KeyboardInterrupt], which [except Exception] does not catch. *)
Inductive failure : Type :=
| ClientError (msg : string)
| Interrupted.

(** [chat.send_message(user, stream=True)] and the iteration over its
    result: the call fails, or it gives a stream that yields [chunks] and
    then ends or fails. *)
Inductive reply : Type :=
| SendFails (e : failure)
| Stream (chunks : list chunk) (then_ : option failure).

(** A chat object: the history it was started with and the messages sent
    through it since. *)
Record chat_session : Type := {
  history : list value;
  sent : list string
}.

(** The model behind the client and the clock behind [datetime.now]. *)
Class Backend : Type := {
  send_message : chat_session -> string -> reply;
  isoformat : nat -> string
}.

(** What a chat program works on: its transcript file, the number of clock
    readings so far, the standard output and the variable [chat]. *)
Record state : Type := {
  transcript : TextFile.file;
  clock : nat;
  stdout : list out;
  chat : chat_session
}.

Definition emit (o : out) : M state unit :=
  modify (fun w => {| transcript := transcript w; clock := clock w;
                      stdout := stdout w ++ [o]%list; chat := chat w |}).

Definition set_chat (c : chat_session) : M state unit :=
  modify (fun w => {| transcript := transcript w; clock := clock w;
                      stdout := stdout w; chat := c |}).

(** [piece = chunk.candidates[0].content.parts[0].text or ""], under the
    guard [chunk.candidates and chunk.candidates[0].content.parts]. *)
Definition piece_of (c : chunk) : option string :=
  match candidates c with
  | [] => None
  | cand :: _ =>
      match parts cand with
      | [] => None
      | p :: _ =>
          match text p with
          | Some (String a t) => Some (String a t)
          | _ => Some ""
          end
      end
  end.

(** [for chunk in stream: ...] over the chunks that arrive. *)
Fixpoint consume (chunks : list chunk) (full_text : string) : M state string :=
  match chunks with
  | [] => ret full_text
  | c :: rest =>
      match piece_of c with
      | Some piece =>
          (emit (Print [VStr piece] "") ;;
           consume rest (full_text ++ piece))%py
      | None => consume rest full_text
      end
  end.

(** One line typed at the prompt, or Ctrl-C; the end of the list is the
    end of the input. *)
Inductive input_event : Type :=
| Line (s : string)
| CtrlC.

End Client.

(** The three programs share the text of [append_history] and
    [reset_history]. *)
Section Persistence.
Context `{Json} `{Client.Backend}.
Import Client.

(** [append_history] *)
Definition append_history (role content : string) : M state unit :=
  modify (fun w =>
    {| transcript :=
         TextFile.append (transcript w)
           (json_dumps (VDict (str_dict [("ts", isoformat (clock w));
                                         ("role", role);
                                         ("content", content)])) ++ nl);
       clock := clock w + 1;
       stdout := stdout w;
       chat := chat w |}).

(** [reset_history] *)
Definition reset_history : M state unit :=
  modify (fun w => {| transcript := None; clock := clock w;
                      stdout := stdout w; chat := chat w |}).

(** [{"role": role, "parts": [content]}] *)
Definition entry (role content : value) : value :=
  VDict [("role", role); ("parts", VList [content])].

(** [model.start_chat(history=base_history)] *)
Definition model_start_chat (base_history : list value) : chat_session :=
  {| history := base_history; sent := [] |}.

(** [chat.send_message(user, stream=True)]: the chat object remembers the
    message. *)
Definition chat_send (user : string) : M state reply :=
  fun w =>
    ({| transcript := transcript w; clock := clock w; stdout := stdout w;
        chat := {| history := history (chat w);
                   sent := sent (chat w) ++ [user]%list |} |},
     Ok (send_message (chat w) user)).

(** The [except Exception as e] clause of the chat loops; an exception it
    does not catch leaves the loop. *)
Definition on_failure (e : failure) : M state bool :=
  match e with
  | ClientError msg => (emit (print [VStr (nl ++ "[Error] " ++ msg)]) ;; ret false)%py
  | Interrupted => raise KeyboardInterrupt
  end.

(** The [try] block of the chat loops: [Ok true] with the full text when the
    stream was read to its end, [Ok false] when the [except] clause ran. *)
Definition try_stream (user : string) : M state (bool * string) :=
  (r <- chat_send user ;;
   match r with
   | SendFails e => (b <- on_failure e ;; ret (b, ""))
   | Stream chunks then_ =>
       emit (Print [VStr "Gemini:"] " ") ;;
       full_text <- consume chunks "" ;;
       match then_ with
       | Some e => (b <- on_failure e ;; ret (b, full_text))
       | None => emit (print []) ;; ret (true, full_text)
       end
   end)%py.
End Persistence.

(* ------------------------------------------------------------------ *)
(** ** [gemini_chat.py] *)

Module GeminiChat.
Import PyStr Client.
Section Program.
Context `{Json} `{Backend}.

Definition MODEL_NAME : string := "gemini-1.5-flash".

Definition SYSTEM_PROMPT : string :=
  "You are a helpful, concise assistant. "
  ++ "Always answer clearly and ask a brief follow-up question when useful.".

(** The [for line in f] loop of [load_history]. *)
Fixpoint load_lines (lines : list string) (history : list value)
  : result (list value) :=
  match lines with
  | [] => Ok history
  | line :: rest =>
      (rec <- loads line ;;
       role <- subscript rec "role" ;;
       content <- subscript rec "content" ;;
       if eq_str role "user" || eq_str role "model"
       then load_lines rest (history ++ [entry role content])%list
       else load_lines rest history)%result
  end.

(** [load_history] *)
Definition load_history (f : TextFile.file) : result (list value) :=
  match f with
  | None => Ok []
  | Some content => load_lines (TextFile.readlines content) []
  end.

(** [start_chat(persist=True)] *)
Definition start_chat : M state chat_session :=
  (w <- get ;;
   loaded <- lift (load_history (transcript w)) ;;
   ret (model_start_chat
          ([entry (VStr "user") (VStr ("(Instruction) " ++ SYSTEM_PROMPT))]
             ++ loaded)%list))%py.

(** The rest of the loop body for an input that is not a command. *)
Definition turn (user : string) : M state unit :=
  (append_history "user" user ;;
   r <- try_stream user ;;
   if fst r then append_history "model" (snd r) else ret tt)%py.

(** The [while True] loop, over the input still to come. *)
Fixpoint chat_loop (inputs : list input_event) : M state unit :=
  (emit (Print [VStr "You: "] "") ;;
   match inputs with
   | [] => emit (print [VStr (nl ++ "Bye! 👋")])
   | CtrlC :: _ => emit (print [VStr (nl ++ "Bye! 👋")])
   | Line raw :: rest =>
       let user := strip raw in
       if String.eqb user "" then chat_loop rest
       else if String.eqb (lower user) "/exit" then
         emit (print [VStr "Bye! 👋"])
       else if String.eqb (lower user) "/reset" then
         reset_history ;;
         c <- start_chat ;;
         set_chat c ;;
         emit (print [VStr "🧹 Memory cleared."]) ;;
         chat_loop rest
       else
         turn user ;;
         chat_loop rest
   end)%py.

(** [interactive_chat] *)
Definition interactive_chat (inputs : list input_event) : M state unit :=
  (emit (print [VStr ("Gemini multi-turn chat on " ++ MODEL_NAME)]) ;;
   emit (print [VStr ("Commands: /reset (clear memory), /exit (quit)" ++ nl)]) ;;
   c <- start_chat ;;
   set_chat c ;;
   chat_loop inputs)%py.
End Program.
End GeminiChat.

(* ------------------------------------------------------------------ *)
(** ** [ai_agent.py], second program: the assistant with fake tools *)

Module Assistant.
Import PyStr Client.

Definition MODEL_NAME : string := "gemini-1.5-flash".

Definition SYSTEM_PROMPT : string :=
  "You are Shivam’s AI assistant. "
  ++ "You can chat naturally, but when useful, call tools like Calendar and Email. "
  ++ "Always explain your reasoning briefly before/after tool use.".

(** [check_calendar]: [{...}.get(user.lower(), ["No availability found."])]. *)
Definition check_calendar (user : string) : list string :=
  let u := lower user in
  if String.eqb u "shivam" then ["Wed 10AM"; "Thu 11AM"]
  else if String.eqb u "priya" then ["Thu 11AM"; "Fri 2PM"]
  else ["No availability found."].

(** [send_email] *)
Definition send_email (to subject body : string) : string :=
  "Email sent to " ++ to ++ " with subject '" ++ subject
    ++ "' and body '" ++ body ++ "'".

(** [handle_tools]: the value returned ([None] when no tool applies)
    together with the tool calls made on the way, in order. *)
Definition handle_tools (user_input : string) : list call * option string :=
  let text := lower user_input in
  if str_in "calendar" text then
    if str_in "priya" text then
      ([CheckCalendar (Some "priya")],
       Some ("Priya’s availability: " ++ repr_list (check_calendar "priya")))
    else if str_in "shivam" text then
      ([CheckCalendar (Some "shivam")],
       Some ("Shivam’s availability: " ++ repr_list (check_calendar "shivam")))
    else ([], Some "Whose calendar do you want to check?")
  else if str_in "email" text then
    let recipient :=
      if str_in "priya" text then "priya@example.com"
      else if str_in "shivam" text then "raishivam313@gmail.com"
      else "someone@example.com" in
    let subject := "Meeting" in
    let body := "Let’s connect at Thu 11AM." in
    ([SendEmail recipient subject body], Some (send_email recipient subject body))
  else ([], None).

Section Program.
Context `{Json} `{Backend}.

(** The [for line in f] loop of [load_history]. *)
Fixpoint load_lines (lines : list string) (history : list value)
  : result (list value) :=
  match lines with
  | [] => Ok history
  | line :: rest =>
      (rec <- loads line ;;
       role <- subscript rec "role" ;;
       content <- subscript rec "content" ;;
       load_lines rest (history ++ [entry role content])%list)%result
  end.

(** [load_history] *)
Definition load_history (f : TextFile.file) : result (list value) :=
  match f with
  | None => Ok []
  | Some content => load_lines (TextFile.readlines content) []
  end.

(** [start_chat(persist=True)] *)
Definition start_chat : M state chat_session :=
  (w <- get ;;
   loaded <- lift (load_history (transcript w)) ;;
   ret (model_start_chat
          ([entry (VStr "user") (VStr SYSTEM_PROMPT)] ++ loaded)%list))%py.

(** The rest of the loop body for an input that is not a command.
    [if tool_result:] holds for a string that is not empty. *)
Definition turn (user : string) : M state unit :=
  match snd (handle_tools user) with
  | Some (String a t) =>
      let tool_result := String a t in
      (emit (print [VStr "🔧 Tool:"; VStr tool_result]) ;;
       append_history "user" user ;;
       append_history "model" tool_result)%py
  | _ =>
      (append_history "user" user ;;
       r <- try_stream user ;;
       if fst r then append_history "model" (snd r) else ret tt)%py
  end.

(** The [while True] loop, over the input still to come. *)
Fixpoint chat_loop (inputs : list input_event) : M state unit :=
  (emit (Print [VStr "You: "] "") ;;
   match inputs with
   | [] => emit (print [VStr (nl ++ "Bye! 👋")])
   | CtrlC :: _ => emit (print [VStr (nl ++ "Bye! 👋")])
   | Line raw :: rest =>
       let user := strip raw in
       if String.eqb user "" then chat_loop rest
       else if String.eqb (lower user) "/exit" then
         emit (print [VStr "Bye! 👋"])
       else if String.eqb (lower user) "/reset" then
         reset_history ;;
         c <- start_chat ;;
         set_chat c ;;
         emit (print [VStr "🧹 Memory cleared."]) ;;
         chat_loop rest
       else
         turn user ;;
         chat_loop rest
   end)%py.

(** [interactive_chat] *)
Definition interactive_chat (inputs : list input_event) : M state unit :=
  (emit (print [VStr ("🤖 Gemini Assistant (" ++ MODEL_NAME ++ ") ready!")]) ;;
   emit (print [VStr ("Commands: /reset (clear memory), /exit (quit)" ++ nl)]) ;;
   c <- start_chat ;;
   set_chat c ;;
   chat_loop inputs)%py.
End Program.
End Assistant.

(* ------------------------------------------------------------------ *)
(** ** [gemini_real_assistant.py] *)

Module RealAssistant.
Import PyStr Client.

Definition CALENDAR_SCOPES : list string := ["https://www.googleapis.com/auth/calendar"].

Definition GMAIL_SCOPES : list string := ["https://www.googleapis.com/auth/gmail.send"].

(** The tools of this program talk to Google services.  Given from outside:
    - whether [get_service(api, version, scopes)] builds a client or raises;
    - for [check_calendar], once the client is built: the text that an
      f-string shows for the value returned (the sentence "No upcoming
      events." or the [str] of the list of events), or the exception of the
      calendar service;
    - for [send_email], once the client is built: the text of the id of the
      message sent, or the exception raised on the way. *)
Class Tools : Type := {
  get_service : string -> string -> list string -> result unit;
  upcoming_events : result string;
  send_message : string -> string -> string -> result string
}.

Section Program.
Context `{Json} `{Backend} `{Tools}.

(** [check_calendar()], as the f-string of [handle_tools] shows it. *)
Definition check_calendar : result string :=
  (_ <- get_service "calendar" "v3" CALENDAR_SCOPES ;;
   upcoming_events)%result.

(** [send_email(to, subject, body)] *)
Definition send_email (to subject body : string) : result string :=
  (_ <- get_service "gmail" "v1" GMAIL_SCOPES ;;
   id <- send_message to subject body ;;
   Ok ("📧 Real email sent to " ++ to ++ " (ID: " ++ id ++ ")"))%result.

(** [create_meeting()], as [handle_tools] calls it.  After the client is
    built and the start time is set, the line that computes the end time
    evaluates the name [timedelta], which the module never imports ([from
    datetime import datetime, timezone]): every call that gets that far
    raises [NameError], before any event is inserted. *)
Definition create_meeting : result string :=
  (_ <- get_service "calendar" "v3" CALENDAR_SCOPES ;;
   Raise (NameError "timedelta"))%result.

(** [handle_tools]: the tool calls made, in order, and the value returned
    or the exception of the tool that failed. *)
Definition handle_tools (user_input : string)
  : list call * result (option string) :=
  let text := lower user_input in
  if str_in "calendar" text then
    ([CheckCalendar None],
     (events <- check_calendar ;;
      Ok (Some ("📅 Upcoming events: " ++ events)))%result)
  else if str_in "meeting" text || str_in "meet link" text then
    ([CreateMeeting],
     (link <- create_meeting ;;
      Ok (Some ("✅ Meeting created with Google Meet link: " ++ link)))%result)
  else if str_in "email" text then
    let recipient :=
      if str_in "shivam" text then "raishivam313@gmail.com"
      else "someone@example.com" in
    let subject := "Meeting Link" in
    match create_meeting with
    | Raise e => ([CreateMeeting], Raise e)
    | Ok link =>
        let body := "Here’s your meeting link: " ++ link in
        ([CreateMeeting; SendEmail recipient subject body],
         (sent <- send_email recipient subject body ;; Ok (Some sent))%result)
    end
  else ([], Ok None).

(** [load_history]: the text of the one in [ai_agent.py]. *)
Definition load_history (f : TextFile.file) : result (list value) :=
  Assistant.load_history f.
End Program.
End RealAssistant.

(* ------------------------------------------------------------------ *)
(** ** A reference codec

    A [Json] instance to run the programs with.  It writes what [json.dumps]
    writes for ASCII text (separators [", "] and [": "], the short escapes,
    [\u00xx] for the other characters outside the printable range) and reads
    back objects whose values are strings. *)

Module RefJson.

Definition dquote : ascii := "034"%char.

Definition hex_digit (n : nat) : ascii :=
  match n with
  | 0 => "0" | 1 => "1" | 2 => "2" | 3 => "3" | 4 => "4" | 5 => "5"
  | 6 => "6" | 7 => "7" | 8 => "8" | 9 => "9" | 10 => "a" | 11 => "b"
  | 12 => "c" | 13 => "d" | 14 => "e" | _ => "f"
  end%char.

Definition hex_value (c : ascii) : option nat :=
  let n := nat_of_ascii c in
  if Nat.leb 48 n && Nat.leb n 57 then Some (n - 48)
  else if Nat.leb 97 n && Nat.leb n 102 then Some (n - 87)
  else if Nat.leb 65 n && Nat.leb n 70 then Some (n - 55)
  else None.

Definition escape_char (c : ascii) : string :=
  let n := nat_of_ascii c in
  if Nat.eqb n 34 then String "\" (String dquote "")
  else if Nat.eqb n 92 then "\\"
  else if Nat.eqb n 10 then "\n"
  else if Nat.eqb n 13 then "\r"
  else if Nat.eqb n 9 then "\t"
  else if Nat.eqb n 8 then "\b"
  else if Nat.eqb n 12 then "\f"
  else if Nat.ltb n 32 || Nat.ltb 126 n then
    "\u00" ++ String (hex_digit (n / 16)) (String (hex_digit (n mod 16)) "")
  else String c "".

Fixpoint escape (s : string) : string :=
  match s with
  | EmptyString => EmptyString
  | String c s' => escape_char c ++ escape s'
  end.

Definition quote (s : string) : string :=
  String dquote (escape s ++ String dquote "").

Fixpoint dumps (v : value) : string :=
  match v with
  | VNone => "null"
  | VBool true => "true"
  | VBool false => "false"
  | VNum literal => literal
  | VStr s => quote s
  | VList l => "[" ++ PyStr.join ", " (map dumps l) ++ "]"
  | VDict d =>
      "{" ++ PyStr.join ", " (map (fun kv => quote (fst kv) ++ ": " ++ dumps (snd kv)) d)
        ++ "}"
  end.

Definition is_ws (c : ascii) : bool :=
  let n := nat_of_ascii c in
  Nat.eqb n 32 || Nat.eqb n 9 || Nat.eqb n 10 || Nat.eqb n 13.

Fixpoint skip_ws (s : string) : string :=
  match s with
  | EmptyString => EmptyString
  | String c s' => if is_ws c then skip_ws s' else s
  end.

(** The character a short escape stands for. *)
Definition unescape (c : ascii) : option ascii :=
  let n := nat_of_ascii c in
  if Nat.eqb n 34 then Some c
  else if Nat.eqb n 92 then Some c
  else if Nat.eqb n 47 then Some c
  else if Nat.eqb n 110 then Some newline
  else if Nat.eqb n 114 then Some carriage_return
  else if Nat.eqb n 116 then Some (ascii_of_nat 9)
  else if Nat.eqb n 98 then Some (ascii_of_nat 8)
  else if Nat.eqb n 102 then Some (ascii_of_nat 12)
  else None.

Definition hex4 (a b c d : ascii) : option ascii :=
  match hex_value a, hex_value b, hex_value c, hex_value d with
  | Some 0, Some 0, Some h, Some l => Some (ascii_of_nat (16 * h + l))
  | _, _, _, _ => None
  end.

(** Reads a string after its opening quote: the text and what follows the
    closing quote. *)
Fixpoint parse_string (s : string) : option (string * string) :=
  match s with
  | EmptyString => None
  | String c rest =>
      if Nat.eqb (nat_of_ascii c) 34 then Some ("", rest)
      else if Nat.eqb (nat_of_ascii c) 92 then
        match rest with
        | EmptyString => None
        | String e rest1 =>
            if Nat.eqb (nat_of_ascii e) 117 then
              match rest1 with
              | String h1 (String h2 (String h3 (String h4 rest2))) =>
                  match hex4 h1 h2 h3 h4, parse_string rest2 with
                  | Some x, Some (t, after) => Some (String x t, after)
                  | _, _ => None
                  end
              | _ => None
              end
            else
              match unescape e, parse_string rest1 with
              | Some x, Some (t, after) => Some (String x t, after)
              | _, _ => None
              end
        end
      else if Nat.ltb (nat_of_ascii c) 32 then None
      else
        match parse_string rest with
        | Some (t, after) => Some (String c t, after)
        | None => None
        end
  end.

(** Expects the character with code [n], after white space. *)
Definition expect (n : nat) (s : string) : option string :=
  match skip_ws s with
  | String c rest => if Nat.eqb (nat_of_ascii c) n then Some rest else None
  | EmptyString => None
  end.

(** Reads ["key": "value"] pairs up to the closing brace; [s] starts at a
    key.  A key seen again takes the new value, as in a Python [dict]. *)
Fixpoint parse_members (fuel : nat) (s : string) (d : dict) : option (dict * string) :=
  match fuel with
  | 0 => None
  | S fuel' =>
      match expect 34 s with
      | None => None
      | Some s1 =>
          match parse_string s1 with
          | None => None
          | Some (k, s2) =>
              match expect 58 s2 with
              | None => None
              | Some s3 =>
                  match expect 34 s3 with
                  | None => None
                  | Some s4 =>
                      match parse_string s4 with
                      | None => None
                      | Some (v, s5) =>
                          let d' := dict_set d k (VStr v) in
                          match skip_ws s5 with
                          | String c s6 =>
                              if Nat.eqb (nat_of_ascii c) 44 then parse_members fuel' s6 d'
                              else if Nat.eqb (nat_of_ascii c) 125 then Some (d', s6)
                              else None
                          | EmptyString => None
                          end
                      end
                  end
              end
          end
      end
  end.

Definition loads (s : string) : option value :=
  match expect 123 s with
  | None => None
  | Some s1 =>
      match skip_ws s1 with
      | EmptyString => None
      | String c s2 =>
          let members :=
            if Nat.eqb (nat_of_ascii c) 125 then Some ([], s2)
            else parse_members (String.length s) s1 [] in
          match members with
          | Some (d, after) =>
              match skip_ws after with
              | EmptyString => Some (VDict d)
              | _ => None
              end
          | None => None
          end
      end
  end.

(** One member of an object, as [dumps] writes it. *)
Definition member (kv : string * string) : string :=
  quote (fst kv) ++ ": " ++ quote (snd kv).

(** The dictionary built by reading the members in order. *)
Definition read_into (d : dict) (kvs : list (string * string)) : dict :=
  fold_left (fun d kv => dict_set d (fst kv) (VStr (snd kv))) kvs d.

Definition codec : Json := {| json_dumps := dumps; json_loads := loads |}.

End RefJson.

(* ------------------------------------------------------------------ *)
(** ** Vocabulary of the statements *)

(** The keys of [slots] in [CalendarAPI.check_availability]. *)
Definition known_person (person : string) : bool :=
  String.eqb person "user" || String.eqb person "Priya".

(** The keys of the table in [check_calendar], met after [user.lower()]. *)
Definition known_user (user : string) : bool :=
  String.eqb (PyStr.lower user) "shivam" || String.eqb (PyStr.lower user) "priya".

Definition is_send_email (c : call) : bool :=
  match c with
  | SendEmail _ _ _ => true
  | _ => false
  end.

(** A file that is empty or ends with a line feed: the next record written
    starts a line of its own. *)
Fixpoint terminated (s : string) : bool :=
  match s with
  | EmptyString => true
  | String c EmptyString => Ascii.eqb c newline
  | String _ s' => terminated s'
  end.

Definition well_terminated (f : TextFile.file) : bool :=
  match f with
  | None => true
  | Some content => terminated content
  end.

(** A turn as the chat loops write it: a role and a content. *)
Definition turn_entry (t : string * string) : value :=
  VDict [("role", VStr (fst t)); ("parts", VList [VStr (snd t)])].

Definition user_or_model (role : value) : bool :=
  eq_str role "user" || eq_str role "model".

(** A parsed record that has the two fields [load_history] reads. *)
Definition has_role_content (rec role content : value) : Prop :=
  subscript rec "role" = Ok role /\ subscript rec "content" = Ok content.

(** The line that [append_history] writes. *)
Definition record_line `{Json} (ts role content : string) : string :=
  json_dumps (VDict (str_dict [("ts", ts); ("role", role); ("content", content)])) ++ nl.

Section AppendAll.
Context `{Json} `{Client.Backend}.

(** [append_history] called once per turn, in order. *)
Fixpoint append_all (turns : list (string * string)) : M Client.state unit :=
  match turns with
  | [] => ret tt
  | t :: rest => (append_history (fst t) (snd t) ;; append_all rest)%py
  end.
End AppendAll.

Module Script.
Import AiAgent.

(** A backend that replays prepared answers, one per call, in the place of
    [FakeGPT]; past the script it answers with the empty text. *)
Definition t : Type := list string.

Definition run (self : t) (task : string) : t * string :=
  match self with
  | [] => ([], "")
  | answer :: rest => (rest, answer)
  end.

Definition Script_GPT : GPT t := run.
#[global] Existing Instance Script_GPT.

Definition agent (script : t) : AIAgent.t t := {| AIAgent.gpt := script |}.
End Script.

Section Responses.
Import AiAgent.
Context {G : Type} `{GPT G}.

(** The backend after [n] calls of [run(task)]. *)
Fixpoint gpt_after (n : nat) (g : G) (task : string) : G :=
  match n with
  | 0 => g
  | S n' => gpt_after n' (fst (gpt_run g task)) task
  end.

(** The answer to call number [n + 1]. *)
Definition response (n : nat) (g : G) (task : string) : string :=
  snd (gpt_run (gpt_after n g task) task).
End Responses.

(** A step record: a dictionary with the five fields, [final_answer] a text. *)
Definition is_step_record (v : value) : bool :=
  match v with
  | VDict d =>
      match dict_get d "thought", dict_get d "plan", dict_get d "action",
            dict_get d "observation", dict_get d "final_answer" with
      | Some _, Some _, Some _, Some _, Some (VStr _) => true
      | _, _, _, _, _ => false
      end
  | _ => false
  end.

(** The completion test of the loop on a record. *)
Definition signals_completion (v : value) : bool :=
  match subscript v "final_answer" with
  | Ok (VStr s) => PyStr.str_in "successfully" (PyStr.lower s)
  | _ => false
  end.

(** The two actions that the loop executes. *)
Definition is_tool_action (action : value) : bool :=
  eq_str action "CalendarAPI.check_availability" || eq_str action "EmailAPI.draft_email".

(** A field of a record, [None] standing for a missing one. *)
Definition field (v : value) (k : string) : value :=
  match subscript v k with
  | Ok x => x
  | Raise _ => VNone
  end.

(** The observation that the loop shows for a record: the result of the tool
    when the action is one of the two tools, the record's own otherwise. *)
Definition shown_observation (v : value) : value :=
  if eq_str (field v "action") "CalendarAPI.check_availability" then
    VStr ("User: " ++ PyStr.repr_list (AiAgent.check_availability "user")
            ++ " | Priya: " ++ PyStr.repr_list (AiAgent.check_availability "Priya"))
  else if eq_str (field v "action") "EmailAPI.draft_email" then
    VStr (AiAgent.draft_email "Priya" "Meeting Confirmation"
            "Hi Priya, confirming our meeting on Thu 11AM.")
  else field v "observation".

(** What step number [n] prints for the record [v]. *)
Definition step_output (n : nat) (v : value) : list out :=
  [print [VStr ("--- Step " ++ dec n ++ " ---")];
   print [VStr "Thought:"; field v "thought"];
   print [VStr "Plan:"; field v "plan"];
   print [VStr "Action:"; field v "action"];
   print [VStr "Observation:"; shown_observation v];
   print [VStr "Final Answer:"; field v "final_answer"; VStr nl]].

Section Frames.
Import AiAgent AiAgent.AIAgent.
Context {G : Type} {GP : GPT G}.

(** The frame after a round that read the record [v]. *)
Definition next_frame (task : string) (f : frame G) (v : value) : frame G :=
  {| self := {| gpt := fst (gpt_run (gpt (self f)) task) |};
     step := step f + 1;
     done := if signals_completion v then true else done f;
     stdout := (stdout f ++ step_output (step f + 1) v)%list |}.

(** A computation that leaves the counter [step] as it is. *)
Definition keeps_step {A} (m : M (frame G) A) : Prop :=
  forall f f' r, m f = (f', r) -> step f' = step f.
End Frames.
Arguments keeps_step G {A} m.

(** An answer of a backend: the five fields, written by [json.dumps]. *)
Definition answer `{Json} (thought plan action observation final_answer : string)
  : string :=
  json_dumps (VDict (str_dict [("thought", thought); ("plan", plan);
                               ("action", action); ("observation", observation);
                               ("final_answer", final_answer)])).

(** A model call that does not reach the end of its stream. *)
Definition reply_fails (r : Client.reply) : bool :=
  match r with
  | Client.SendFails _ => true
  | Client.Stream _ (Some _) => true
  | Client.Stream _ None => false
  end.

(** [if tool_result:] does not hold: the model is asked. *)
Definition no_tool_result (user : string) : bool :=
  match snd (Assistant.handle_tools user) with
  | Some (String _ _) => false
  | _ => true
  end.

(** A backend for examples: one part of an answer arrives, then the stream
    fails. *)
Definition breaking_backend : Client.Backend :=
  {| Client.send_message := fun _ _ =>
       Client.Stream
         [{| Client.candidates :=
               [{| Client.parts := [{| Client.text := Some "Sure, I" |}] |}] |}]
         (Some (Client.ClientError "stream reset"));
     Client.isoformat := fun n => "2025-01-01T00:00:0" ++ dec n ++ "+00:00" |}.

(** Tools for examples: every Google service answers. *)
Definition sample_tools : RealAssistant.Tools :=
  {| RealAssistant.get_service := fun _ _ _ => Ok tt;
     RealAssistant.upcoming_events := Ok "No upcoming events.";
     RealAssistant.send_message := fun _ _ _ => Ok "1" |}.

(** U+00A0, the no-break space, in UTF-8. *)
Definition nbsp : string := String "194" (String "160" "").

(** U+2028, the line separator, in UTF-8. *)
Definition line_separator : string := String "226" (String "128" (String "168" "")).

(** A backend and a clock for examples: the model never answers. *)
Definition silent_backend : Client.Backend :=
  {| Client.send_message := fun _ _ => Client.SendFails (Client.ClientError "503 unavailable");
     Client.isoformat := fun n => "2025-01-01T00:00:0" ++ dec n ++ "+00:00" |}.

Definition fresh_state : Client.state :=
  {| Client.transcript := None; Client.clock := 0; Client.stdout := [];
     Client.chat := {| Client.history := []; Client.sent := [] |} |}.

(* ------------------------------------------------------------------ *)
(** ** [gemini_real_assistant.py]: the chat loop *)

Module RealChat.
Import PyStr Client.

Definition MODEL_NAME : string := "gemini-1.5-flash".

Definition SYSTEM_PROMPT : string :=
  "You are Shivam’s AI assistant. "
  ++ "You can chat naturally, but when useful, call tools like Calendar and Email. "
  ++ "Always explain your reasoning briefly before/after tool use.".

Section Program.
Context `{Json} `{Backend} `{RealAssistant.Tools}.

(** [start_chat(persist=True)] *)
Definition start_chat : M state chat_session :=
  (w <- get ;;
   loaded <- lift (RealAssistant.load_history (transcript w)) ;;
   ret (model_start_chat
          ([entry (VStr "user") (VStr SYSTEM_PROMPT)] ++ loaded)%list))%py.

(** The rest of the loop body for an input that is not a command.  The call
    of [handle_tools] stands outside every [try]: what a tool raises leaves
    the loop. *)
Definition turn (user : string) : M state unit :=
  match snd (RealAssistant.handle_tools user) with
  | Raise e => raise e
  | Ok (Some (String a t)) =>
      let tool_result := String a t in
      (emit (print [VStr "🔧 Tool:"; VStr tool_result]) ;;
       append_history "user" user ;;
       append_history "model" tool_result)%py
  | Ok _ =>
      (append_history "user" user ;;
       r <- try_stream user ;;
       if fst r then append_history "model" (snd r) else ret tt)%py
  end.

(** The [while True] loop, over the input still to come. *)
Fixpoint chat_loop (inputs : list input_event) : M state unit :=
  (emit (Print [VStr "You: "] "") ;;
   match inputs with
   | [] => emit (print [VStr (nl ++ "Bye! 👋")])
   | CtrlC :: _ => emit (print [VStr (nl ++ "Bye! 👋")])
   | Line raw :: rest =>
       let user := strip raw in
       if String.eqb user "" then chat_loop rest
       else if String.eqb (lower user) "/exit" then
         emit (print [VStr "Bye! 👋"])
       else if String.eqb (lower user) "/reset" then
         reset_history ;;
         c <- start_chat ;;
         set_chat c ;;
         emit (print [VStr "🧹 Memory cleared."]) ;;
         chat_loop rest
       else
         turn user ;;
         chat_loop rest
   end)%py.

(** [interactive_chat] *)
Definition interactive_chat (inputs : list input_event) : M state unit :=
  (emit (print [VStr ("🤖 Gemini Assistant (" ++ MODEL_NAME
                        ++ ") ready with real tools!")]) ;;
   emit (print [VStr ("Commands: /reset (clear memory), /exit (quit)" ++ nl)]) ;;
   c <- start_chat ;;
   set_chat c ;;
   chat_loop inputs)%py.
End Program.
End RealChat.

(* ------------------------------------------------------------------ *)
(** ** Vocabulary of the further properties *)

(** The text that the pieces of a stream add up to. *)
Fixpoint pieces (chunks : list Client.chunk) : string :=
  match chunks with
  | [] => ""
  | c :: rest =>
      match Client.piece_of c with
      | Some piece => piece ++ pieces rest
      | None => pieces rest
      end
  end.

(** A model client that fails with exceptions only, never with an interrupt. *)
Definition never_interrupted (B : Client.Backend) : Prop :=
  forall (c : Client.chat_session) (user : string),
    Client.send_message c user <> Client.SendFails Client.Interrupted /\
    forall chunks, Client.send_message c user <> Client.Stream chunks (Some Client.Interrupted).

(** A computation on the chat state that keeps a property of the transcript. *)
Definition keeps_transcript (P : TextFile.file -> Prop) {A} (m : M Client.state A) : Prop :=
  forall w w' r, m w = (w', r) -> P (Client.transcript w) -> P (Client.transcript w').

(** A computation on the chat state that ends without an exception. *)
Definition never_raises {A} (m : M Client.state A) : Prop :=
  forall w, exists w' a, m w = (w', Ok a).

(** The instruction turns that open a session. *)
Definition chat_instruction : value :=
  entry (VStr "user") (VStr ("(Instruction) " ++ GeminiChat.SYSTEM_PROMPT)).

Definition assistant_instruction : value :=
  entry (VStr "user") (VStr Assistant.SYSTEM_PROMPT).

(** The state after the command [/reset] was typed at the prompt. *)
Definition after_reset (instruction : value) (w : Client.state) : Client.state :=
  {| Client.transcript := None;
     Client.clock := Client.clock w;
     Client.stdout := (Client.stdout w ++ [Print [VStr "You: "] "";
                                           print [VStr "🧹 Memory cleared."]])%list;
     Client.chat := model_start_chat [instruction] |}.

(** The state after the prompt was printed. *)
Definition prompted (w : Client.state) : Client.state :=
  {| Client.transcript := Client.transcript w;
     Client.clock := Client.clock w;
     Client.stdout := (Client.stdout w ++ [Print [VStr "You: "] ""])%list;
     Client.chat := Client.chat w |}.

(** A backend for examples: the answer arrives in three chunks, the second
    one without candidates. *)
Definition streaming_backend : Client.Backend :=
  {| Client.send_message := fun _ _ =>
       Client.Stream
         [{| Client.candidates :=
               [{| Client.parts := [{| Client.text := Some "2 + 2 " |}] |}] |};
          {| Client.candidates := [] |};
          {| Client.candidates :=
               [{| Client.parts := [{| Client.text := Some "is 4." |}] |}] |}]
         None;
     Client.isoformat := fun n => "2025-01-01T00:00:0" ++ dec n ++ "+00:00" |}.

(** A computation of the agent loop that leaves the agent object as it is. *)
Definition keeps_agent (G : Type) {A} (m : M (AiAgent.AIAgent.frame G) A) : Prop :=
  forall f f' r, m f = (f', r) -> AiAgent.AIAgent.self f' = AiAgent.AIAgent.self f.
Arguments keeps_agent G {A} m.

(** A dictionary that has the fields of a step record other than the
    observation, with a text for the final answer. *)
Definition has_step_fields (d : dict) : bool :=
  match dict_get d "thought", dict_get d "plan", dict_get d "action",
        dict_get d "final_answer" with
  | Some _, Some _, Some _, Some (VStr _) => true
  | _, _, _, _ => false
  end.

(** An answer for examples whose final answer is the JSON [null], and a
    decoder that reads this one document. *)
Definition null_reply : string :=
  "{" ++ RefJson.quote "thought" ++ ": " ++ RefJson.quote "Nothing to say." ++ ", "
      ++ RefJson.quote "plan" ++ ": " ++ RefJson.quote "Stop." ++ ", "
      ++ RefJson.quote "action" ++ ": " ++ RefJson.quote "none" ++ ", "
      ++ RefJson.quote "observation" ++ ": " ++ RefJson.quote "All done." ++ ", "
      ++ RefJson.quote "final_answer" ++ ": null}".

Definition null_reply_value : dict :=
  [("thought", VStr "Nothing to say."); ("plan", VStr "Stop.");
   ("action", VStr "none"); ("observation", VStr "All done.");
   ("final_answer", VNone)].

Definition null_reply_codec : Json :=
  {| json_dumps := RefJson.dumps;
     json_loads := fun s =>
       if String.eqb s null_reply then Some (VDict null_reply_value) else RefJson.loads s |}.

(** Tools for examples: the calendar service is down. *)
Definition failing_tools : RealAssistant.Tools :=
  {| RealAssistant.get_service := fun _ _ _ => Raise (OtherException "503 calendar unavailable");
     RealAssistant.upcoming_events := Raise (OtherException "503 calendar unavailable");
     RealAssistant.send_message := fun _ _ _ => Raise (OtherException "503 gmail unavailable") |}.

(* ------------------------------------------------------------------ *)
(** * Theorems *)

(** ** The definitions at work *)

Example lower_mixed_case :
  PyStr.lower "Check my CALENDAR, Priya!" = "check my calendar, priya!".
Proof. reflexivity. Qed.

Example strip_unicode_space :
  PyStr.strip (nbsp ++ " /Reset now" ++ line_separator ++ nbsp) = "/Reset now".
Proof. reflexivity. Qed.

Example strip_keeps_inner_space :
  PyStr.strip ("a" ++ nbsp ++ "b ") = "a" ++ nbsp ++ "b".
Proof. reflexivity. Qed.

Example strip_only_space : PyStr.strip (" " ++ nbsp ++ line_separator) = "".
Proof. reflexivity. Qed.

Example strip_both_ends : PyStr.strip "   /Reset  " = "/Reset".
Proof. reflexivity. Qed.

Example keyword_in_any_case :
  PyStr.str_in "successfully" (PyStr.lower "Email drafted SUCCESSFULLY.") = true.
Proof. reflexivity. Qed.

Example calendar_answer :
  Assistant.handle_tools "When is Shivam free? Check the calendar." =
  ([CheckCalendar (Some "shivam")],
   Some "Shivam’s availability: ['Wed 10AM', 'Thu 11AM']").
Proof. reflexivity. Qed.

Example no_tool_for_small_talk : Assistant.handle_tools "How are you today?" = ([], None).
Proof. reflexivity. Qed.

Example record_on_disk :
  @record_line RefJson.codec "2025-01-01T00:00:00+00:00" "user" "a\b" =
  "{" ++ RefJson.quote "ts" ++ ": " ++ RefJson.quote "2025-01-01T00:00:00+00:00" ++ ", "
      ++ RefJson.quote "role" ++ ": " ++ RefJson.quote "user" ++ ", "
      ++ RefJson.quote "content" ++ ": " ++ RefJson.quote "a\b" ++ "}" ++ nl.
Proof. reflexivity. Qed.

Example escaped_line_break :
  RefJson.escape (String newline "") = "\n" /\
  RefJson.parse_string ("a\u000ab" ++ String RefJson.dquote "rest")
    = Some (String "a" (String newline "b"), "rest").
Proof. split; reflexivity. Qed.

Example two_lines_read :
  TextFile.readlines ("one" ++ String carriage_return nl ++ "two" ++ nl ++ "three")
  = ["one" ++ nl; "two" ++ nl; "three"].
Proof. reflexivity. Qed.

(** ** Strings *)

Lemma append_assoc (a b c : string) : (a ++ b) ++ c = a ++ (b ++ c).
Proof. induction a as [|x a IH]; simpl; [reflexivity | now rewrite IH]. Qed.

Lemma append_nil_r (a : string) : a ++ "" = a.
Proof. induction a as [|x a IH]; simpl; [reflexivity | now rewrite IH]. Qed.

Lemma length_append (a b : string) :
  String.length (a ++ b) = String.length a + String.length b.
Proof. induction a as [|x a IH]; simpl; [reflexivity | now rewrite IH]. Qed.

Lemma one_line_append (a b : string) :
  one_line (a ++ b) = one_line a && one_line b.
Proof.
  induction a as [|x a IH]; simpl; [reflexivity|].
  rewrite IH. now rewrite !andb_assoc.
Qed.

(** ** The reference codec obeys the laws *)

Module RefJsonFacts.
Import RefJson.

Ltac each_char c := destruct c as [[] [] [] [] [] [] [] []].

Lemma parse_escape_char (c : ascii) (t : string) :
  parse_string (escape_char c ++ t) =
  match parse_string t with
  | Some (u, after) => Some (String c u, after)
  | None => None
  end.
Proof. each_char c; reflexivity. Qed.

Lemma escape_char_one_line (c : ascii) : one_line (escape_char c) = true.
Proof. each_char c; reflexivity. Qed.

Lemma parse_string_escape (s rest : string) :
  parse_string (escape s ++ String dquote rest) = Some (s, rest).
Proof.
  induction s as [|c s IH]; simpl.
  - reflexivity.
  - rewrite append_assoc, parse_escape_char, IH. reflexivity.
Qed.

Lemma escape_one_line (s : string) : one_line (escape s) = true.
Proof.
  induction s as [|c s IH]; simpl; [reflexivity|].
  now rewrite one_line_append, escape_char_one_line, IH.
Qed.

Lemma quote_one_line (s : string) : one_line (quote s) = true.
Proof.
  unfold quote. simpl. now rewrite one_line_append, escape_one_line.
Qed.

Lemma dumps_str_dict (kvs : list (string * string)) :
  dumps (VDict (str_dict kvs)) = "{" ++ PyStr.join ", " (map member kvs) ++ "}".
Proof.
  unfold str_dict. simpl. do 2 f_equal.
  rewrite map_map. reflexivity.
Qed.

Lemma member_one_line kv : one_line (member kv) = true.
Proof.
  unfold member. now rewrite !one_line_append, !quote_one_line.
Qed.

Lemma join_one_line (l : list string) :
  (forall x, In x l -> one_line x = true) -> one_line (PyStr.join ", " l) = true.
Proof.
  induction l as [|x l IH]; intros Hl; [reflexivity|].
  destruct l as [|y l].
  - simpl. apply Hl. now left.
  - change (PyStr.join ", " (x :: y :: l)) with (x ++ ", " ++ PyStr.join ", " (y :: l)).
    rewrite !one_line_append, IH, (Hl x) by (intros; try apply Hl; simpl; auto).
    reflexivity.
Qed.

Lemma dumps_one_line_ref kvs : one_line (dumps (VDict (str_dict kvs))) = true.
Proof.
  rewrite dumps_str_dict. simpl. rewrite one_line_append, join_one_line; [reflexivity|].
  intros x Hx. apply in_map_iff in Hx as [kv [<- _]]. apply member_one_line.
Qed.

Lemma parse_member (kv : string * string) (rest : string) :
  parse_string (escape (fst kv) ++ String dquote (": " ++ quote (snd kv) ++ rest)) =
    Some (fst kv, ": " ++ quote (snd kv) ++ rest).
Proof. apply parse_string_escape. Qed.

Lemma expect_quote (rest : string) : expect 34 (String dquote rest) = Some rest.
Proof. reflexivity. Qed.

Lemma expect_space (n : nat) (rest : string) :
  expect n (String " " rest) = expect n rest.
Proof. reflexivity. Qed.

Lemma expect_colon (rest : string) : expect 58 (String ":" rest) = Some rest.
Proof. reflexivity. Qed.

(** Reading one member written by [dumps]. *)
Lemma parse_members_member (kv : string * string) (fuel : nat) (tail : string) (d : dict) :
  parse_members (S fuel) (member kv ++ tail) d =
  let d' := dict_set d (fst kv) (VStr (snd kv)) in
  match skip_ws tail with
  | String c s6 =>
      if Nat.eqb (nat_of_ascii c) 44 then parse_members fuel s6 d'
      else if Nat.eqb (nat_of_ascii c) 125 then Some (d', s6)
      else None
  | EmptyString => None
  end.
Proof.
  unfold member, quote.
  change (parse_members (S fuel) ?s d) with
    (match expect 34 s with
     | None => None
     | Some s1 =>
         match parse_string s1 with
         | None => None
         | Some (k, s2) =>
             match expect 58 s2 with
             | None => None
             | Some s3 =>
                 match expect 34 s3 with
                 | None => None
                 | Some s4 =>
                     match parse_string s4 with
                     | None => None
                     | Some (v, s5) =>
                         let d' := dict_set d k (VStr v) in
                         match skip_ws s5 with
                         | String c s6 =>
                             if Nat.eqb (nat_of_ascii c) 44 then parse_members fuel s6 d'
                             else if Nat.eqb (nat_of_ascii c) 125 then Some (d', s6)
                             else None
                         | EmptyString => None
                         end
                     end
                 end
             end
         end
     end).
  cbn [append]. rewrite !append_assoc. cbn [append].
  rewrite expect_quote, parse_string_escape, expect_colon, expect_space, expect_quote.
  rewrite !append_assoc. cbn [append].
  rewrite parse_string_escape. reflexivity.
Qed.

Lemma parse_members_join (kvs : list (string * string)) :
  forall kv fuel d after,
    length kvs < fuel ->
    parse_members fuel (PyStr.join ", " (map member (kv :: kvs)) ++ "}" ++ after) d
    = Some (read_into d (kv :: kvs), after).
Proof.
  induction kvs as [|kv' kvs IH]; intros kv fuel d after Hfuel;
    (destruct fuel as [|fuel]; [simpl in Hfuel; lia|]).
  - cbn [map PyStr.join]. rewrite parse_members_member. reflexivity.
  - change (PyStr.join ", " (map member (kv :: kv' :: kvs)))
      with (member kv ++ ", " ++ PyStr.join ", " (map member (kv' :: kvs))).
    rewrite !append_assoc, parse_members_member.
    cbn [append skip_ws is_ws]. cbv zeta.
    change (skip_ws (String "," ?s)) with (String "," s). cbv iota beta.
    change (Nat.eqb (nat_of_ascii ",") 44) with true. cbv iota.
    destruct fuel as [|fuel]; [simpl in Hfuel; lia|].
    change (read_into d (kv :: kv' :: kvs))
      with (read_into (dict_set d (fst kv) (VStr (snd kv))) (kv' :: kvs)).
    rewrite <- (IH kv' (S fuel) (dict_set d (fst kv) (VStr (snd kv))) after)
      by (simpl in Hfuel; lia).
    cbn [map]. generalize (PyStr.join ", " (member kv' :: map member kvs)). intros body.
    destruct body; reflexivity.
Qed.

Lemma read_into_fresh (kvs pre : list (string * string)) :
  NoDup (map fst (pre ++ kvs)) ->
  read_into (str_dict pre) kvs = str_dict (pre ++ kvs).
Proof.
  revert pre. induction kvs as [|kv kvs IH]; intros pre Hnd.
  - simpl. now rewrite app_nil_r.
  - simpl. replace (pre ++ kv :: kvs)%list with ((pre ++ [kv]) ++ kvs)%list
      by now rewrite <- app_assoc.
    rewrite <- IH by (now rewrite <- app_assoc).
    f_equal. clear IH.
    assert (Hk : ~ In (fst kv) (map fst pre)).
    { rewrite map_app in Hnd. simpl in Hnd.
      apply NoDup_remove_2 in Hnd. intros Hin. apply Hnd.
      apply in_or_app. now left. }
    clear Hnd. induction pre as [|p pre IHp]; simpl.
    + reflexivity.
    + destruct (String.eqb_spec (fst kv) (fst p)) as [E|E].
      * exfalso. apply Hk. simpl. now left.
      * rewrite IHp; [reflexivity|]. intros Hin. apply Hk. simpl. now right.
Qed.

Lemma join_length (l : list string) :
  (forall x, In x l -> 1 <= String.length x) ->
  length l <= String.length (PyStr.join ", " l).
Proof.
  induction l as [|x l IH]; intros Hl; [simpl; lia|].
  destruct l as [|y l].
  - simpl. apply Hl. now left.
  - change (PyStr.join ", " (x :: y :: l)) with (x ++ ", " ++ PyStr.join ", " (y :: l)).
    rewrite !length_append.
    assert (length (y :: l) <= String.length (PyStr.join ", " (y :: l)))
      by (apply IH; intros; apply Hl; simpl; auto).
    simpl in *. lia.
Qed.

Lemma member_length kv : 1 <= String.length (member kv).
Proof. unfold member, quote. simpl. lia. Qed.

(** What is written is read back, also when white space [ws] follows. *)
Lemma loads_dumps_ws (kvs : list (string * string)) (ws : string) :
  NoDup (map fst kvs) ->
  skip_ws ws = "" ->
  loads (dumps (VDict (str_dict kvs)) ++ ws) = Some (VDict (str_dict kvs)).
Proof.
  intros Hnd Hws. rewrite dumps_str_dict.
  destruct kvs as [|kv kvs].
  - unfold loads. simpl. now rewrite Hws.
  - unfold loads.
    change (expect 123 (("{" ++ ?b) ++ ws)) with (Some (b ++ ws)).
    cbv iota.
    assert (Hhead : exists t, PyStr.join ", " (map member (kv :: kvs)) = String dquote t).
    { cbn [map]. destruct (map member kvs); unfold member, quote; simpl; eauto. }
    destruct Hhead as [t Ht].
    assert (Hskip : skip_ws ((PyStr.join ", " (map member (kv :: kvs)) ++ "}") ++ ws)
                    = String dquote ((t ++ "}") ++ ws)).
    { rewrite Ht. reflexivity. }
    rewrite Hskip.
    change (Nat.eqb (nat_of_ascii dquote) 125) with false. cbv iota.
    rewrite (append_assoc (PyStr.join ", " (map member (kv :: kvs))) "}" ws).
    rewrite parse_members_join.
    + rewrite Hws. f_equal. f_equal.
      apply (read_into_fresh (kv :: kvs) []). exact Hnd.
    + rewrite !length_append.
      pose proof (join_length (map member (kv :: kvs))) as Hlen.
      rewrite length_map in Hlen.
      assert (length (kv :: kvs) <= String.length (PyStr.join ", " (map member (kv :: kvs)))).
      { apply Hlen. intros x Hx. apply in_map_iff in Hx as [kv0 [<- _]].
        apply member_length. }
      simpl in *. lia.
Qed.

Lemma codec_laws : JsonLaws codec.
Proof.
  constructor; intros; cbn [json_loads json_dumps codec].
  - rewrite <- (append_nil_r (dumps (VDict (str_dict kvs)))). now apply loads_dumps_ws.
  - now apply loads_dumps_ws.
  - apply dumps_one_line_ref.
Qed.
End RefJsonFacts.

(** ** Text files *)

Module TextFileFacts.
Import TextFile.

Lemma terminated_tail (c : ascii) (s : string) :
  terminated (String c s) = true -> terminated s = true.
Proof. destruct s; [reflexivity | intros H; exact H]. Qed.

Lemma terminated_append (a b : string) :
  terminated (a ++ b ++ nl) = true.
Proof.
  induction a as [|c a IH]; simpl.
  - induction b as [|c b IHb]; [reflexivity|].
    simpl. destruct (b ++ nl) eqn:E; [destruct b; discriminate | exact IHb].
  - destruct (a ++ b ++ nl) eqn:E; [|exact IH].
    destruct a; [destruct b|]; discriminate.
Qed.

Lemma universal_newlines_cons (c : ascii) (s : string) :
  universal_newlines (String c s) =
  if Ascii.eqb c carriage_return then
    match s with
    | String c' s' =>
        if Ascii.eqb c' newline then String newline (universal_newlines s')
        else String newline (universal_newlines s)
    | EmptyString => String newline EmptyString
    end
  else String c (universal_newlines s).
Proof. reflexivity. Qed.

Lemma universal_newlines_append (a b : string) :
  terminated a = true ->
  universal_newlines (a ++ b) = universal_newlines a ++ universal_newlines b.
Proof.
  remember (String.length a) as n eqn:Hn.
  revert a Hn. induction n as [n IH] using lt_wf_ind. intros a Hn Ht.
  destruct a as [|c a]; [reflexivity|].
  change (String c a ++ b) with (String c (a ++ b)).
  rewrite (universal_newlines_cons c a), (universal_newlines_cons c (a ++ b)).
  destruct (Ascii.eqb c carriage_return) eqn:Ec.
  - destruct a as [|c' a].
    + simpl in Ht. apply Ascii.eqb_eq in Ec, Ht. subst. discriminate.
    + cbn [String.append].
      destruct (Ascii.eqb c' newline).
      * cbn [String.append]. f_equal.
        apply (IH (String.length a)); [simpl in Hn; lia | reflexivity |].
        apply terminated_tail with (c := c'). apply terminated_tail with (c := c). exact Ht.
      * cbn [String.append]. f_equal.
        apply (IH (String.length (String c' a))) with (a := String c' a);
          [simpl in *; lia | reflexivity |].
        apply terminated_tail with (c := c). exact Ht.
  - cbn [String.append]. f_equal.
    apply (IH (String.length a)); [simpl in Hn; lia | reflexivity |].
    apply terminated_tail with (c := c). exact Ht.
Qed.

Lemma universal_newlines_one_line (d : string) :
  one_line d = true -> universal_newlines (d ++ nl) = d ++ nl.
Proof.
  induction d as [|c d IH]; intros H; [reflexivity|].
  simpl in H. apply andb_prop in H as [H Hd]. apply andb_prop in H as [_ Hc].
  change (String c d ++ nl) with (String c (d ++ nl)).
  rewrite universal_newlines_cons.
  destruct (Ascii.eqb c carriage_return); [discriminate|].
  now rewrite IH.
Qed.

Lemma universal_newlines_nonempty (c : ascii) (s : string) :
  universal_newlines (String c s) <> "".
Proof.
  rewrite universal_newlines_cons.
  destruct (Ascii.eqb c carriage_return); [|discriminate].
  destruct s as [|c' s]; [discriminate|]. destruct (Ascii.eqb c' newline); discriminate.
Qed.

Lemma terminated_cons (c : ascii) (s : string) :
  s <> "" -> terminated s = true -> terminated (String c s) = true.
Proof. destruct s; [congruence | intros _ H; exact H]. Qed.

Lemma universal_newlines_terminated (a : string) :
  terminated a = true -> terminated (universal_newlines a) = true.
Proof.
  remember (String.length a) as n eqn:Hn.
  revert a Hn. induction n as [n IH] using lt_wf_ind. intros a Hn Ht.
  destruct a as [|c a]; [reflexivity|].
  rewrite universal_newlines_cons.
  destruct (Ascii.eqb c carriage_return) eqn:Ec.
  - destruct a as [|c' a]; [reflexivity|].
    destruct (Ascii.eqb c' newline).
    + assert (H : terminated (universal_newlines a) = true).
      { apply (IH (String.length a)); [simpl in Hn; lia | reflexivity |].
        apply terminated_tail with (c := c'). apply terminated_tail with (c := c). exact Ht. }
      destruct a as [|c2 a]; [reflexivity|].
      apply terminated_cons; [apply universal_newlines_nonempty | exact H].
    + apply terminated_cons; [apply universal_newlines_nonempty|].
      apply (IH (String.length (String c' a))); [simpl in *; lia | reflexivity |].
      apply terminated_tail with (c := c). exact Ht.
  - destruct a as [|c' a]; [exact Ht|].
    apply terminated_cons; [apply universal_newlines_nonempty|].
    apply (IH (String.length (String c' a))); [simpl in *; lia | reflexivity |].
    apply terminated_tail with (c := c). exact Ht.
Qed.

Lemma split_lines_append (a b : string) :
  terminated a = true ->
  split_lines (a ++ b) = (split_lines a ++ split_lines b)%list.
Proof.
  induction a as [|c a IH]; intros Ht; [reflexivity|].
  cbn [String.append split_lines].
  destruct (Ascii.eqb c newline) eqn:Ec.
  - rewrite IH; [reflexivity|]. now apply terminated_tail with (c := c).
  - destruct a as [|c' a]; [simpl in Ht; congruence|].
    rewrite IH by (now apply terminated_tail with (c := c)).
    destruct (split_lines (String c' a)) eqn:E; [|reflexivity].
    exfalso. simpl in E. destruct (Ascii.eqb c' newline); [discriminate|].
    destruct (split_lines a); discriminate.
Qed.

Lemma split_lines_one_line (d : string) :
  one_line d = true -> split_lines (d ++ nl) = [d ++ nl].
Proof.
  induction d as [|c d IH]; intros H; [reflexivity|].
  simpl in H. apply andb_prop in H as [H Hd]. apply andb_prop in H as [Hc _].
  cbn [String.append split_lines].
  destruct (Ascii.eqb c newline); [discriminate|].
  now rewrite IH.
Qed.

(** A record written after a terminated text is one more line. *)
Lemma readlines_append (a d : string) :
  terminated a = true -> one_line d = true ->
  readlines (a ++ d ++ nl) = (readlines a ++ [(d ++ nl)%string])%list.
Proof.
  intros Ha Hd. unfold readlines.
  rewrite universal_newlines_append by exact Ha.
  rewrite universal_newlines_one_line by exact Hd.
  rewrite split_lines_append by (now apply universal_newlines_terminated).
  now rewrite split_lines_one_line.
Qed.

Lemma readlines_first (d : string) :
  one_line d = true -> readlines (d ++ nl) = [d ++ nl].
Proof. intros Hd. apply (readlines_append "" d); [reflexivity | exact Hd]. Qed.
End TextFileFacts.

(** ** The transcript store *)

Section Store.
Import Client TextFileFacts.
Context {J : Json} (L : JsonLaws J) {B : Backend}.

Lemma record_keys_distinct (ts role content : string) :
  NoDup (map fst [("ts", ts); ("role", role); ("content", content)]).
Proof.
  simpl. repeat constructor; simpl; intuition discriminate.
Qed.

Lemma loads_record_line (ts role content : string) :
  loads (record_line ts role content) =
  Ok (VDict (str_dict [("ts", ts); ("role", role); ("content", content)])).
Proof.
  unfold loads, record_line.
  now rewrite (loads_dumps_nl _ (record_keys_distinct ts role content)).
Qed.

Lemma assistant_load_lines_app (l1 l2 : list string) (h : list value) :
  Assistant.load_lines (l1 ++ l2) h =
  (h' <- Assistant.load_lines l1 h ;; Assistant.load_lines l2 h')%result.
Proof.
  revert h. induction l1 as [|line l1 IH]; intros h; [reflexivity|].
  cbn [app Assistant.load_lines].
  destruct (loads line) as [rec|e]; [|reflexivity]. cbn [bind].
  destruct (subscript rec "role") as [role|e]; [|reflexivity]. cbn [bind].
  destruct (subscript rec "content") as [content|e]; [|reflexivity]. cbn [bind].
  apply IH.
Qed.

Lemma chat_load_lines_app (l1 l2 : list string) (h : list value) :
  GeminiChat.load_lines (l1 ++ l2) h =
  (h' <- GeminiChat.load_lines l1 h ;; GeminiChat.load_lines l2 h')%result.
Proof.
  revert h. induction l1 as [|line l1 IH]; intros h; [reflexivity|].
  cbn [app GeminiChat.load_lines].
  destruct (loads line) as [rec|e]; [|reflexivity]. cbn [bind].
  destruct (subscript rec "role") as [role|e]; [|reflexivity]. cbn [bind].
  destruct (subscript rec "content") as [content|e]; [|reflexivity]. cbn [bind].
  destruct (eq_str role "user" || eq_str role "model"); apply IH.
Qed.

Lemma assistant_load_record (ts role content : string) (h : list value) :
  Assistant.load_lines [record_line ts role content] h =
  Ok (h ++ [turn_entry (role, content)])%list.
Proof.
  cbn [Assistant.load_lines]. rewrite loads_record_line. reflexivity.
Qed.

Lemma chat_load_record (ts role content : string) (h : list value) :
  GeminiChat.load_lines [record_line ts role content] h =
  Ok (if user_or_model (VStr role) then (h ++ [turn_entry (role, content)])%list else h).
Proof.
  cbn [GeminiChat.load_lines]. rewrite loads_record_line.
  cbn. unfold user_or_model. cbn.
  destruct (String.eqb role "user" || String.eqb role "model"); reflexivity.
Qed.

Lemma readlines_after_append (f : TextFile.file) (ts role content : string) :
  well_terminated f = true ->
  match TextFile.append f (record_line ts role content) with
  | Some text =>
      TextFile.readlines text =
      ((match f with Some old => TextFile.readlines old | None => [] end)
         ++ [record_line ts role content])%list
  | None => False
  end.
Proof.
  intros Hf. destruct f as [old|]; cbn [TextFile.append].
  - apply readlines_append; [exact Hf | apply dumps_one_line].
  - apply readlines_first. apply dumps_one_line.
Qed.

Lemma append_well_terminated (f : TextFile.file) (ts role content : string) :
  well_terminated (TextFile.append f (record_line ts role content)) = true.
Proof.
  destruct f as [old|]; cbn [TextFile.append well_terminated]; unfold record_line.
  - apply terminated_append.
  - apply (terminated_append "").
Qed.

(** Loading after one more [append_history]: the old turns, then the new one. *)
Lemma assistant_load_after_append (f : TextFile.file) (ts role content : string)
      (h : list value) :
  well_terminated f = true ->
  Assistant.load_history f = Ok h ->
  Assistant.load_history (TextFile.append f (record_line ts role content)) =
  Ok (h ++ [turn_entry (role, content)])%list.
Proof.
  intros Hf Hh. pose proof (readlines_after_append f ts role content Hf) as Hr.
  destruct (TextFile.append f (record_line ts role content)) as [text|]; [|contradiction].
  cbn [Assistant.load_history]. rewrite Hr, assistant_load_lines_app.
  destruct f as [old|]; cbn [Assistant.load_history] in Hh.
  - rewrite Hh. cbn [bind]. apply assistant_load_record.
  - injection Hh as <-. cbn [Assistant.load_lines bind]. apply assistant_load_record.
Qed.

Lemma chat_load_after_append (f : TextFile.file) (ts role content : string)
      (h : list value) :
  well_terminated f = true ->
  GeminiChat.load_history f = Ok h ->
  GeminiChat.load_history (TextFile.append f (record_line ts role content)) =
  Ok (if user_or_model (VStr role) then (h ++ [turn_entry (role, content)])%list else h).
Proof.
  intros Hf Hh. pose proof (readlines_after_append f ts role content Hf) as Hr.
  destruct (TextFile.append f (record_line ts role content)) as [text|]; [|contradiction].
  cbn [GeminiChat.load_history]. rewrite Hr, chat_load_lines_app.
  destruct f as [old|]; cbn [GeminiChat.load_history] in Hh.
  - rewrite Hh. cbn [bind]. apply chat_load_record.
  - injection Hh as <-. cbn [GeminiChat.load_lines bind]. apply chat_load_record.
Qed.

(** What one call of [append_history] does to the state. *)
Lemma append_history_state (role content : string) (w : state) :
  append_history role content w =
  ({| transcript := TextFile.append (transcript w)
                      (record_line (isoformat (clock w)) role content);
      clock := clock w + 1; stdout := stdout w; chat := chat w |}, Ok tt).
Proof. reflexivity. Qed.

Lemma append_all_cons (t : string * string) (rest : list (string * string)) (w : state) :
  append_all (t :: rest) w = append_all rest (fst (append_history (fst t) (snd t) w)).
Proof. reflexivity. Qed.

Lemma assistant_load_append_all (turns : list (string * string)) :
  forall (w : state) (h : list value),
    well_terminated (transcript w) = true ->
    Assistant.load_history (transcript w) = Ok h ->
    Assistant.load_history (transcript (fst (append_all turns w))) =
    Ok (h ++ map turn_entry turns)%list.
Proof.
  induction turns as [|t turns IH]; intros w h Hw Hh.
  - cbn. now rewrite app_nil_r.
  - rewrite append_all_cons, append_history_state. cbn [fst].
    rewrite (IH _ (h ++ [turn_entry t])%list).
    + now rewrite <- app_assoc.
    + apply append_well_terminated.
    + cbn [transcript]. destruct t as [role content].
      now apply assistant_load_after_append.
Qed.

Lemma chat_load_append_all (turns : list (string * string)) :
  forall (w : state) (h : list value),
    well_terminated (transcript w) = true ->
    GeminiChat.load_history (transcript w) = Ok h ->
    GeminiChat.load_history (transcript (fst (append_all turns w))) =
    Ok (h ++ map turn_entry (filter (fun t => user_or_model (VStr (fst t))) turns))%list.
Proof.
  induction turns as [|t turns IH]; intros w h Hw Hh.
  - cbn. now rewrite app_nil_r.
  - rewrite append_all_cons, append_history_state. cbn [fst].
    destruct t as [role content]. cbn [filter fst snd].
    rewrite (IH _ (if user_or_model (VStr role)
                   then (h ++ [turn_entry (role, content)])%list else h)).
    + destruct (user_or_model (VStr role)); [|reflexivity].
      cbn [map]. now rewrite <- app_assoc.
    + apply append_well_terminated.
    + cbn [transcript]. now apply chat_load_after_append.
Qed.
End Store.

(** ** The calendar lookups *)

(** C9, as the code has it.  For a person that is not a key of its table,
    [CalendarAPI.check_availability] returns the empty list, and for a user
    that is not a key of its table (after [lower]) [check_calendar] returns
    the one-element list [["No availability found."]]. *)
Theorem unknown_person_lookup (person user : string) :
  known_person person = false ->
  known_user user = false ->
  AiAgent.check_availability person = [] /\
  Assistant.check_calendar user = ["No availability found."].
Proof.
  unfold known_person, known_user, AiAgent.check_availability, Assistant.check_calendar.
  intros Hp Hu. apply orb_false_elim in Hp as [Hp1 Hp2], Hu as [Hu1 Hu2].
  cbv zeta. now rewrite Hp1, Hp2, Hu1, Hu2.
Qed.

Lemma unknown_person_lookup_witness :
  AiAgent.check_availability "bob" = [] /\
  Assistant.check_calendar "Bob" = ["No availability found."].
Proof. apply (unknown_person_lookup "bob" "Bob"); reflexivity. Defined.

(** C9 as stated fails on [check_calendar]: an unknown user gets a list that
    is not empty, holding a sentinel text in the place of a slot. *)
Lemma unknown_user_gets_sentinel :
  known_user "bob" = false /\
  Assistant.check_calendar "bob" <> [] /\
  In "No availability found." (Assistant.check_calendar "bob").
Proof.
  split; [reflexivity|]. split; [discriminate|]. simpl. now left.
Qed.

(** ** The routers *)

Section Routers.
Import PyStr.
Context {T : RealAssistant.Tools}.

(** In both routers the calendar test comes first: whatever else the text
    holds, a text with "calendar" takes the calendar branch. *)
Lemma assistant_calendar_first (text : string) :
  str_in "calendar" (lower text) = true ->
  Assistant.handle_tools text =
    if str_in "priya" (lower text) then
      ([CheckCalendar (Some "priya")],
       Some ("Priya’s availability: " ++ repr_list (Assistant.check_calendar "priya")))
    else if str_in "shivam" (lower text) then
      ([CheckCalendar (Some "shivam")],
       Some ("Shivam’s availability: " ++ repr_list (Assistant.check_calendar "shivam")))
    else ([], Some "Whose calendar do you want to check?").
Proof. intros Hc. unfold Assistant.handle_tools. cbv zeta. now rewrite Hc. Qed.

Lemma real_calendar_first (text : string) :
  str_in "calendar" (lower text) = true ->
  RealAssistant.handle_tools text =
    ([CheckCalendar None],
     (events <- RealAssistant.check_calendar ;;
      Ok (Some ("📅 Upcoming events: " ++ events)))%result).
Proof. intros Hc. unfold RealAssistant.handle_tools. cbv zeta. now rewrite Hc. Qed.

(** The second test of [gemini_real_assistant.py] comes before its third. *)
Lemma real_meeting_before_email (text : string) :
  str_in "calendar" (lower text) = false ->
  str_in "meeting" (lower text) || str_in "meet link" (lower text) = true ->
  RealAssistant.handle_tools text =
    ([CreateMeeting],
     (link <- RealAssistant.create_meeting ;;
      Ok (Some ("✅ Meeting created with Google Meet link: " ++ link)))%result).
Proof.
  intros Hc Hm. unfold RealAssistant.handle_tools. cbv zeta. now rewrite Hc, Hm.
Qed.
End Routers.

(** C5.  A text that holds both "calendar" and "email" (in any case) takes
    the calendar branch of both routers and never reaches the email tool.
    The router of [ai_agent.py] returns exactly what its calendar branch
    returns: Priya's slots from [check_calendar] when the text names "priya",
    else Shivam's when it names "shivam", else the question whose calendar is
    meant.  The router of [gemini_real_assistant.py] makes the one call
    [check_calendar()] and returns its result under the calendar heading, or
    its exception. *)
Theorem calendar_wins_over_email (T : RealAssistant.Tools) (text : string) :
  PyStr.str_in "calendar" (PyStr.lower text) = true ->
  PyStr.str_in "email" (PyStr.lower text) = true ->
  (existsb is_send_email (fst (Assistant.handle_tools text)) = false /\
   Assistant.handle_tools text =
     if PyStr.str_in "priya" (PyStr.lower text) then
       ([CheckCalendar (Some "priya")],
        Some "Priya’s availability: ['Thu 11AM', 'Fri 2PM']")
     else if PyStr.str_in "shivam" (PyStr.lower text) then
       ([CheckCalendar (Some "shivam")],
        Some "Shivam’s availability: ['Wed 10AM', 'Thu 11AM']")
     else ([], Some "Whose calendar do you want to check?")) /\
  (existsb is_send_email (fst (RealAssistant.handle_tools text)) = false /\
   RealAssistant.handle_tools text =
     ([CheckCalendar None],
      match RealAssistant.check_calendar with
      | Ok events => Ok (Some ("📅 Upcoming events: " ++ events))
      | Raise e => Raise e
      end)).
Proof.
  intros Hc _. split.
  - rewrite (assistant_calendar_first text Hc).
    destruct (PyStr.str_in "priya" (PyStr.lower text));
      [|destruct (PyStr.str_in "shivam" (PyStr.lower text))];
      split; reflexivity.
  - rewrite (real_calendar_first text Hc). split; reflexivity.
Qed.

Lemma calendar_wins_over_email_witness :
  Assistant.handle_tools "Email Priya about her CALENDAR" =
    ([CheckCalendar (Some "priya")],
     Some "Priya’s availability: ['Thu 11AM', 'Fri 2PM']") /\
  @RealAssistant.handle_tools sample_tools "Email Priya about her CALENDAR" =
    ([CheckCalendar None], Ok (Some "📅 Upcoming events: No upcoming events.")).
Proof.
  destruct (calendar_wins_over_email sample_tools "Email Priya about her CALENDAR"
              eq_refl eq_refl) as [[_ Ha] [_ Hr]].
  split; [exact Ha | exact Hr].
Defined.




(** ** Appending and loading *)

(** C7, as the code has it.  Starting from a transcript that is missing or
    empty, after any sequence of turns written with [append_history] the
    [load_history] of [ai_agent.py] and of [gemini_real_assistant.py] returns
    exactly those turns, role and content, in the order written; the
    [load_history] of [gemini_chat.py] does so when every role written is
    "user" or "model". *)
Theorem append_then_load (J : Json) (L : JsonLaws J) (B : Client.Backend)
        (turns : list (string * string)) (w : Client.state) :
  Client.transcript w = None \/ Client.transcript w = Some "" ->
  let stored := Client.transcript (fst (append_all turns w)) in
  Assistant.load_history stored = Ok (map turn_entry turns) /\
  RealAssistant.load_history stored = Ok (map turn_entry turns) /\
  (Forall (fun t => fst t = "user" \/ fst t = "model") turns ->
   GeminiChat.load_history stored = Ok (map turn_entry turns)).
Proof.
  intros Hw stored.
  assert (Ht : well_terminated (Client.transcript w) = true)
    by (destruct Hw as [-> | ->]; reflexivity).
  assert (Ha : Assistant.load_history (Client.transcript w) = Ok [])
    by (destruct Hw as [-> | ->]; reflexivity).
  assert (Hg : GeminiChat.load_history (Client.transcript w) = Ok [])
    by (destruct Hw as [-> | ->]; reflexivity).
  split; [|split].
  - apply (assistant_load_append_all L turns w Ht Ha).
  - apply (assistant_load_append_all L turns w Ht Ha).
  - intros Hroles. unfold stored.
    rewrite (chat_load_append_all L turns w Ht Hg). cbn [app].
    do 2 f_equal. clear -Hroles.
    induction Hroles as [|t turns Hr _ IH]; [reflexivity|].
    cbn [filter]. rewrite IH.
    destruct Hr as [-> | ->]; reflexivity.
Qed.

Lemma append_then_load_witness :
  @GeminiChat.load_history RefJson.codec
    (Client.transcript
       (fst (@append_all RefJson.codec silent_backend
               [("user", "hello"); ("model", "hi, how can I help?")] fresh_state)))
  = Ok [turn_entry ("user", "hello"); turn_entry ("model", "hi, how can I help?")].
Proof.
  apply (@append_then_load RefJson.codec RefJsonFacts.codec_laws silent_backend
           [("user", "hello"); ("model", "hi, how can I help?")] fresh_state).
  - left. reflexivity.
  - constructor; [left; reflexivity|].
    constructor; [right; reflexivity|]. constructor.
Defined.

(** C7 as stated fails on [gemini_chat.py]: a turn written with the role
    "assistant" is not returned by its [load_history]. *)
Lemma chat_load_loses_assistant_turn :
  let stored :=
    Client.transcript
      (fst (@append_all RefJson.codec silent_backend [("assistant", "hi")] fresh_state)) in
  @GeminiChat.load_history RefJson.codec stored = Ok [] /\
  @GeminiChat.load_history RefJson.codec stored <> Ok (map turn_entry [("assistant", "hi")]).
Proof.
  assert (E : @GeminiChat.load_history RefJson.codec
                (Client.transcript
                   (fst (@append_all RefJson.codec silent_backend
                           [("assistant", "hi")] fresh_state))) = Ok [])
    by (vm_compute; reflexivity).
  cbv zeta. split; [exact E|]. rewrite E. discriminate.
Qed.

(** C10.  When every line of the transcript parses to a record with a role
    and a content, [load_history] of [gemini_chat.py] ends without an
    exception and returns, in the order of the lines, the records whose role
    is "user" or "model"; every other record is left out. *)
Theorem load_history_drops_other_roles (J : Json) (content : string)
        (recs : list (value * value)) :
  Forall2 (fun line rc =>
             exists rec, json_loads line = Some rec /\
                         has_role_content rec (fst rc) (snd rc))
          (TextFile.readlines content) recs ->
  GeminiChat.load_history (Some content) =
  Ok (map (fun rc => entry (fst rc) (snd rc))
          (filter (fun rc => user_or_model (fst rc)) recs)).
Proof.
  intros Hlines. cbn [GeminiChat.load_history].
  change (map (fun rc => entry (fst rc) (snd rc))
              (filter (fun rc => user_or_model (fst rc)) recs))
    with ([] ++ map (fun rc => entry (fst rc) (snd rc))
                    (filter (fun rc => user_or_model (fst rc)) recs))%list.
  generalize (@nil value) as h.
  induction Hlines as [|line rc lines recs Hline _ IH]; intros h.
  - cbn. now rewrite app_nil_r.
  - destruct Hline as [rec [Hparse [Hrole Hcontent]]].
    cbn [GeminiChat.load_lines]. unfold loads. rewrite Hparse. cbn [bind].
    rewrite Hrole, Hcontent. cbn [bind filter].
    fold (user_or_model (fst rc)).
    destruct (user_or_model (fst rc)).
    + rewrite IH. cbn [map]. now rewrite <- app_assoc.
    + apply IH.
Qed.

Lemma load_history_drops_other_roles_witness :
  let content :=
    Client.transcript
      (fst (@append_all RefJson.codec silent_backend
              [("user", "hello"); ("assistant", "hi"); ("model", "bye")] fresh_state)) in
  match content with
  | Some text =>
      @GeminiChat.load_history RefJson.codec (Some text) =
      Ok [entry (VStr "user") (VStr "hello"); entry (VStr "model") (VStr "bye")]
  | None => False
  end.
Proof.
  vm_compute Client.transcript. cbv zeta iota.
  refine (@load_history_drops_other_roles RefJson.codec _
            [(VStr "user", VStr "hello"); (VStr "assistant", VStr "hi");
             (VStr "model", VStr "bye")] _).
  vm_compute TextFile.readlines.
  repeat (constructor; [eexists; split; [vm_compute; reflexivity | split; reflexivity]|]).
  constructor.
Defined.

(** ** A failing model call *)

Lemma mbind_ok {S A B} (m : M S A) (k : A -> M S B) (s s' : S) (a : A) :
  m s = (s', Ok a) -> mbind m k s = k a s'.
Proof. intros E. unfold mbind. now rewrite E. Qed.

Lemma mbind_raise {S A B} (m : M S A) (k : A -> M S B) (s s' : S) (e : exn) :
  m s = (s', Raise e) -> mbind m k s = (s', Raise e).
Proof. intros E. unfold mbind. now rewrite E. Qed.

Section FailingCall.
Import Client.
Context {J : Json} {B : Backend}.

Lemma consume_keeps_transcript (chunks : list chunk) :
  forall (full_text : string) (w : state),
    transcript (fst (consume chunks full_text w)) = transcript w /\
    clock (fst (consume chunks full_text w)) = clock w /\
    exists text, snd (consume chunks full_text w) = Ok text.
Proof.
  induction chunks as [|c chunks IH]; intros full_text w.
  - cbn. eauto.
  - cbn [consume]. destruct (piece_of c) as [piece|]; [|apply IH].
    unfold mbind, emit, modify.
    match goal with |- context [consume chunks ?t ?w'] =>
      destruct (IH t w') as [Ht [Hc Hx]] end.
    cbn [transcript clock] in Ht, Hc. auto.
Qed.

Lemma on_failure_state (e : failure) (w : state) :
  transcript (fst (on_failure e w)) = transcript w /\
  snd (on_failure e w) <> Ok true.
Proof. destruct e; cbn; split; congruence. Qed.

Lemma chat_send_state (user : string) (w : state) :
  chat_send user w =
  ({| transcript := transcript w; clock := clock w; stdout := stdout w;
      chat := {| history := history (chat w);
                 sent := (sent (chat w) ++ [user])%list |} |},
   Ok (send_message (chat w) user)).
Proof. reflexivity. Qed.

Lemma emit_state (o : out) (w : state) :
  emit o w =
  ({| transcript := transcript w; clock := clock w;
      stdout := (stdout w ++ [o])%list; chat := chat w |}, Ok tt).
Proof. reflexivity. Qed.

(** The [try] block never writes to the transcript, and after a failing
    call it does not report a full text. *)
Lemma try_stream_state (user : string) (w : state) :
  exists w' r,
    try_stream user w = (w', r) /\
    transcript w' = transcript w /\
    (reply_fails (send_message (chat w) user) = true ->
     forall text, r <> Ok (true, text)).
Proof.
  unfold try_stream. rewrite (mbind_ok _ _ _ (chat_send_state user w)).
  destruct (send_message (chat w) user) as [e|chunks then_].
  - destruct e; eexists _, _; (split; [reflexivity|]); cbn; split; congruence.
  - rewrite (mbind_ok _ _ _ (emit_state _ _)).
    match goal with |- context [mbind (consume chunks ?t) ?k ?w1] =>
      destruct (consume_keeps_transcript chunks t w1) as [Ht [_ [text Hx]]];
      destruct (consume chunks t w1) as [w2 r] eqn:E end.
    cbn [fst snd transcript] in Ht, Hx. subst r.
    rewrite (mbind_ok _ _ _ E).
    destruct then_ as [e|].
    + destruct e; eexists _, _; (split; [reflexivity|]); cbn; split; congruence.
    + eexists _, _. split; [reflexivity|]. cbn. split; [congruence | discriminate].
Qed.

(** After a failing call the turn has written the user record and nothing
    else. *)
Lemma chat_turn_after_failure (user : string) (w : state) :
  reply_fails (send_message (chat w) user) = true ->
  transcript (fst (GeminiChat.turn user w)) =
  TextFile.append (transcript w) (record_line (isoformat (clock w)) "user" user).
Proof.
  intros Hf. unfold GeminiChat.turn.
  rewrite (mbind_ok _ _ _ (append_history_state "user" user w)).
  match goal with |- context [mbind (try_stream user) ?k ?w1] =>
    destruct (try_stream_state user w1) as [w2 [r [E [Ht Hr]]]] end.
  specialize (Hr Hf). cbn [transcript] in Ht.
  destruct r as [[ok text]|e].
  - rewrite (mbind_ok _ _ _ E). cbn [fst snd].
    destruct ok; [exfalso; now apply (Hr text) | exact Ht].
  - rewrite (mbind_raise _ _ _ E). exact Ht.
Qed.

Lemma assistant_turn_after_failure (user : string) (w : state) :
  no_tool_result user = true ->
  reply_fails (send_message (chat w) user) = true ->
  transcript (fst (Assistant.turn user w)) =
  TextFile.append (transcript w) (record_line (isoformat (clock w)) "user" user).
Proof.
  intros Hn Hf. unfold Assistant.turn. unfold no_tool_result in Hn.
  assert (Hgoal :
    transcript
      (fst ((append_history "user" user ;;
             r <- try_stream user ;;
             if fst r then append_history "model" (snd r) else ret tt)%py w)) =
    TextFile.append (transcript w) (record_line (isoformat (clock w)) "user" user)).
  { exact (chat_turn_after_failure user w Hf). }
  destruct (snd (Assistant.handle_tools user)) as [[|a t]|];
    [exact Hgoal | discriminate | exact Hgoal].
Qed.
End FailingCall.

(** C8.  When the model call of a turn fails, at the call or while its
    stream is read, the transcript after the turn is the transcript before it
    followed by the record of the user's message, and nothing more: loading
    it gives the earlier turns, then the user turn, and no model turn.  This
    holds for [gemini_chat.py] and, when no tool answered, for
    [ai_agent.py]. *)
Theorem failed_call_keeps_user_turn (J : Json) (L : JsonLaws J) (B : Client.Backend)
        (user : string) (w : Client.state) (h : list value) :
  reply_fails (Client.send_message (Client.chat w) user) = true ->
  well_terminated (Client.transcript w) = true ->
  (GeminiChat.load_history (Client.transcript w) = Ok h ->
   let after := Client.transcript (fst (GeminiChat.turn user w)) in
   after = TextFile.append (Client.transcript w)
             (record_line (Client.isoformat (Client.clock w)) "user" user) /\
   GeminiChat.load_history after = Ok (h ++ [turn_entry ("user", user)])%list) /\
  (no_tool_result user = true ->
   Assistant.load_history (Client.transcript w) = Ok h ->
   let after := Client.transcript (fst (Assistant.turn user w)) in
   after = TextFile.append (Client.transcript w)
             (record_line (Client.isoformat (Client.clock w)) "user" user) /\
   Assistant.load_history after = Ok (h ++ [turn_entry ("user", user)])%list).
Proof.
  intros Hf Hw. split.
  - intros Hh after. unfold after.
    rewrite (chat_turn_after_failure user w Hf). split; [reflexivity|].
    now rewrite (chat_load_after_append L _ _ "user" user Hw Hh).
  - intros Hn Hh after. unfold after.
    rewrite (assistant_turn_after_failure user w Hn Hf). split; [reflexivity|].
    now rewrite (assistant_load_after_append L _ _ "user" user Hw Hh).
Qed.

Lemma failed_call_keeps_user_turn_witness :
  @GeminiChat.load_history RefJson.codec
    (Client.transcript
       (fst (@GeminiChat.turn RefJson.codec breaking_backend "what is 2+2?" fresh_state)))
  = Ok [turn_entry ("user", "what is 2+2?")].
Proof.
  apply (@failed_call_keeps_user_turn RefJson.codec RefJsonFacts.codec_laws
           breaking_backend "what is 2+2?" fresh_state []); reflexivity.
Defined.

(** ** The agent loop *)

Lemma dict_get_set_same (d : dict) (k : string) (v : value) :
  dict_get (dict_set d k v) k = Some v.
Proof.
  induction d as [|[k' v'] d IH]; simpl.
  - now rewrite String.eqb_refl.
  - destruct (String.eqb k k') eqn:E; simpl; rewrite E; [reflexivity | exact IH].
Qed.

Lemma dict_get_set_other (d : dict) (k k' : string) (v : value) :
  k <> k' -> dict_get (dict_set d k v) k' = dict_get d k'.
Proof.
  intros Hk. induction d as [|[k0 v0] d IH]; simpl.
  - apply String.eqb_neq in Hk. rewrite String.eqb_sym in Hk. now rewrite Hk.
  - destruct (String.eqb k k0) eqn:E; simpl.
    + apply String.eqb_eq in E. subst k0.
      destruct (String.eqb k' k) eqn:E'; [|reflexivity].
      apply String.eqb_eq in E'. congruence.
    + now rewrite IH.
Qed.

Section AgentLoop.
Import AiAgent AiAgent.AIAgent.
Context {J : Json} {G : Type} {GP : GPT G}.

(** One round on a step record: nothing is raised. *)
Lemma body_step_record (task : string) (f : frame G) (v : value) :
  loads (snd (gpt_run (gpt (self f)) task)) = Ok v ->
  is_step_record v = true ->
  body task f = (next_frame task f v, Ok tt).
Proof.
  intros Hload Hrec. unfold next_frame.
  destruct v as [| | | |l|d]; try discriminate Hrec.
  unfold is_step_record in Hrec. unfold signals_completion, step_output,
    shown_observation, field, subscript.
  destruct (dict_get d "thought") as [thought|] eqn:Et; [|discriminate].
  destruct (dict_get d "plan") as [plan|] eqn:Ep; [|discriminate].
  destruct (dict_get d "action") as [action|] eqn:Ea; [|discriminate].
  destruct (dict_get d "observation") as [observation|] eqn:Eo; [|discriminate].
  destruct (dict_get d "final_answer") as [[| | |fa| |]|] eqn:Ef; try discriminate.
  unfold body, emit, call_gpt, mbind, modify, get, lift, ret.
  cbn [fst snd self step done stdout gpt].
  destruct (gpt_run (gpt (self f)) task) as [g resp]. cbn [fst snd] in *.
  cbv beta iota zeta. cbn [fst snd self step done stdout gpt].
  rewrite Hload. cbn [subscript]. rewrite Et, Ep, Ea.
  cbn [fst snd self step done stdout gpt].
  destruct (eq_str action "CalendarAPI.check_availability");
    [|destruct (eq_str action "EmailAPI.draft_email")];
    cbn [setitem subscript];
    rewrite ?dict_get_set_same, ?(@dict_get_set_other d "observation" "final_answer")
      by discriminate;
    rewrite ?Eo, ?Ef; cbn [lower_method];
    destruct (PyStr.str_in "successfully" (PyStr.lower fa));
    cbn [fst snd self step done stdout gpt];
    repeat rewrite <- app_assoc; reflexivity.
Qed.

Lemma response_shift (task : string) (g : G) (i : nat) :
  response i (fst (gpt_run g task)) task = response (S i) g task.
Proof. reflexivity. Qed.

Lemma while_loop_exit (fuel : nat) (task : string) (f : frame G) :
  negb (done f) && Nat.ltb (step f) 5 = false ->
  while_loop fuel task f = Some (f, Ok tt).
Proof. intros Hc. destruct fuel; simpl; now rewrite Hc. Qed.

Lemma while_loop_round (fuel : nat) (task : string) (f : frame G) (v : value) :
  done f = false -> step f < 5 ->
  loads (response 0 (gpt (self f)) task) = Ok v ->
  is_step_record v = true ->
  while_loop (S fuel) task f = while_loop fuel task (next_frame task f v).
Proof.
  intros Hd Hs Hload Hrec. cbn [while_loop].
  rewrite Hd. apply Nat.ltb_lt in Hs. rewrite Hs. cbn [negb andb].
  now rewrite (@body_step_record task f v Hload Hrec).
Qed.

(** The loop stops after the first round whose record signals completion. *)
Lemma while_until_completion (task : string) (j : nat) :
  forall (fuel : nat) (f : frame G),
    done f = false ->
    step f + S j <= 5 ->
    j < fuel ->
    (forall i, i <= j ->
       exists v, loads (response i (gpt (self f)) task) = Ok v /\
                 is_step_record v = true /\
                 signals_completion v = Nat.eqb i j) ->
    exists f',
      while_loop fuel task f = Some (f', Ok tt) /\
      step f' = step f + S j /\
      done f' = true /\
      gpt (self f') = gpt_after (S j) (gpt (self f)) task.
Proof.
  induction j as [|j IH]; intros fuel f Hd Hs Hfuel Hresp;
    (destruct fuel as [|fuel]; [lia|]);
    destruct (Hresp 0 (Nat.le_0_l _)) as [v [Hload [Hrec Hsig]]].
  - rewrite (@while_loop_round fuel task f v) by (assumption || lia).
    exists (next_frame task f v). split.
    + apply while_loop_exit. cbn [next_frame done]. now rewrite Hsig.
    + cbn [next_frame step done self gpt gpt_after]. rewrite Hsig.
      repeat split; lia.
  - rewrite (@while_loop_round fuel task f v) by (assumption || lia).
    destruct (IH fuel (next_frame task f v)) as [f' [Hrun [Hstep [Hdone Hgpt]]]].
    + cbn [next_frame done]. now rewrite Hsig.
    + cbn [next_frame step]. lia.
    + lia.
    + intros i Hi. cbn [next_frame self gpt]. rewrite response_shift.
      destruct (Hresp (S i)) as [v' Hv']; [lia|]. exists v'. exact Hv'.
    + exists f'. cbn [next_frame step self gpt] in *.
      repeat split; [exact Hrun | lia | exact Hdone | exact Hgpt].
Qed.

(** Without a completion signal the loop stops when [step] reaches 5. *)
Lemma while_until_ceiling (task : string) (j : nat) :
  forall (fuel : nat) (f : frame G),
    done f = false ->
    step f + j = 5 ->
    j <= fuel ->
    (forall i, i < j ->
       exists v, loads (response i (gpt (self f)) task) = Ok v /\
                 is_step_record v = true /\
                 signals_completion v = false) ->
    exists f',
      while_loop fuel task f = Some (f', Ok tt) /\
      step f' = 5 /\
      done f' = false /\
      gpt (self f') = gpt_after j (gpt (self f)) task.
Proof.
  induction j as [|j IH]; intros fuel f Hd Hs Hfuel Hresp.
  - exists f. split; [|repeat split; [lia | exact Hd]].
    apply while_loop_exit. replace (step f) with 5 by lia.
    now rewrite andb_false_r.
  - destruct fuel as [|fuel]; [lia|].
    destruct (Hresp 0) as [v [Hload [Hrec Hsig]]]; [lia|].
    rewrite (@while_loop_round fuel task f v) by (assumption || lia).
    destruct (IH fuel (next_frame task f v)) as [f' [Hrun [Hstep [Hdone Hgpt]]]].
    + cbn [next_frame done]. now rewrite Hsig.
    + cbn [next_frame step]. lia.
    + lia.
    + intros i Hi. cbn [next_frame self gpt]. rewrite response_shift.
      destruct (Hresp (S i)) as [v' Hv']; [lia|]. exists v'. exact Hv'.
    + exists f'. cbn [next_frame step self gpt] in *.
      repeat split; [exact Hrun | exact Hstep | exact Hdone | exact Hgpt].
Qed.

(** *** The loop always ends *)

Lemma keeps_ret {A} (a : A) : keeps_step G (ret a).
Proof. intros f f' r E. now injection E as <- _. Qed.

Lemma keeps_lift {A} (x : result A) : keeps_step G (lift x).
Proof. intros f f' r E. now injection E as <- _. Qed.

Lemma keeps_get : keeps_step G get.
Proof. intros f f' r E. now injection E as <- _. Qed.

Lemma keeps_emit (o : out) : keeps_step G (emit o).
Proof. intros f f' r E. now injection E as <- _. Qed.

Lemma keeps_call_gpt (task : string) : keeps_step G (call_gpt task).
Proof.
  intros f f' r E. unfold call_gpt in E.
  destruct (gpt_run (gpt (self f)) task). now injection E as <- _.
Qed.

Lemma keeps_bind {A B} (m : M (frame G) A) (k : A -> M (frame G) B) :
  keeps_step G m -> (forall a, keeps_step G (k a)) -> keeps_step G (mbind m k).
Proof.
  intros Hm Hk f f' r E. unfold mbind in E.
  destruct (m f) as [f1 [a|e]] eqn:Em.
  - rewrite (Hk a f1 f' r E). exact (Hm f f1 _ Em).
  - injection E as <- _. exact (Hm f f1 _ Em).
Qed.

Lemma keeps_after_modify {A} (g : frame G -> frame G) (k : unit -> M (frame G) A)
      (f f' : frame G) (r : result A) :
  (forall a, keeps_step G (k a)) ->
  mbind (modify g) k f = (f', r) -> step f' = step (g f).
Proof. intros Hk E. unfold mbind, modify in E. exact (Hk tt _ _ _ E). Qed.

(** A round adds one to [step], also when it ends with an exception. *)
Lemma body_counts (task : string) (f f' : frame G) (r : result unit) :
  body task f = (f', r) -> step f' = step f + 1.
Proof.
  intros E. unfold body in E. apply keeps_after_modify in E; [exact E|].
  intros _.
  repeat first
    [ apply keeps_bind; [|intros ?]
    | apply keeps_get | apply keeps_emit | apply keeps_call_gpt
    | apply keeps_lift | apply keeps_ret
    | match goal with |- keeps_step G (if ?c then _ else _) => destruct c end
    | (intros ? ? ? E'; unfold modify in E'; injection E' as <- _; reflexivity) ].
Qed.

Lemma while_loop_ends (task : string) (fuel : nat) :
  forall f : frame G,
    step f <= 5 ->
    5 - step f <= fuel ->
    exists f' r,
      while_loop fuel task f = Some (f', r) /\
      (r = Ok tt -> done f' = true \/ step f' = 5).
Proof.
  induction fuel as [|fuel IH]; intros f Hle Hfuel.
  - exists f, (Ok tt). assert (step f = 5) by lia. split; [|auto].
    apply while_loop_exit. replace (step f) with 5 by lia. now rewrite andb_false_r.
  - destruct (negb (done f) && Nat.ltb (step f) 5) eqn:Hc.
    + cbn [while_loop]. rewrite Hc.
      apply andb_prop in Hc as [_ Hlt]. apply Nat.ltb_lt in Hlt.
      destruct (body task f) as [f1 [[]|e]] eqn:Eb.
      * apply body_counts in Eb. apply IH; lia.
      * exists f1, (Raise e). split; [reflexivity | discriminate].
    + exists f, (Ok tt). split; [now apply while_loop_exit|].
      intros _. destruct (done f); [now left|right].
      cbn [negb andb] in Hc. apply Nat.ltb_ge in Hc. lia.
Qed.
End AgentLoop.

(** *** The scripted backend of the program *)

Section FakeGPTFacts.
Import AiAgent.
Context {J : Json} (L : JsonLaws J).

Lemma step_keys_distinct (a b c d e : string) :
  NoDup (map fst [("thought", a); ("plan", b); ("action", c);
                  ("observation", d); ("final_answer", e)]).
Proof. simpl. repeat constructor; simpl; intuition discriminate. Qed.

(** An answer built by [answer] is read back as a step record. *)
Lemma loads_answer (a b c d e : string) :
  loads (answer a b c d e) =
  Ok (VDict (str_dict [("thought", a); ("plan", b); ("action", c);
                       ("observation", d); ("final_answer", e)])).
Proof.
  unfold loads, answer. now rewrite (loads_dumps _ (step_keys_distinct a b c d e)).
Qed.

(** The four answers of [FakeGPT]: step records, the fourth one alone
    holding the completion keyword. *)
Lemma fake_gpt_script (task : string) (i : nat) :
  i < 4 ->
  exists v, loads (response i FakeGPT.init task) = Ok v /\
            is_step_record v = true /\
            signals_completion v = Nat.eqb (S i) 4.
Proof.
  intros Hi.
  destruct i as [|[|[|[|i]]]]; [| | | |lia];
    (eexists; split; [apply loads_answer | split; reflexivity]).
Qed.
End FakeGPTFacts.

(** C1.  When the first [k] answers of the backend are step records
    ([1 <= k <= 5]) and the [k]-th is the first whose [final_answer] holds
    "successfully" in any case, [run] ends normally after exactly [k]
    rounds: [step] is [k], [done] is set and the backend was called [k]
    times.  Run with [FakeGPT], the loop makes exactly 4 rounds. *)
Theorem halts_at_first_completion (J : Json) (L : JsonLaws J)
        (G : Type) (GP : AiAgent.GPT G)
        (agent : AiAgent.AIAgent.t G) (task : string) (k : nat) :
  1 <= k <= 5 ->
  (forall i, i < k ->
     exists v, loads (response i (AiAgent.AIAgent.gpt agent) task) = Ok v /\
               is_step_record v = true /\
               signals_completion v = Nat.eqb (S i) k) ->
  (exists f,
     AiAgent.AIAgent.run agent task = Some (f, Ok VNone) /\
     AiAgent.AIAgent.step f = k /\
     AiAgent.AIAgent.done f = true /\
     AiAgent.AIAgent.gpt (AiAgent.AIAgent.self f)
       = gpt_after k (AiAgent.AIAgent.gpt agent) task) /\
  (exists f,
     AiAgent.AIAgent.run AiAgent.new_agent task = Some (f, Ok VNone) /\
     AiAgent.AIAgent.step f = 4 /\
     AiAgent.AIAgent.done f = true /\
     AiAgent.FakeGPT.step (AiAgent.AIAgent.gpt (AiAgent.AIAgent.self f)) = 4).
Proof.
  assert (General : forall (G' : Type) (GP' : AiAgent.GPT G')
                           (a : AiAgent.AIAgent.t G') (n : nat),
    1 <= n <= 5 ->
    (forall i, i < n ->
       exists v, loads (response i (AiAgent.AIAgent.gpt a) task) = Ok v /\
                 is_step_record v = true /\
                 signals_completion v = Nat.eqb (S i) n) ->
    exists f,
      AiAgent.AIAgent.run a task = Some (f, Ok VNone) /\
      AiAgent.AIAgent.step f = n /\
      AiAgent.AIAgent.done f = true /\
      AiAgent.AIAgent.gpt (AiAgent.AIAgent.self f)
        = gpt_after n (AiAgent.AIAgent.gpt a) task).
  { intros G' GP' a n Hn Hresp. destruct n as [|j]; [lia|].
    unfold AiAgent.AIAgent.run.
    edestruct (@while_until_completion J G' GP' task j 5) as [f [Hrun [Hs [Hd Hg]]]];
      [| | | | rewrite Hrun; exists f; repeat split; [exact Hs | exact Hd | exact Hg]].
    - reflexivity.
    - cbn [AiAgent.AIAgent.step]. lia.
    - lia.
    - intros i Hi. cbn [AiAgent.AIAgent.self AiAgent.AIAgent.gpt].
      destruct (Hresp i) as [v Hv]; [lia|]. exists v. exact Hv. }
  intros Hk Hresp. split.
  - apply General; assumption.
  - destruct (General _ _ (@AiAgent.new_agent J) 4) as [f [Hrun [Hs [Hd Hg]]]].
    + lia.
    + intros i Hi. apply (fake_gpt_script L task Hi).
    + exists f. repeat split; try assumption. rewrite Hg. reflexivity.
Qed.

Lemma halts_at_first_completion_witness :
  exists f,
    @AiAgent.AIAgent.run RefJson.codec _ (@AiAgent.FakeGPT.FakeGPT_GPT RefJson.codec)
      (@AiAgent.new_agent RefJson.codec)
      "Schedule a meeting with Priya next week and send her a confirmation email."
      = Some (f, Ok VNone) /\
    AiAgent.AIAgent.step f = 4 /\
    AiAgent.AIAgent.done f = true /\
    AiAgent.AIAgent.gpt (AiAgent.AIAgent.self f) = {| AiAgent.FakeGPT.step := 4 |}.
Proof.
  refine (proj1 (@halts_at_first_completion RefJson.codec RefJsonFacts.codec_laws
                   _ _ (@AiAgent.new_agent RefJson.codec) _ 4 _ _)).
  - lia.
  - intros i Hi.
    destruct i as [|[|[|[|i]]]]; [| | | |lia];
      (eexists; split; [vm_compute; reflexivity | split; reflexivity]).
Defined.

(** C2.  When the first five answers of the backend are step records and
    none of their [final_answer] fields holds the completion keyword, [run]
    makes exactly 5 rounds and returns normally, with [done] still unset: no
    exception is raised. *)
Theorem stops_at_ceiling (J : Json) (G : Type) (GP : AiAgent.GPT G)
        (agent : AiAgent.AIAgent.t G) (task : string) :
  (forall i, i < 5 ->
     exists v, loads (response i (AiAgent.AIAgent.gpt agent) task) = Ok v /\
               is_step_record v = true /\
               signals_completion v = false) ->
  exists f,
    AiAgent.AIAgent.run agent task = Some (f, Ok VNone) /\
    AiAgent.AIAgent.step f = 5 /\
    AiAgent.AIAgent.done f = false /\
    AiAgent.AIAgent.gpt (AiAgent.AIAgent.self f)
      = gpt_after 5 (AiAgent.AIAgent.gpt agent) task.
Proof.
  intros Hresp. unfold AiAgent.AIAgent.run.
  edestruct (@while_until_ceiling J G GP task 5 5) as [f [Hrun [Hs [Hd Hg]]]];
    [| | | | rewrite Hrun; exists f; repeat split; [exact Hs | exact Hd | exact Hg]].
  - reflexivity.
  - reflexivity.
  - lia.
  - exact Hresp.
Qed.

(** Five answers without the completion keyword. *)
Lemma stops_at_ceiling_witness :
  let thinking := @answer RefJson.codec "Still looking." "Keep looking." "none"
                    "Nothing new." "No slot found yet." in
  exists f,
    @AiAgent.AIAgent.run RefJson.codec _ Script.Script_GPT
      (Script.agent [thinking; thinking; thinking; thinking; thinking]) "Find a slot"
      = Some (f, Ok VNone) /\
    AiAgent.AIAgent.step f = 5 /\
    AiAgent.AIAgent.done f = false /\
    AiAgent.AIAgent.gpt (AiAgent.AIAgent.self f) = [].
Proof.
  intros thinking.
  refine (@stops_at_ceiling RefJson.codec _ Script.Script_GPT
            (Script.agent [thinking; thinking; thinking; thinking; thinking])
            "Find a slot" _).
  intros i Hi.
  destruct i as [|[|[|[|[|i]]]]]; [| | | | |lia];
    (eexists; split; [vm_compute; reflexivity | split; reflexivity]).
Defined.

(** C3, as the code has it.  [run] always ends.  When it ends without an
    exception the value it returns is [None] in both ways of stopping: after
    a completion signal, with [done] set, and at the ceiling, with [done]
    unset and [step = 5].  The value returned is the same in the two cases. *)
Theorem run_returns_none (J : Json) (G : Type) (GP : AiAgent.GPT G)
        (agent : AiAgent.AIAgent.t G) (task : string) :
  exists f r,
    AiAgent.AIAgent.run agent task = Some (f, r) /\
    (r = Ok VNone \/ exists e, r = Raise e) /\
    (r = Ok VNone ->
     AiAgent.AIAgent.done f = true \/
     (AiAgent.AIAgent.done f = false /\ AiAgent.AIAgent.step f = 5)).
Proof.
  unfold AiAgent.AIAgent.run.
  edestruct (@while_loop_ends J G GP task 5) as [f [r [Hrun Hexit]]];
    [| | rewrite Hrun].
  - cbn [AiAgent.AIAgent.step]. lia.
  - cbn [AiAgent.AIAgent.step]. lia.
  - destruct r as [[]|e].
    + exists f, (Ok VNone). split; [reflexivity|]. split; [now left|].
      intros _. destruct (Hexit eq_refl) as [Hd|Hs]; [now left|].
      destruct (AiAgent.AIAgent.done f); [now left | right; now split].
    + exists f, (Raise e). split; [reflexivity|]. split; [right; eauto | discriminate].
Qed.

(** C3 as stated fails: a run that completes and a run that reaches the
    ceiling return the same value. *)
Lemma completed_and_ceiling_return_alike :
  let thinking := @answer RefJson.codec "Still looking." "Keep looking." "none"
                    "Nothing new." "No slot found yet." in
  match @AiAgent.AIAgent.run RefJson.codec _ (@AiAgent.FakeGPT.FakeGPT_GPT RefJson.codec)
          (@AiAgent.new_agent RefJson.codec) "Find a slot",
        @AiAgent.AIAgent.run RefJson.codec _ Script.Script_GPT
          (Script.agent [thinking; thinking; thinking; thinking; thinking]) "Find a slot"
  with
  | Some (completed, returned1), Some (at_ceiling, returned2) =>
      AiAgent.AIAgent.done completed = true /\
      AiAgent.AIAgent.step completed = 4 /\
      AiAgent.AIAgent.done at_ceiling = false /\
      AiAgent.AIAgent.step at_ceiling = 5 /\
      returned1 = Ok VNone /\
      returned1 = returned2
  | _, _ => False
  end.
Proof. vm_compute. repeat split. Qed.

(** C4, as the code has it.  A step record whose action is not one of the
    two tool names, "none" or any other value alike, makes the round call no
    tool: the observation shown is the one the record came with, nothing is
    raised and nothing but the record is printed. *)
Theorem other_action_runs_no_tool (J : Json) (G : Type) (GP : AiAgent.GPT G)
        (task : string) (f : AiAgent.AIAgent.frame G) (v : value) :
  loads (response 0 (AiAgent.AIAgent.gpt (AiAgent.AIAgent.self f)) task) = Ok v ->
  is_step_record v = true ->
  is_tool_action (field v "action") = false ->
  AiAgent.AIAgent.body task f =
  ({| AiAgent.AIAgent.self :=
        {| AiAgent.AIAgent.gpt :=
             fst (AiAgent.gpt_run (AiAgent.AIAgent.gpt (AiAgent.AIAgent.self f)) task) |};
      AiAgent.AIAgent.step := AiAgent.AIAgent.step f + 1;
      AiAgent.AIAgent.done :=
        if signals_completion v then true else AiAgent.AIAgent.done f;
      AiAgent.AIAgent.stdout :=
        (AiAgent.AIAgent.stdout f ++
         [print [VStr ("--- Step " ++ dec (AiAgent.AIAgent.step f + 1) ++ " ---")];
          print [VStr "Thought:"; field v "thought"];
          print [VStr "Plan:"; field v "plan"];
          print [VStr "Action:"; field v "action"];
          print [VStr "Observation:"; field v "observation"];
          print [VStr "Final Answer:"; field v "final_answer"; VStr nl]])%list |},
   Ok tt).
Proof.
  intros Hload Hrec Hact.
  rewrite (@body_step_record J G GP task f v Hload Hrec).
  unfold next_frame, step_output, shown_observation.
  unfold is_tool_action in Hact. apply orb_false_elim in Hact as [H1 H2].
  now rewrite H1, H2.
Qed.

Lemma other_action_runs_no_tool_witness :
  let weather := @answer RefJson.codec "I need the weather." "Ask the weather service."
                   "WeatherAPI.lookup" "None yet." "Looking at the sky." in
  snd (@AiAgent.AIAgent.body RefJson.codec _ Script.Script_GPT "Plan a picnic"
         {| AiAgent.AIAgent.self := Script.agent [weather];
            AiAgent.AIAgent.step := 0;
            AiAgent.AIAgent.done := false;
            AiAgent.AIAgent.stdout := [] |}) = Ok tt.
Proof.
  intros weather.
  rewrite (@other_action_runs_no_tool RefJson.codec _ Script.Script_GPT "Plan a picnic"
             {| AiAgent.AIAgent.self := Script.agent [weather];
                AiAgent.AIAgent.step := 0;
                AiAgent.AIAgent.done := false;
                AiAgent.AIAgent.stdout := [] |}
             (VDict (str_dict [("thought", "I need the weather.");
                               ("plan", "Ask the weather service.");
                               ("action", "WeatherAPI.lookup");
                               ("observation", "None yet.");
                               ("final_answer", "Looking at the sky.")]))).
  - reflexivity.
  - vm_compute. reflexivity.
  - reflexivity.
  - reflexivity.
Defined.

(** C4 as stated fails: an action that names no tool raises nothing and
    leaves no trace of an error; the run prints the record as it came and
    returns as after the action "none". *)
Lemma unknown_action_passes_silently :
  let weather := @answer RefJson.codec "I need the weather." "Ask the weather service."
                   "WeatherAPI.lookup" "None yet." "Fetched successfully." in
  is_tool_action (VStr "WeatherAPI.lookup") = false /\
  eq_str (VStr "WeatherAPI.lookup") "none" = false /\
  match @AiAgent.AIAgent.run RefJson.codec _ Script.Script_GPT
          (Script.agent [weather]) "Plan a picnic" with
  | Some (f, returned) =>
      returned = Ok VNone /\
      AiAgent.AIAgent.stdout f =
        [print [VStr ("User task: Plan a picnic" ++ nl)];
         print [VStr "--- Step 1 ---"];
         print [VStr "Thought:"; VStr "I need the weather."];
         print [VStr "Plan:"; VStr "Ask the weather service."];
         print [VStr "Action:"; VStr "WeatherAPI.lookup"];
         print [VStr "Observation:"; VStr "None yet."];
         print [VStr "Final Answer:"; VStr "Fetched successfully."; VStr nl]]
  | None => False
  end.
Proof. vm_compute. repeat split. Qed.

(** * Further properties *)

(** ** A turn of the chat loops *)

Section Turns.
Import Client.
Context {J : Json} {B : Backend}.

Lemma consume_text (chunks : list chunk) :
  forall (full_text : string) (w : state),
    snd (consume chunks full_text w) = Ok (full_text ++ pieces chunks) /\
    transcript (fst (consume chunks full_text w)) = transcript w /\
    clock (fst (consume chunks full_text w)) = clock w /\
    chat (fst (consume chunks full_text w)) = chat w.
Proof.
  induction chunks as [|c chunks IH]; intros full_text w.
  - cbn. now rewrite append_nil_r.
  - cbn [consume pieces]. destruct (piece_of c) as [piece|]; [|apply IH].
    rewrite (mbind_ok _ _ _ (emit_state _ _)).
    destruct (IH (full_text ++ piece)
                 {| transcript := transcript w; clock := clock w;
                    stdout := (stdout w ++ [Print [VStr piece] ""])%list;
                    chat := chat w |}) as [Hs [Ht [Hc Hch]]].
    rewrite Hs, Ht, Hc, Hch. now rewrite append_assoc.
Qed.

(** The [try] block on a stream that is read to its end. *)
Lemma try_stream_whole (user : string) (w : state) (chunks : list chunk) :
  send_message (chat w) user = Stream chunks None ->
  exists w',
    try_stream user w = (w', Ok (true, pieces chunks)) /\
    transcript w' = transcript w /\
    clock w' = clock w /\
    chat w' = {| history := history (chat w); sent := (sent (chat w) ++ [user])%list |}.
Proof.
  intros Hr. unfold try_stream. rewrite (mbind_ok _ _ _ (chat_send_state user w)), Hr.
  rewrite (mbind_ok _ _ _ (emit_state _ _)).
  match goal with |- context [mbind (consume chunks ?t) ?k ?w1] =>
    destruct (consume_text chunks t w1) as [Hs [Ht [Hc Hch]]];
    destruct (consume chunks t w1) as [w2 r] eqn:E end.
  cbn [fst snd transcript clock chat] in *. subst r.
  rewrite (mbind_ok _ _ _ E). rewrite (mbind_ok _ _ _ (emit_state _ _)).
  eexists. split; [reflexivity|]. cbn [transcript clock chat]. auto.
Qed.

Lemma model_path_whole (user : string) (w : state) (chunks : list chunk) :
  send_message (chat w) user = Stream chunks None ->
  exists w',
    (append_history "user" user ;;
     r <- try_stream user ;;
     if fst r then append_history "model" (snd r) else ret tt)%py w = (w', Ok tt) /\
    transcript w' =
      TextFile.append
        (TextFile.append (transcript w) (record_line (isoformat (clock w)) "user" user))
        (record_line (isoformat (clock w + 1)) "model" (pieces chunks)) /\
    clock w' = clock w + 2 /\
    chat w' = {| history := history (chat w); sent := (sent (chat w) ++ [user])%list |}.
Proof.
  intros Hr. rewrite (mbind_ok _ _ _ (append_history_state "user" user w)).
  match goal with |- context [mbind (try_stream user) ?k ?w1] =>
    destruct (@try_stream_whole user w1 chunks Hr) as [w2 [E [Ht [Hc Hch]]]] end.
  rewrite (mbind_ok _ _ _ E). cbn [fst snd transcript clock chat] in *.
  rewrite append_history_state. eexists. split; [reflexivity|].
  cbn [transcript clock chat]. rewrite Ht, Hc, Hch. repeat split. lia.
Qed.
End Turns.

(** X1.  When the stream of a turn is read to its end, the turn writes two
    records, first the user's message and then one model record whose content
    is the concatenation, in order, of the pieces that arrived (a chunk
    without candidates or parts adds nothing, a part without text adds the
    empty text); loading the transcript gives the earlier turns followed by
    these two. *)
Theorem whole_stream_is_one_model_turn (J : Json) (L : JsonLaws J) (B : Client.Backend)
        (user : string) (w : Client.state) (chunks : list Client.chunk) (h : list value) :
  Client.send_message (Client.chat w) user = Client.Stream chunks None ->
  well_terminated (Client.transcript w) = true ->
  (GeminiChat.load_history (Client.transcript w) = Ok h ->
   snd (GeminiChat.turn user w) = Ok tt /\
   Client.transcript (fst (GeminiChat.turn user w)) =
     TextFile.append
       (TextFile.append (Client.transcript w)
          (record_line (Client.isoformat (Client.clock w)) "user" user))
       (record_line (Client.isoformat (Client.clock w + 1)) "model" (pieces chunks)) /\
   GeminiChat.load_history (Client.transcript (fst (GeminiChat.turn user w))) =
     Ok (h ++ [turn_entry ("user", user); turn_entry ("model", pieces chunks)])%list) /\
  (no_tool_result user = true ->
   Assistant.load_history (Client.transcript w) = Ok h ->
   snd (Assistant.turn user w) = Ok tt /\
   Assistant.load_history (Client.transcript (fst (Assistant.turn user w))) =
     Ok (h ++ [turn_entry ("user", user); turn_entry ("model", pieces chunks)])%list).
Proof.
  intros Hr Hw.
  destruct (@model_path_whole J B user w chunks Hr) as [w' [E [Ht _]]].
  split.
  - intros Hh. unfold GeminiChat.turn. rewrite E. cbn [fst snd].
    split; [reflexivity|]. split; [exact Ht|]. rewrite Ht.
    rewrite (chat_load_after_append L _ _ "model" (pieces chunks)
               (append_well_terminated _ _ _ _)
               (chat_load_after_append L _ _ "user" user Hw Hh)).
    cbn. now rewrite <- app_assoc.
  - intros Hn Hh. unfold Assistant.turn. unfold no_tool_result in Hn.
    destruct (snd (Assistant.handle_tools user)) as [[|a t]|]; try discriminate;
      rewrite E; cbn [fst snd]; (split; [reflexivity|]); rewrite Ht;
      rewrite (assistant_load_after_append L _ _ "model" (pieces chunks)
                 (append_well_terminated _ _ _ _)
                 (assistant_load_after_append L _ _ "user" user Hw Hh));
      now rewrite <- app_assoc.
Qed.

Lemma whole_stream_is_one_model_turn_witness :
  @GeminiChat.load_history RefJson.codec
    (Client.transcript
       (fst (@GeminiChat.turn RefJson.codec streaming_backend "what is 2+2?" fresh_state)))
  = Ok [turn_entry ("user", "what is 2+2?"); turn_entry ("model", "2 + 2 is 4.")].
Proof.
  exact (proj2 (proj2 (proj1
    (@whole_stream_is_one_model_turn RefJson.codec RefJsonFacts.codec_laws
       streaming_backend "what is 2+2?" fresh_state _ [] eq_refl eq_refl) eq_refl))).
Defined.

(** ** The tool path of the assistants *)

(** X2.  The router of [ai_agent.py] gives a result that the chat loop takes
    for a tool answer exactly when the text, in lower case, holds "calendar"
    or "email": in every other case, and in no other case, the model is
    asked. *)
Theorem model_is_asked_without_keyword (user : string) :
  no_tool_result user = true <->
  PyStr.str_in "calendar" (PyStr.lower user) = false /\
  PyStr.str_in "email" (PyStr.lower user) = false.
Proof.
  unfold no_tool_result, Assistant.handle_tools. cbv zeta.
  destruct (PyStr.str_in "calendar" (PyStr.lower user)).
  - destruct (PyStr.str_in "priya" (PyStr.lower user));
      [|destruct (PyStr.str_in "shivam" (PyStr.lower user))];
      cbn; split; intros H; try discriminate; destruct H; discriminate.
  - destruct (PyStr.str_in "email" (PyStr.lower user)).
    + cbn. split; intros H; try discriminate; destruct H; discriminate.
    + cbn. split; auto.
Qed.

Section ToolPath.
Import Client.
Context {J : Json} {B : Backend}.

Lemma tool_path_state (user tool_result : string) (w : state) :
  (emit (print [VStr "🔧 Tool:"; VStr tool_result]) ;;
   append_history "user" user ;;
   append_history "model" tool_result)%py w =
  ({| transcript :=
        TextFile.append
          (TextFile.append (transcript w) (record_line (isoformat (clock w)) "user" user))
          (record_line (isoformat (clock w + 1)) "model" tool_result);
      clock := clock w + 1 + 1;
      stdout := (stdout w ++ [print [VStr "🔧 Tool:"; VStr tool_result]])%list;
      chat := chat w |}, Ok tt).
Proof. reflexivity. Qed.
End ToolPath.

(** X3.  When the router of [ai_agent.py] answers, the turn prints the
    answer, writes the user's message and then the answer as a model record,
    and leaves the chat object as it was: the model is not called. *)
Theorem tool_answer_bypasses_model (J : Json) (B : Client.Backend)
        (user : string) (w : Client.state) :
  no_tool_result user = false ->
  exists tool_result,
    snd (Assistant.handle_tools user) = Some tool_result /\
    Assistant.turn user w =
    ({| Client.transcript :=
          TextFile.append
            (TextFile.append (Client.transcript w)
               (record_line (Client.isoformat (Client.clock w)) "user" user))
            (record_line (Client.isoformat (Client.clock w + 1)) "model" tool_result);
        Client.clock := Client.clock w + 1 + 1;
        Client.stdout :=
          (Client.stdout w ++ [print [VStr "🔧 Tool:"; VStr tool_result]])%list;
        Client.chat := Client.chat w |}, Ok tt).
Proof.
  intros Hn. unfold no_tool_result in Hn. unfold Assistant.turn.
  destruct (snd (Assistant.handle_tools user)) as [[|a t]|]; try discriminate.
  exists (String a t). split; [reflexivity | apply tool_path_state].
Qed.

Lemma tool_answer_bypasses_model_witness :
  exists tool_result,
    snd (Assistant.handle_tools "check the calendar of Priya") = Some tool_result /\
    Client.chat (fst (@Assistant.turn RefJson.codec silent_backend
                        "check the calendar of Priya" fresh_state))
    = Client.chat fresh_state.
Proof.
  destruct (@tool_answer_bypasses_model RefJson.codec silent_backend
              "check the calendar of Priya" fresh_state eq_refl) as [r [Hr Ht]].
  exists r. split; [exact Hr|]. rewrite Ht. reflexivity.
Defined.

(** X4.  In [gemini_real_assistant.py] an exception of a tool is not
    caught: the loop ends with that exception at once, the rest of the input
    is not read and nothing is written to the transcript, not even the
    user's message. *)
Theorem real_tool_failure_ends_loop (J : Json) (B : Client.Backend)
        (T : RealAssistant.Tools) (raw : string) (rest : list Client.input_event)
        (w : Client.state) (e : exn) :
  PyStr.strip raw <> "" ->
  PyStr.lower (PyStr.strip raw) <> "/exit" ->
  PyStr.lower (PyStr.strip raw) <> "/reset" ->
  snd (RealAssistant.handle_tools (PyStr.strip raw)) = Raise e ->
  RealChat.chat_loop (Client.Line raw :: rest) w = (prompted w, Raise e).
Proof.
  intros Hne Hexit Hreset Htool.
  apply String.eqb_neq in Hne, Hexit, Hreset.
  cbn [RealChat.chat_loop]. rewrite (mbind_ok _ _ _ (emit_state _ _)).
  cbv zeta. rewrite Hne, Hexit, Hreset.
  unfold RealChat.turn. rewrite Htool. reflexivity.
Qed.

Lemma real_tool_failure_ends_loop_witness :
  @RealChat.chat_loop RefJson.codec silent_backend failing_tools
    [Client.Line "what is on my calendar?"; Client.Line "hello"] fresh_state
  = (prompted fresh_state, Raise (OtherException "503 calendar unavailable")).
Proof.
  apply (@real_tool_failure_ends_loop RefJson.codec silent_backend failing_tools
           "what is on my calendar?" [Client.Line "hello"] fresh_state);
    try discriminate; reflexivity.
Defined.

(** ** Commands *)

Section Commands.
Import Client.
Context {J : Json} {B : Backend}.

Lemma command_is_not_blank (raw command : string) :
  command <> "" -> PyStr.lower (PyStr.strip raw) = command ->
  String.eqb (PyStr.strip raw) "" = false.
Proof.
  intros Hc Hl. apply String.eqb_neq. intros E. rewrite E in Hl. cbn in Hl. congruence.
Qed.
End Commands.

(** X5.  The command [/reset], in any case and with white space around it,
    removes the transcript and starts a new chat whose history is the
    instruction turn alone; it cannot fail, whatever the old transcript held,
    and the loop goes on with the next input. *)
Theorem reset_clears_and_reseeds (J : Json) (B : Client.Backend)
        (raw : string) (rest : list Client.input_event) (w : Client.state) :
  PyStr.lower (PyStr.strip raw) = "/reset" ->
  GeminiChat.chat_loop (Client.Line raw :: rest) w =
    GeminiChat.chat_loop rest (after_reset chat_instruction w) /\
  Assistant.chat_loop (Client.Line raw :: rest) w =
    Assistant.chat_loop rest (after_reset assistant_instruction w).
Proof.
  intros Hr.
  assert (Hne : String.eqb (PyStr.strip raw) "" = false)
    by (apply (@command_is_not_blank raw "/reset"); [discriminate | exact Hr]).
  split.
  - cbn [GeminiChat.chat_loop]. rewrite (mbind_ok _ _ _ (emit_state _ _)).
    cbv zeta. rewrite Hne, Hr.
    change (String.eqb "/reset" "/exit") with false.
    change (String.eqb "/reset" "/reset") with true. cbv iota.
    unfold after_reset, chat_instruction, reset_history,
      GeminiChat.start_chat, Client.set_chat, Client.emit, get, lift, ret, modify, mbind.
    cbn [fst snd Client.transcript Client.clock Client.stdout Client.chat
         GeminiChat.load_history app].
    now rewrite <- app_assoc.
  - cbn [Assistant.chat_loop]. rewrite (mbind_ok _ _ _ (emit_state _ _)).
    cbv zeta. rewrite Hne, Hr.
    change (String.eqb "/reset" "/exit") with false.
    change (String.eqb "/reset" "/reset") with true. cbv iota.
    unfold after_reset, assistant_instruction, reset_history,
      Assistant.start_chat, Client.set_chat, Client.emit, get, lift, ret, modify, mbind.
    cbn [fst snd Client.transcript Client.clock Client.stdout Client.chat
         Assistant.load_history app].
    now rewrite <- app_assoc.
Qed.

Lemma reset_clears_and_reseeds_witness :
  @GeminiChat.chat_loop RefJson.codec silent_backend
    [Client.Line (nbsp ++ " /RESET " ++ line_separator)] fresh_state =
  @GeminiChat.chat_loop RefJson.codec silent_backend [] (after_reset chat_instruction fresh_state).
Proof.
  apply (@reset_clears_and_reseeds RefJson.codec silent_backend
           (nbsp ++ " /RESET " ++ line_separator) [] fresh_state).
  reflexivity.
Defined.

(** X6.  The command [/exit], in any case and with white space around it,
    ends the loop normally: the input that follows is not read, the
    transcript and the chat are left as they are. *)
Theorem exit_ends_loop (J : Json) (B : Client.Backend)
        (raw : string) (rest : list Client.input_event) (w : Client.state) :
  PyStr.lower (PyStr.strip raw) = "/exit" ->
  let ended :=
    ({| Client.transcript := Client.transcript w;
        Client.clock := Client.clock w;
        Client.stdout :=
          (Client.stdout w ++ [Print [VStr "You: "] ""; print [VStr "Bye! 👋"]])%list;
        Client.chat := Client.chat w |}, Ok tt) in
  GeminiChat.chat_loop (Client.Line raw :: rest) w = ended /\
  Assistant.chat_loop (Client.Line raw :: rest) w = ended.
Proof.
  intros Hr ended.
  assert (Hne : String.eqb (PyStr.strip raw) "" = false)
    by (apply (@command_is_not_blank raw "/exit"); [discriminate | exact Hr]).
  split.
  - cbn [GeminiChat.chat_loop]. rewrite (mbind_ok _ _ _ (emit_state _ _)).
    cbv zeta. rewrite Hne, Hr.
    change (String.eqb "/exit" "/exit") with true. cbv iota.
    rewrite emit_state. unfold ended. cbn [Client.transcript Client.clock Client.stdout
                                           Client.chat].
    now rewrite <- app_assoc.
  - cbn [Assistant.chat_loop]. rewrite (mbind_ok _ _ _ (emit_state _ _)).
    cbv zeta. rewrite Hne, Hr.
    change (String.eqb "/exit" "/exit") with true. cbv iota.
    rewrite emit_state. unfold ended. cbn [Client.transcript Client.clock Client.stdout
                                           Client.chat].
    now rewrite <- app_assoc.
Qed.

Lemma exit_ends_loop_witness :
  Client.transcript
    (fst (@Assistant.chat_loop RefJson.codec silent_backend
            [Client.Line (nbsp ++ "/Exit "); Client.Line "check the calendar of Priya"]
            fresh_state))
  = None.
Proof.
  rewrite (proj2 (@exit_ends_loop RefJson.codec silent_backend (nbsp ++ "/Exit ")
                    [Client.Line "check the calendar of Priya"] fresh_state eq_refl)).
  reflexivity.
Defined.

(** ** Loading a transcript that the program did not write *)

(** X7.  A line that [json.loads] refuses makes [load_history] fail with
    [JSONDecodeError], in both programs and wherever the line stands: the
    line is not skipped and the turns read before it are not returned. *)
Theorem malformed_line_fails_load (J : Json) (content : string)
        (good : list string) (bad : string) (rest : list string) :
  TextFile.readlines content = (good ++ bad :: rest)%list ->
  json_loads bad = None ->
  ((exists h, Assistant.load_lines good [] = Ok h) ->
   Assistant.load_history (Some content) = Raise JSONDecodeError) /\
  ((exists h, GeminiChat.load_lines good [] = Ok h) ->
   GeminiChat.load_history (Some content) = Raise JSONDecodeError).
Proof.
  intros Hlines Hbad. split; intros [h Hh].
  - cbn [Assistant.load_history]. rewrite Hlines, assistant_load_lines_app, Hh.
    cbn [bind Assistant.load_lines]. unfold loads. now rewrite Hbad.
  - cbn [GeminiChat.load_history]. rewrite Hlines, chat_load_lines_app, Hh.
    cbn [bind GeminiChat.load_lines]. unfold loads. now rewrite Hbad.
Qed.

Lemma malformed_line_fails_load_witness :
  @Assistant.load_history RefJson.codec
    (Some (@record_line RefJson.codec "t0" "user" "hi" ++ "not json" ++ nl))
  = Raise JSONDecodeError.
Proof.
  refine (proj1 (@malformed_line_fails_load RefJson.codec
                   (@record_line RefJson.codec "t0" "user" "hi" ++ "not json" ++ nl)
                   [@record_line RefJson.codec "t0" "user" "hi"] ("not json" ++ nl) []
                   _ _) _).
  - vm_compute. reflexivity.
  - vm_compute. reflexivity.
  - eexists. vm_compute. reflexivity.
Defined.

(** X8.  A line that parses to a dictionary without the key "role", or with
    it and without the key "content", makes [load_history] fail with the
    [KeyError] of the first key that is missing, in both programs; extra keys
    do no harm. *)
Theorem missing_key_fails_load (J : Json) (content : string)
        (good : list string) (bad : string) (rest : list string) (d : dict) :
  TextFile.readlines content = (good ++ bad :: rest)%list ->
  json_loads bad = Some (VDict d) ->
  dict_get d "role" = None \/ dict_get d "content" = None ->
  let key := match dict_get d "role" with None => "role" | Some _ => "content" end in
  ((exists h, Assistant.load_lines good [] = Ok h) ->
   Assistant.load_history (Some content) = Raise (KeyError key)) /\
  ((exists h, GeminiChat.load_lines good [] = Ok h) ->
   GeminiChat.load_history (Some content) = Raise (KeyError key)).
Proof.
  intros Hlines Hbad Hmiss key. split; intros [h Hh].
  - cbn [Assistant.load_history]. rewrite Hlines, assistant_load_lines_app, Hh.
    cbn [bind Assistant.load_lines]. unfold loads. rewrite Hbad. cbn [bind subscript].
    unfold key. destruct (dict_get d "role"); [|reflexivity].
    destruct Hmiss as [Hm|Hm]; [discriminate|]. rewrite Hm. reflexivity.
  - cbn [GeminiChat.load_history]. rewrite Hlines, chat_load_lines_app, Hh.
    cbn [bind GeminiChat.load_lines]. unfold loads. rewrite Hbad. cbn [bind subscript].
    unfold key. destruct (dict_get d "role"); [|reflexivity].
    destruct Hmiss as [Hm|Hm]; [discriminate|]. rewrite Hm. reflexivity.
Qed.

Lemma missing_key_fails_load_witness :
  let line := @json_dumps RefJson.codec (VDict (str_dict [("role", "user"); ("text", "hi")]))
              ++ nl in
  @GeminiChat.load_history RefJson.codec (Some line) = Raise (KeyError "content").
Proof.
  intros line.
  refine (proj2 (@missing_key_fails_load RefJson.codec line [] line []
                   (str_dict [("role", "user"); ("text", "hi")]) _ _ _) _).
  - vm_compute. reflexivity.
  - vm_compute. reflexivity.
  - right. reflexivity.
  - eexists. reflexivity.
Defined.

Section LoadShape.
Context {J : Json}.

Lemma chat_load_lines_roles (lines : list string) :
  forall h h',
    GeminiChat.load_lines lines h = Ok h' ->
    Forall (fun e => exists role content,
                       e = entry role content /\ user_or_model role = true) h ->
    Forall (fun e => exists role content,
                       e = entry role content /\ user_or_model role = true) h'.
Proof.
  induction lines as [|line lines IH]; intros h h' Hload Hh.
  - cbn in Hload. now injection Hload as <-.
  - cbn [GeminiChat.load_lines] in Hload.
    destruct (loads line) as [rec|e]; [|discriminate]. cbn [bind] in Hload.
    destruct (subscript rec "role") as [role|e]; [|discriminate]. cbn [bind] in Hload.
    destruct (subscript rec "content") as [content|e]; [|discriminate]. cbn [bind] in Hload.
    destruct (eq_str role "user" || eq_str role "model") eqn:Er.
    + apply (IH _ _ Hload). apply Forall_app. split; [exact Hh|].
      constructor; [|constructor]. exists role, content. now split.
    + apply (IH _ _ Hload Hh).
Qed.

Lemma assistant_load_lines_length (lines : list string) :
  forall h h',
    Assistant.load_lines lines h = Ok h' ->
    length h' = length h + length lines.
Proof.
  induction lines as [|line lines IH]; intros h h' Hload.
  - cbn in Hload. injection Hload as <-. cbn. lia.
  - cbn [Assistant.load_lines] in Hload.
    destruct (loads line) as [rec|e]; [|discriminate]. cbn [bind] in Hload.
    destruct (subscript rec "role") as [role|e]; [|discriminate]. cbn [bind] in Hload.
    destruct (subscript rec "content") as [content|e]; [|discriminate]. cbn [bind] in Hload.
    rewrite (IH _ _ Hload). rewrite length_app. cbn. lia.
Qed.
End LoadShape.

(** X9.  Whatever the transcript holds, a history that [load_history] of
    [gemini_chat.py] returns has only entries of the form
    [{"role": r, "parts": [c]}] with [r] equal to "user" or to "model". *)
Theorem chat_history_has_two_roles (J : Json) (f : TextFile.file) (h : list value) :
  GeminiChat.load_history f = Ok h ->
  Forall (fun e => exists role content,
                     e = entry role content /\
                     (role = VStr "user" \/ role = VStr "model")) h.
Proof.
  intros Hload.
  assert (Hh : Forall (fun e => exists role content,
                         e = entry role content /\ user_or_model role = true) h).
  { destruct f as [content|]; cbn [GeminiChat.load_history] in Hload.
    - apply (@chat_load_lines_roles J _ _ _ Hload). constructor.
    - injection Hload as <-. constructor. }
  eapply Forall_impl; [|exact Hh].
  intros e [role [content [He Hr]]]. exists role, content. split; [exact He|].
  unfold user_or_model in Hr. apply orb_prop in Hr.
  destruct role as [| | |s| |]; try (destruct Hr; discriminate).
  destruct Hr as [Hr|Hr]; apply String.eqb_eq in Hr; subst; auto.
Qed.

Lemma chat_history_has_two_roles_witness :
  Forall (fun e => exists role content,
                     e = entry role content /\
                     (role = VStr "user" \/ role = VStr "model"))
         [turn_entry ("user", "hello")].
Proof.
  apply (@chat_history_has_two_roles RefJson.codec
           (Some (@record_line RefJson.codec "t0" "user" "hello" ++
                  @record_line RefJson.codec "t1" "system" "be brief"))).
  vm_compute. reflexivity.
Defined.

(** X10.  When [load_history] of [ai_agent.py] (and of
    [gemini_real_assistant.py]) returns, it returns one entry for every line
    of the transcript: it has no way to leave a line out. *)
Theorem assistant_history_has_every_line (J : Json) (content : string) (h : list value) :
  Assistant.load_history (Some content) = Ok h ->
  length h = length (TextFile.readlines content) /\
  (RealAssistant.load_history (Some content) = Ok h).
Proof.
  intros Hload. split; [|exact Hload].
  cbn [Assistant.load_history] in Hload.
  now rewrite (@assistant_load_lines_length J _ _ _ Hload).
Qed.

Lemma assistant_history_has_every_line_witness :
  length [turn_entry ("user", "hello"); turn_entry ("system", "be brief")] =
  length (TextFile.readlines (@record_line RefJson.codec "t0" "user" "hello" ++
                              @record_line RefJson.codec "t1" "system" "be brief")).
Proof.
  apply (@assistant_history_has_every_line RefJson.codec).
  vm_compute. reflexivity.
Defined.

(** ** Whole sessions *)

Section Sessions.
Import Client.
Context {J : Json} {B : Backend}.

(** *** What a session does to the transcript *)

Variable P : TextFile.file -> Prop.

Lemma kt_bind {A C} (m : M state A) (k : A -> M state C) :
  keeps_transcript P m -> (forall a, keeps_transcript P (k a)) ->
  keeps_transcript P (mbind m k).
Proof.
  intros Hm Hk w w' r E Hw. unfold mbind in E.
  destruct (m w) as [w1 [a|e]] eqn:Em.
  - exact (Hk a w1 w' r E (Hm w w1 _ Em Hw)).
  - injection E as <- _. exact (Hm w w1 _ Em Hw).
Qed.

Lemma kt_same {A} (m : M state A) :
  (forall w w' r, m w = (w', r) -> transcript w' = transcript w) ->
  keeps_transcript P m.
Proof. intros Hm w w' r E Hw. now rewrite (Hm w w' r E). Qed.

Lemma kt_ret {A} (a : A) : keeps_transcript P (ret a : M state A).
Proof. apply kt_same. intros w w' r E. now injection E as <- _. Qed.

Lemma kt_raise {A} (e : exn) : keeps_transcript P (raise e : M state A).
Proof. apply kt_same. intros w w' r E. now injection E as <- _. Qed.

Lemma kt_emit (o : out) : keeps_transcript P (emit o).
Proof. apply kt_same. intros w w' r E. now injection E as <- _. Qed.

Lemma kt_set_chat (c : chat_session) : keeps_transcript P (set_chat c).
Proof. apply kt_same. intros w w' r E. now injection E as <- _. Qed.

Lemma kt_try_stream (user : string) : keeps_transcript P (try_stream user).
Proof.
  apply kt_same. intros w w' r E.
  destruct (try_stream_state user w) as [w2 [r2 [E2 [Ht _]]]].
  rewrite E in E2. now injection E2 as -> _.
Qed.

Hypothesis P_append : forall f ts role content,
  P f -> P (TextFile.append f (record_line ts role content)).
Hypothesis P_removed : P None.

Lemma kt_append_history (role content : string) :
  keeps_transcript P (append_history role content).
Proof.
  intros w w' r E Hw. rewrite append_history_state in E.
  injection E as <- _. cbn [transcript]. now apply P_append.
Qed.

Lemma kt_model_path (user : string) :
  keeps_transcript P
    (append_history "user" user ;;
     r <- try_stream user ;;
     if fst r then append_history "model" (snd r) else ret tt)%py.
Proof.
  apply kt_bind; [apply kt_append_history | intros _].
  apply kt_bind; [apply kt_try_stream | intros r].
  destruct (fst r); [apply kt_append_history | apply kt_ret].
Qed.

Lemma kt_reset_chat (start : M state chat_session) (k : M state unit) :
  (forall w w' r, start w = (w', r) -> transcript w' = transcript w) ->
  keeps_transcript P k ->
  keeps_transcript P
    (reset_history ;; c <- start ;; set_chat c ;;
     emit (print [VStr "🧹 Memory cleared."]) ;; k)%py.
Proof.
  intros Hstart Hk w w' r E _.
  unfold mbind at 1, reset_history, modify in E.
  assert (Hrest : keeps_transcript P
                    (c <- start ;; set_chat c ;;
                     emit (print [VStr "🧹 Memory cleared."]) ;; k)%py).
  { apply kt_bind; [now apply kt_same | intros c].
    apply kt_bind; [apply kt_set_chat | intros _].
    apply kt_bind; [apply kt_emit | intros _]. exact Hk. }
  exact (Hrest _ _ _ E P_removed).
Qed.

Lemma chat_start_same (w w' : state) (r : result chat_session) :
  GeminiChat.start_chat w = (w', r) -> transcript w' = transcript w.
Proof.
  unfold GeminiChat.start_chat, mbind, get, lift, ret.
  destruct (GeminiChat.load_history (transcript w)); intros E; now injection E as <- _.
Qed.

Lemma assistant_start_same (w w' : state) (r : result chat_session) :
  Assistant.start_chat w = (w', r) -> transcript w' = transcript w.
Proof.
  unfold Assistant.start_chat, mbind, get, lift, ret.
  destruct (Assistant.load_history (transcript w)); intros E; now injection E as <- _.
Qed.

Lemma kt_chat_loop (inputs : list input_event) :
  keeps_transcript P (GeminiChat.chat_loop inputs).
Proof.
  induction inputs as [|[raw|] rest IH]; cbn [GeminiChat.chat_loop];
    (apply kt_bind; [apply kt_emit | intros _]); try apply kt_emit.
  cbv zeta. destruct (String.eqb (PyStr.strip raw) ""); [exact IH|].
  destruct (String.eqb (PyStr.lower (PyStr.strip raw)) "/exit"); [apply kt_emit|].
  destruct (String.eqb (PyStr.lower (PyStr.strip raw)) "/reset").
  - apply kt_reset_chat; [exact chat_start_same | exact IH].
  - apply kt_bind; [apply kt_model_path | intros _; exact IH].
Qed.

Lemma kt_assistant_turn (user : string) : keeps_transcript P (Assistant.turn user).
Proof.
  unfold Assistant.turn.
  destruct (snd (Assistant.handle_tools user)) as [[|a t]|]; try apply kt_model_path.
  apply kt_bind; [apply kt_emit | intros _].
  apply kt_bind; [apply kt_append_history | intros _]. apply kt_append_history.
Qed.

Lemma kt_assistant_loop (inputs : list input_event) :
  keeps_transcript P (Assistant.chat_loop inputs).
Proof.
  induction inputs as [|[raw|] rest IH]; cbn [Assistant.chat_loop];
    (apply kt_bind; [apply kt_emit | intros _]); try apply kt_emit.
  cbv zeta. destruct (String.eqb (PyStr.strip raw) ""); [exact IH|].
  destruct (String.eqb (PyStr.lower (PyStr.strip raw)) "/exit"); [apply kt_emit|].
  destruct (String.eqb (PyStr.lower (PyStr.strip raw)) "/reset").
  - apply kt_reset_chat; [exact assistant_start_same | exact IH].
  - apply kt_bind; [apply kt_assistant_turn | intros _; exact IH].
Qed.
End Sessions.

(** X11.  Whatever is typed, whatever the model answers and however the loop
    ends (also with an exception), a chat loop that starts on a transcript
    that is missing, empty or ended by a line feed leaves it in that form: the
    loop only adds whole lines or removes the file, so the next record starts
    a line of its own. *)
Theorem session_keeps_whole_lines (J : Json) (B : Client.Backend)
        (inputs : list Client.input_event) (w : Client.state) :
  well_terminated (Client.transcript w) = true ->
  well_terminated (Client.transcript (fst (GeminiChat.chat_loop inputs w))) = true /\
  well_terminated (Client.transcript (fst (Assistant.chat_loop inputs w))) = true.
Proof.
  intros Hw. split.
  - destruct (GeminiChat.chat_loop inputs w) as [w' r] eqn:E. cbn [fst].
    refine (@kt_chat_loop J B (fun f => well_terminated f = true) _ _ inputs w w' r E Hw).
    + intros f ts role content _. apply append_well_terminated.
    + reflexivity.
  - destruct (Assistant.chat_loop inputs w) as [w' r] eqn:E. cbn [fst].
    refine (@kt_assistant_loop J B (fun f => well_terminated f = true) _ _ inputs w w' r E Hw).
    + intros f ts role content _. apply append_well_terminated.
    + reflexivity.
Qed.

Lemma session_keeps_whole_lines_witness :
  well_terminated
    (Client.transcript
       (fst (@GeminiChat.chat_loop RefJson.codec breaking_backend
               [Client.Line "hello"; Client.Line "/reset"; Client.Line "again"]
               fresh_state))) = true.
Proof.
  apply (@session_keeps_whole_lines RefJson.codec breaking_backend
           [Client.Line "hello"; Client.Line "/reset"; Client.Line "again"] fresh_state).
  reflexivity.
Defined.

(** *** A session that meets model errors *)

Section Survives.
Import Client.
Context {J : Json} {B : Backend}.

Lemma nr_bind {A C} (m : M state A) (k : A -> M state C) :
  never_raises m -> (forall a, never_raises (k a)) -> never_raises (mbind m k).
Proof.
  intros Hm Hk w. destruct (Hm w) as [w1 [a E]].
  destruct (Hk a w1) as [w2 [c E2]]. exists w2, c.
  now rewrite (mbind_ok _ _ _ E).
Qed.

Lemma nr_ret {A} (a : A) : never_raises (ret a : M state A).
Proof. intros w. now exists w, a. Qed.

Lemma nr_emit (o : out) : never_raises (emit o).
Proof. intros w. eexists _, tt. apply emit_state. Qed.

Lemma nr_set_chat (c : chat_session) : never_raises (set_chat c).
Proof. intros w. eexists _, tt. reflexivity. Qed.

Lemma nr_append_history (role content : string) : never_raises (append_history role content).
Proof. intros w. eexists _, tt. apply append_history_state. Qed.

Hypothesis calm : never_interrupted B.

Lemma nr_on_failure (e : failure) : e <> Interrupted -> never_raises (on_failure e).
Proof.
  intros He. destruct e as [msg|]; [|congruence].
  cbn [on_failure]. apply nr_bind; [apply nr_emit | intros _; apply nr_ret].
Qed.

Lemma nr_consume (chunks : list chunk) (full_text : string) :
  never_raises (consume chunks full_text).
Proof.
  intros w. destruct (consume_text chunks full_text w) as [Hs _].
  destruct (consume chunks full_text w) as [w' r]. cbn [snd] in Hs. subst r. eauto.
Qed.

Lemma nr_try_stream (user : string) : never_raises (try_stream user).
Proof.
  intros w. unfold try_stream. rewrite (mbind_ok _ _ _ (chat_send_state user w)).
  destruct (calm (chat w) user) as [Hsend Hstream].
  destruct (send_message (chat w) user) as [e|chunks then_].
  - apply nr_bind; [apply nr_on_failure; congruence | intros b; apply nr_ret].
  - apply nr_bind; [apply nr_emit | intros _].
    apply nr_bind; [apply nr_consume | intros full_text].
    destruct then_ as [e|].
    + apply nr_bind; [|intros b; apply nr_ret].
      apply nr_on_failure. intros ->. now apply (Hstream chunks).
    + apply nr_bind; [apply nr_emit | intros _; apply nr_ret].
Qed.

Lemma nr_model_path (user : string) :
  never_raises
    (append_history "user" user ;;
     r <- try_stream user ;;
     if fst r then append_history "model" (snd r) else ret tt)%py.
Proof.
  apply nr_bind; [apply nr_append_history | intros _].
  apply nr_bind; [apply nr_try_stream | intros r].
  destruct (fst r); [apply nr_append_history | apply nr_ret].
Qed.

Lemma nr_assistant_turn (user : string) : never_raises (Assistant.turn user).
Proof.
  unfold Assistant.turn.
  destruct (snd (Assistant.handle_tools user)) as [[|a t]|]; try apply nr_model_path.
  apply nr_bind; [apply nr_emit | intros _].
  apply nr_bind; [apply nr_append_history | intros _]. apply nr_append_history.
Qed.

(** After [reset_history] there is nothing to load: [start_chat] succeeds. *)
Lemma nr_reset_chat (start : M state chat_session) (k : M state unit) :
  (forall w, transcript w = None -> exists c, start w = (w, Ok c)) ->
  never_raises k ->
  never_raises
    (reset_history ;; c <- start ;; set_chat c ;;
     emit (print [VStr "🧹 Memory cleared."]) ;; k)%py.
Proof.
  intros Hstart Hk w. unfold mbind at 1, reset_history, modify.
  match goal with |- exists w' a, _ ?w0 = _ =>
    destruct (Hstart w0 eq_refl) as [c Ec] end.
  rewrite (mbind_ok _ _ _ Ec).
  apply nr_bind; [apply nr_set_chat | intros _].
  apply nr_bind; [apply nr_emit | intros _]. exact Hk.
Qed.

Lemma chat_start_fresh (w : state) :
  transcript w = None -> exists c, GeminiChat.start_chat w = (w, Ok c).
Proof.
  intros Hw. unfold GeminiChat.start_chat, mbind, get, lift, ret. rewrite Hw. cbn. eauto.
Qed.

Lemma assistant_start_fresh (w : state) :
  transcript w = None -> exists c, Assistant.start_chat w = (w, Ok c).
Proof.
  intros Hw. unfold Assistant.start_chat, mbind, get, lift, ret. rewrite Hw. cbn. eauto.
Qed.

Lemma nr_chat_loop (inputs : list input_event) : never_raises (GeminiChat.chat_loop inputs).
Proof.
  induction inputs as [|[raw|] rest IH]; cbn [GeminiChat.chat_loop];
    (apply nr_bind; [apply nr_emit | intros _]); try apply nr_emit.
  cbv zeta. destruct (String.eqb (PyStr.strip raw) ""); [exact IH|].
  destruct (String.eqb (PyStr.lower (PyStr.strip raw)) "/exit"); [apply nr_emit|].
  destruct (String.eqb (PyStr.lower (PyStr.strip raw)) "/reset").
  - apply nr_reset_chat; [exact chat_start_fresh | exact IH].
  - apply nr_bind; [apply nr_model_path | intros _; exact IH].
Qed.

Lemma nr_assistant_loop (inputs : list input_event) :
  never_raises (Assistant.chat_loop inputs).
Proof.
  induction inputs as [|[raw|] rest IH]; cbn [Assistant.chat_loop];
    (apply nr_bind; [apply nr_emit | intros _]); try apply nr_emit.
  cbv zeta. destruct (String.eqb (PyStr.strip raw) ""); [exact IH|].
  destruct (String.eqb (PyStr.lower (PyStr.strip raw)) "/exit"); [apply nr_emit|].
  destruct (String.eqb (PyStr.lower (PyStr.strip raw)) "/reset").
  - apply nr_reset_chat; [exact assistant_start_fresh | exact IH].
  - apply nr_bind; [apply nr_assistant_turn | intros _; exact IH].
Qed.
End Survives.

(** X12.  When the model client fails with exceptions only (no
    [KeyboardInterrupt] while an answer is awaited) and the transcript at
    the start can be loaded, [interactive_chat] of [gemini_chat.py] and of
    [ai_agent.py] ends normally for every input: no failure of the model,
    no command and no tool answer makes the program raise. *)
Theorem chat_survives_model_errors (J : Json) (B : Client.Backend)
        (inputs : list Client.input_event) (w : Client.state) :
  never_interrupted B ->
  ((exists h, GeminiChat.load_history (Client.transcript w) = Ok h) ->
   snd (GeminiChat.interactive_chat inputs w) = Ok tt) /\
  ((exists h, Assistant.load_history (Client.transcript w) = Ok h) ->
   snd (Assistant.interactive_chat inputs w) = Ok tt).
Proof.
  intros Hcalm. split; intros [h Hh].
  - unfold GeminiChat.interactive_chat.
    rewrite (mbind_ok _ _ _ (emit_state _ _)), (mbind_ok _ _ _ (emit_state _ _)).
    unfold mbind at 1, GeminiChat.start_chat, mbind, get, lift, ret.
    cbn [Client.transcript]. rewrite Hh. cbn [Client.set_chat modify].
    match goal with |- snd (GeminiChat.chat_loop inputs ?w1) = _ =>
      destruct (@nr_chat_loop J B Hcalm inputs w1) as [w2 [[] E]] end.
    now rewrite E.
  - unfold Assistant.interactive_chat.
    rewrite (mbind_ok _ _ _ (emit_state _ _)), (mbind_ok _ _ _ (emit_state _ _)).
    unfold mbind at 1, Assistant.start_chat, mbind, get, lift, ret.
    cbn [Client.transcript]. rewrite Hh. cbn [Client.set_chat modify].
    match goal with |- snd (Assistant.chat_loop inputs ?w1) = _ =>
      destruct (@nr_assistant_loop J B Hcalm inputs w1) as [w2 [[] E]] end.
    now rewrite E.
Qed.

Lemma breaking_backend_calm : never_interrupted breaking_backend.
Proof. intros c user. split; [discriminate|]. intros chunks. discriminate. Qed.

Lemma chat_survives_model_errors_witness :
  snd (@GeminiChat.interactive_chat RefJson.codec breaking_backend
         [Client.Line "hello"; Client.Line "are you there?"] fresh_state) = Ok tt.
Proof.
  apply (@chat_survives_model_errors RefJson.codec breaking_backend
           [Client.Line "hello"; Client.Line "are you there?"] fresh_state
           breaking_backend_calm).
  exists []. reflexivity.
Defined.

(** X13.  A corrupt transcript stops [interactive_chat] before the first
    prompt: when [load_history] fails at the start, the program ends with
    that exception having printed its two greeting lines, and reads no
    input. *)
Theorem corrupt_transcript_stops_start (J : Json) (B : Client.Backend)
        (inputs : list Client.input_event) (w : Client.state) (e : exn) :
  GeminiChat.load_history (Client.transcript w) = Raise e ->
  GeminiChat.interactive_chat inputs w =
  ({| Client.transcript := Client.transcript w;
      Client.clock := Client.clock w;
      Client.stdout :=
        (Client.stdout w ++
         [print [VStr ("Gemini multi-turn chat on " ++ GeminiChat.MODEL_NAME)];
          print [VStr ("Commands: /reset (clear memory), /exit (quit)" ++ nl)]])%list;
      Client.chat := Client.chat w |}, Raise e).
Proof.
  intros Hh. unfold GeminiChat.interactive_chat.
  rewrite (mbind_ok _ _ _ (emit_state _ _)), (mbind_ok _ _ _ (emit_state _ _)).
  unfold mbind at 1, GeminiChat.start_chat, mbind, get, lift, ret.
  cbn [Client.transcript Client.clock Client.stdout Client.chat]. rewrite Hh.
  now rewrite <- app_assoc.
Qed.

Lemma corrupt_transcript_stops_start_witness :
  snd (@GeminiChat.interactive_chat RefJson.codec silent_backend [Client.Line "hello"]
         {| Client.transcript := Some ("{broken" ++ nl); Client.clock := 0;
            Client.stdout := [];
            Client.chat := {| Client.history := []; Client.sent := [] |} |})
  = Raise JSONDecodeError.
Proof.
  rewrite (@corrupt_transcript_stops_start RefJson.codec silent_backend
             [Client.Line "hello"] _ JSONDecodeError); reflexivity.
Defined.

(** X14.  Starting a chat replays the transcript: after turns written with
    [append_history] to a missing or empty transcript, [start_chat] of
    [ai_agent.py] gives a chat whose history is the instruction turn followed
    by those turns in order, and [start_chat] of [gemini_chat.py] does so for
    turns of the roles "user" and "model". *)
Theorem start_chat_replays (J : Json) (L : JsonLaws J) (B : Client.Backend)
        (turns : list (string * string)) (w : Client.state) :
  Client.transcript w = None \/ Client.transcript w = Some "" ->
  let w' := fst (append_all turns w) in
  snd (Assistant.start_chat w') =
    Ok (model_start_chat (assistant_instruction :: map turn_entry turns)) /\
  (Forall (fun t => fst t = "user" \/ fst t = "model") turns ->
   snd (GeminiChat.start_chat w') =
     Ok (model_start_chat (chat_instruction :: map turn_entry turns))).
Proof.
  intros Hw w'.
  assert (Ht : well_terminated (Client.transcript w) = true)
    by (destruct Hw as [-> | ->]; reflexivity).
  assert (Ha : Assistant.load_history (Client.transcript w) = Ok [])
    by (destruct Hw as [-> | ->]; reflexivity).
  assert (Hg : GeminiChat.load_history (Client.transcript w) = Ok [])
    by (destruct Hw as [-> | ->]; reflexivity).
  split.
  - unfold Assistant.start_chat, mbind, get, lift, ret. unfold w'.
    rewrite (assistant_load_append_all L turns w Ht Ha). reflexivity.
  - intros Hroles. unfold GeminiChat.start_chat, mbind, get, lift, ret. unfold w'.
    rewrite (chat_load_append_all L turns w Ht Hg). cbn [app snd].
    assert (Hall : filter (fun t => user_or_model (VStr (fst t))) turns = turns).
    { clear -Hroles. induction Hroles as [|t ts Hr _ IH]; [reflexivity|].
      cbn [filter]. rewrite IH. destruct Hr as [-> | ->]; reflexivity. }
    rewrite Hall. reflexivity.
Qed.

Lemma start_chat_replays_witness :
  snd (@Assistant.start_chat RefJson.codec
         (fst (@append_all RefJson.codec silent_backend
                 [("user", "hello"); ("model", "hi")] fresh_state)))
  = Ok (model_start_chat
          [assistant_instruction; turn_entry ("user", "hello"); turn_entry ("model", "hi")]).
Proof.
  apply (@start_chat_replays RefJson.codec RefJsonFacts.codec_laws silent_backend
           [("user", "hello"); ("model", "hi")] fresh_state).
  left. reflexivity.
Defined.

(** ** Every run of the agent loop *)

Section EveryRun.
Import AiAgent AiAgent.AIAgent.
Context {J : Json} {G : Type} {GP : GPT G}.

Lemma ka_ret {A} (a : A) : keeps_agent G (ret a).
Proof. intros f f' r E. now injection E as <- _. Qed.

Lemma ka_lift {A} (x : result A) : keeps_agent G (lift x).
Proof. intros f f' r E. now injection E as <- _. Qed.

Lemma ka_emit (o : out) : keeps_agent G (emit o).
Proof. intros f f' r E. now injection E as <- _. Qed.

Lemma ka_bind {A C} (m : M (frame G) A) (k : A -> M (frame G) C) :
  keeps_agent G m -> (forall a, keeps_agent G (k a)) -> keeps_agent G (mbind m k).
Proof.
  intros Hm Hk f f' r E. unfold mbind in E.
  destruct (m f) as [f1 [a|e]] eqn:Em.
  - rewrite (Hk a f1 f' r E). exact (Hm f f1 _ Em).
  - injection E as <- _. exact (Hm f f1 _ Em).
Qed.

(** A round calls the backend once, whatever comes of the answer. *)
Lemma body_calls_once (task : string) (f f' : frame G) (r : result unit) :
  body task f = (f', r) ->
  gpt (self f') = fst (gpt_run (gpt (self f)) task).
Proof.
  unfold body. unfold mbind at 1, modify. unfold mbind at 1, get.
  unfold mbind at 1, emit, modify. unfold mbind at 1, call_gpt.
  cbn [self step done stdout].
  destruct (gpt_run (gpt (self f)) task) as [g response]. cbn [fst].
  intros E.
  match type of E with ?m ?f1 = _ =>
    assert (Hk : keeps_agent G m); [|now rewrite (Hk f1 f' r E)] end.
  repeat first
    [ apply ka_bind; [|intros ?]
    | apply ka_emit | apply ka_lift | apply ka_ret
    | match goal with |- keeps_agent G (if ?c then _ else _) => destruct c end
    | (intros ? ? ? E'; unfold modify in E'; injection E' as <- _; reflexivity) ].
Qed.

Lemma while_loop_counts (task : string) (fuel : nat) :
  forall (f f' : frame G) (r : result unit),
    while_loop fuel task f = Some (f', r) ->
    step f <= 5 ->
    step f <= step f' <= 5 /\
    gpt (self f') = gpt_after (step f' - step f) (gpt (self f)) task.
Proof.
  induction fuel as [|fuel IH]; intros f f' r E Hle; cbn [while_loop] in E.
  - destruct (negb (done f) && Nat.ltb (step f) 5); [discriminate|].
    injection E as <- _. rewrite Nat.sub_diag. split; [lia | reflexivity].
  - destruct (negb (done f) && Nat.ltb (step f) 5) eqn:Hc.
    + apply andb_prop in Hc as [_ Hlt]. apply Nat.ltb_lt in Hlt.
      destruct (body task f) as [f1 [[]|e]] eqn:Eb.
      * pose proof (body_counts _ _ Eb) as Hs. pose proof (body_calls_once _ _ Eb) as Hg.
        destruct (IH f1 f' r E) as [Hb Hgpt]; [lia|].
        split; [lia|]. rewrite Hgpt, Hg.
        replace (step f' - step f) with (S (step f' - step f1)) by lia. reflexivity.
      * injection E as <- _.
        pose proof (body_counts _ _ Eb) as Hs. pose proof (body_calls_once _ _ Eb) as Hg.
        split; [lia|]. rewrite Hg. replace (step f1 - step f) with 1 by lia. reflexivity.
    + injection E as <- _. rewrite Nat.sub_diag. split; [lia | reflexivity].
Qed.

Lemma body_malformed (task : string) (f : frame G) :
  json_loads (response 0 (gpt (self f)) task) = None ->
  body task f =
  ({| self := {| gpt := fst (gpt_run (gpt (self f)) task) |};
      step := step f + 1;
      done := done f;
      stdout := (stdout f ++ [print [VStr ("--- Step " ++ dec (step f + 1) ++ " ---")]])%list |},
   Raise JSONDecodeError).
Proof.
  unfold response. cbn [gpt_after]. intros Hbad.
  unfold body, emit, call_gpt, mbind, modify, get, lift, ret.
  cbn [fst snd self step done stdout gpt].
  destruct (gpt_run (gpt (self f)) task) as [g resp]. cbn [fst snd] in *.
  unfold loads. now rewrite Hbad.
Qed.

(** Rounds on step records, then an answer that is not JSON. *)
Lemma while_until_malformed (task : string) (j : nat) :
  forall (fuel : nat) (f : frame G),
    done f = false ->
    step f + j < 5 ->
    j < fuel ->
    (forall i, i < j ->
       exists v, loads (response i (gpt (self f)) task) = Ok v /\
                 is_step_record v = true /\
                 signals_completion v = false) ->
    json_loads (response j (gpt (self f)) task) = None ->
    exists f',
      while_loop fuel task f = Some (f', Raise JSONDecodeError) /\
      step f' = step f + j + 1 /\
      done f' = false /\
      gpt (self f') = gpt_after (S j) (gpt (self f)) task.
Proof.
  induction j as [|j IH]; intros fuel f Hd Hs Hfuel Hresp Hbad;
    (destruct fuel as [|fuel]; [lia|]).
  - cbn [while_loop]. rewrite Hd.
    assert (Hlt : Nat.ltb (step f) 5 = true) by (apply Nat.ltb_lt; lia).
    rewrite Hlt. cbn [negb andb]. rewrite (body_malformed task f Hbad).
    eexists. split; [reflexivity|]. cbn [step done self gpt gpt_after].
    repeat split; [lia | exact Hd].
  - destruct (Hresp 0) as [v [Hload [Hrec Hsig]]]; [lia|].
    rewrite (@while_loop_round J G GP fuel task f v) by (assumption || lia).
    destruct (IH fuel (next_frame task f v)) as [f' [Hrun [Hstep [Hdone Hgpt]]]].
    + cbn [next_frame done]. now rewrite Hsig.
    + cbn [next_frame step]. lia.
    + lia.
    + intros i Hi. cbn [next_frame self gpt]. rewrite response_shift.
      destruct (Hresp (S i)) as [v' Hv']; [lia|]. exists v'. exact Hv'.
    + cbn [next_frame self gpt]. rewrite response_shift. exact Hbad.
    + exists f'. cbn [next_frame step self gpt] in *.
      repeat split; [exact Hrun | lia | exact Hdone | exact Hgpt].
Qed.
End EveryRun.

(** The rounds of a run that ended: between one and five, the backend asked
    once in each. *)
Lemma run_rounds (J : Json) (G : Type) (GP : AiAgent.GPT G)
        (agent : AiAgent.AIAgent.t G) (task : string)
        (f : AiAgent.AIAgent.frame G) (r : result value) :
  AiAgent.AIAgent.run agent task = Some (f, r) ->
  1 <= AiAgent.AIAgent.step f <= 5 /\
  AiAgent.AIAgent.gpt (AiAgent.AIAgent.self f) =
    gpt_after (AiAgent.AIAgent.step f) (AiAgent.AIAgent.gpt agent) task.
Proof.
  unfold AiAgent.AIAgent.run. intros E.
  match type of E with context [AiAgent.AIAgent.while_loop 5 task ?f0] =>
    set (start := f0) in *;
    destruct (AiAgent.AIAgent.while_loop 5 task start) as [[f1 r1]|] eqn:Ew;
      [|discriminate] end.
  assert (Hf : f1 = f) by (destruct r1; now injection E as -> _). subst f1.
  destruct (@while_loop_counts J G GP task 5 start f r1 Ew) as [Hb Hg];
    [cbn; lia|].
  cbn [start AiAgent.AIAgent.step AiAgent.AIAgent.self AiAgent.AIAgent.gpt] in Hb, Hg.
  rewrite Nat.sub_0_r in Hg. split; [|exact Hg]. split; [|lia].
  cbn [AiAgent.AIAgent.while_loop] in Ew. cbn [start AiAgent.AIAgent.done
    AiAgent.AIAgent.step negb andb Nat.ltb Nat.leb] in Ew.
  destruct (AiAgent.AIAgent.body task start) as [f1 [[]|e]] eqn:Eb.
  - pose proof (body_counts _ _ Eb) as Hs. cbn [start AiAgent.AIAgent.step] in Hs.
    destruct (@while_loop_counts J G GP task 4 f1 f r1 Ew) as [Hb1 _]; lia.
  - injection Ew as <- _.
    pose proof (body_counts _ _ Eb) as Hs. cbn [start AiAgent.AIAgent.step] in Hs. lia.
Qed.

(** X15.  For every backend and every answer it gives, a run of the agent
    loop ends, with a value or with an exception, after at least one and at
    most five rounds, and it has asked the backend exactly once per round. *)
Theorem run_is_bounded (J : Json) (G : Type) (GP : AiAgent.GPT G)
        (agent : AiAgent.AIAgent.t G) (task : string) :
  exists (f : AiAgent.AIAgent.frame G) (r : result value),
    AiAgent.AIAgent.run agent task = Some (f, r) /\
    1 <= AiAgent.AIAgent.step f <= 5 /\
    AiAgent.AIAgent.gpt (AiAgent.AIAgent.self f) =
      gpt_after (AiAgent.AIAgent.step f) (AiAgent.AIAgent.gpt agent) task.
Proof.
  assert (Hends : exists f r, AiAgent.AIAgent.run agent task = Some (f, r)).
  { unfold AiAgent.AIAgent.run.
    edestruct (@while_loop_ends J G GP task 5) as [f [r [Hrun _]]];
      [| | rewrite Hrun].
    - cbn [AiAgent.AIAgent.step]. lia.
    - cbn [AiAgent.AIAgent.step]. lia.
    - destruct r as [[]|e]; eauto. }
  destruct Hends as [f [r Hrun]]. exists f, r. split; [exact Hrun|].
  exact (@run_rounds J G GP agent task f r Hrun).
Qed.

(** X16.  An answer that is not JSON ends the run with [JSONDecodeError] in
    the round that received it: when the answers before it are step records
    without the completion keyword and it is answer number [j + 1 <= 5], the
    run has made [j + 1] rounds, and the backend is not asked again. *)
Theorem malformed_answer_ends_run (J : Json) (G : Type) (GP : AiAgent.GPT G)
        (agent : AiAgent.AIAgent.t G) (task : string) (j : nat) :
  j < 5 ->
  (forall i, i < j ->
     exists v, loads (response i (AiAgent.AIAgent.gpt agent) task) = Ok v /\
               is_step_record v = true /\
               signals_completion v = false) ->
  json_loads (response j (AiAgent.AIAgent.gpt agent) task) = None ->
  exists f,
    AiAgent.AIAgent.run agent task = Some (f, Raise JSONDecodeError) /\
    AiAgent.AIAgent.step f = j + 1 /\
    AiAgent.AIAgent.gpt (AiAgent.AIAgent.self f)
      = gpt_after (S j) (AiAgent.AIAgent.gpt agent) task.
Proof.
  intros Hj Hresp Hbad. unfold AiAgent.AIAgent.run.
  edestruct (@while_until_malformed J G GP task j 5) as [f [Hrun [Hs [_ Hg]]]];
    [| | | | | rewrite Hrun; exists f; repeat split; [exact Hs | exact Hg]].
  - reflexivity.
  - cbn [AiAgent.AIAgent.step]. lia.
  - lia.
  - exact Hresp.
  - exact Hbad.
Qed.

Lemma malformed_answer_ends_run_witness :
  let thinking := @answer RefJson.codec "Still looking." "Keep looking." "none"
                    "Nothing new." "No slot found yet." in
  exists f,
    @AiAgent.AIAgent.run RefJson.codec _ Script.Script_GPT
      (Script.agent [thinking; "Sorry, I cannot answer in JSON."; thinking]) "Find a slot"
    = Some (f, Raise JSONDecodeError) /\
    AiAgent.AIAgent.step f = 2 /\
    AiAgent.AIAgent.gpt (AiAgent.AIAgent.self f) = [thinking].
Proof.
  intros thinking.
  refine (@malformed_answer_ends_run RefJson.codec _ Script.Script_GPT
            (Script.agent [thinking; "Sorry, I cannot answer in JSON."; thinking])
            "Find a slot" 1 _ _ _).
  - lia.
  - intros i Hi. destruct i as [|i]; [|lia].
    eexists; split; [vm_compute; reflexivity | split; reflexivity].
  - vm_compute. reflexivity.
Defined.

(** ** One round on an incomplete record *)

(** X17.  The field "observation" of an answer is read only in a round that
    runs no tool.  For an answer that has the other four fields and no
    "observation": when the action is one of the two tools the round
    succeeds and shows the result of the tool, and otherwise the round
    raises [KeyError] for "observation" after it has printed the thought,
    the plan and the action. *)
Theorem observation_needed_without_tool (J : Json) (G : Type) (GP : AiAgent.GPT G)
        (task : string) (f : AiAgent.AIAgent.frame G) (d : dict) :
  loads (response 0 (AiAgent.AIAgent.gpt (AiAgent.AIAgent.self f)) task) = Ok (VDict d) ->
  has_step_fields d = true ->
  dict_get d "observation" = None ->
  let v := VDict d in
  let printed :=
    [print [VStr ("--- Step " ++ dec (AiAgent.AIAgent.step f + 1) ++ " ---")];
     print [VStr "Thought:"; field v "thought"];
     print [VStr "Plan:"; field v "plan"];
     print [VStr "Action:"; field v "action"]] in
  if is_tool_action (field v "action") then
    snd (AiAgent.AIAgent.body task f) = Ok tt /\
    AiAgent.AIAgent.stdout (fst (AiAgent.AIAgent.body task f)) =
      (AiAgent.AIAgent.stdout f ++ printed ++
       [print [VStr "Observation:"; shown_observation v];
        print [VStr "Final Answer:"; field v "final_answer"; VStr nl]])%list
  else
    snd (AiAgent.AIAgent.body task f) = Raise (KeyError "observation") /\
    AiAgent.AIAgent.stdout (fst (AiAgent.AIAgent.body task f)) =
      (AiAgent.AIAgent.stdout f ++ printed)%list.
Proof.
  intros Hload Hrec Hobs v printed. subst v printed.
  unfold is_tool_action, shown_observation, field, subscript.
  unfold has_step_fields in Hrec.
  destruct (dict_get d "thought") as [thought|] eqn:Et; [|discriminate].
  destruct (dict_get d "plan") as [plan|] eqn:Ep; [|discriminate].
  destruct (dict_get d "action") as [action|] eqn:Ea; [|discriminate].
  destruct (dict_get d "final_answer") as [[| | |fa| |]|] eqn:Ef; try discriminate.
  unfold response in Hload. cbn [gpt_after] in Hload.
  unfold AiAgent.AIAgent.body, AiAgent.AIAgent.emit, AiAgent.AIAgent.call_gpt,
    mbind, modify, get, lift, ret.
  cbn [fst snd AiAgent.AIAgent.self AiAgent.AIAgent.step AiAgent.AIAgent.done
       AiAgent.AIAgent.stdout AiAgent.AIAgent.gpt].
  destruct (AiAgent.gpt_run (AiAgent.AIAgent.gpt (AiAgent.AIAgent.self f)) task)
    as [g resp]. cbn [fst snd] in *.
  cbv beta iota zeta.
  cbn [fst snd AiAgent.AIAgent.self AiAgent.AIAgent.step AiAgent.AIAgent.done
       AiAgent.AIAgent.stdout AiAgent.AIAgent.gpt].
  rewrite Hload. cbn [subscript]. rewrite Et, Ep, Ea.
  cbn [fst snd AiAgent.AIAgent.self AiAgent.AIAgent.step AiAgent.AIAgent.done
       AiAgent.AIAgent.stdout AiAgent.AIAgent.gpt].
  destruct (eq_str action "CalendarAPI.check_availability");
    [|destruct (eq_str action "EmailAPI.draft_email")];
    cbn [orb setitem subscript];
    rewrite ?dict_get_set_same, ?(@dict_get_set_other d "observation" "final_answer")
      by discriminate;
    rewrite ?Hobs, ?Ef; cbn [lower_method];
    try destruct (PyStr.str_in "successfully" (PyStr.lower fa));
    cbn [fst snd AiAgent.AIAgent.self AiAgent.AIAgent.step AiAgent.AIAgent.done
         AiAgent.AIAgent.stdout AiAgent.AIAgent.gpt];
    (split; [reflexivity|]); repeat rewrite <- app_assoc; reflexivity.
Qed.

Lemma observation_needed_without_tool_witness :
  let reply := @json_dumps RefJson.codec
                 (VDict (str_dict [("thought", "Check calendars.");
                                   ("plan", "Call the calendar.");
                                   ("action", "CalendarAPI.check_availability");
                                   ("final_answer", "Checking...")])) in
  snd (@AiAgent.AIAgent.body RefJson.codec _ Script.Script_GPT "Find a slot"
         {| AiAgent.AIAgent.self := Script.agent [reply];
            AiAgent.AIAgent.step := 0;
            AiAgent.AIAgent.done := false;
            AiAgent.AIAgent.stdout := [] |}) = Ok tt.
Proof.
  intros reply.
  exact (proj1 (@observation_needed_without_tool RefJson.codec _ Script.Script_GPT
                  "Find a slot"
                  {| AiAgent.AIAgent.self := Script.agent [reply];
                     AiAgent.AIAgent.step := 0;
                     AiAgent.AIAgent.done := false;
                     AiAgent.AIAgent.stdout := [] |}
                  (str_dict [("thought", "Check calendars.");
                             ("plan", "Call the calendar.");
                             ("action", "CalendarAPI.check_availability");
                             ("final_answer", "Checking...")])
                  eq_refl eq_refl eq_refl)).
Defined.

(** X18.  An answer whose "final_answer" is not a text (a JSON null, number,
    list or object) ends the round with [AttributeError], raised by
    [.lower()], after the tool, if any, has run and the whole record has been
    printed. *)
Theorem final_answer_must_be_text (J : Json) (G : Type) (GP : AiAgent.GPT G)
        (task : string) (f : AiAgent.AIAgent.frame G) (d : dict) (x : value) :
  loads (response 0 (AiAgent.AIAgent.gpt (AiAgent.AIAgent.self f)) task) = Ok (VDict d) ->
  dict_get d "thought" <> None ->
  dict_get d "plan" <> None ->
  dict_get d "action" <> None ->
  dict_get d "observation" <> None ->
  dict_get d "final_answer" = Some x ->
  (forall s, x <> VStr s) ->
  snd (AiAgent.AIAgent.body task f) = Raise AttributeError /\
  AiAgent.AIAgent.stdout (fst (AiAgent.AIAgent.body task f)) =
    (AiAgent.AIAgent.stdout f ++ step_output (AiAgent.AIAgent.step f + 1) (VDict d))%list.
Proof.
  intros Hload Ht Hp Ha Ho Ef Hx. unfold step_output, shown_observation, field, subscript.
  destruct (dict_get d "thought") as [thought|] eqn:Et; [|congruence].
  destruct (dict_get d "plan") as [plan|] eqn:Ep; [|congruence].
  destruct (dict_get d "action") as [action|] eqn:Ea; [|congruence].
  destruct (dict_get d "observation") as [observation|] eqn:Eo; [|congruence].
  rewrite Ef.
  unfold response in Hload. cbn [gpt_after] in Hload.
  unfold AiAgent.AIAgent.body, AiAgent.AIAgent.emit, AiAgent.AIAgent.call_gpt,
    mbind, modify, get, lift, ret.
  cbn [fst snd AiAgent.AIAgent.self AiAgent.AIAgent.step AiAgent.AIAgent.done
       AiAgent.AIAgent.stdout AiAgent.AIAgent.gpt].
  destruct (AiAgent.gpt_run (AiAgent.AIAgent.gpt (AiAgent.AIAgent.self f)) task)
    as [g resp]. cbn [fst snd] in *.
  cbv beta iota zeta.
  cbn [fst snd AiAgent.AIAgent.self AiAgent.AIAgent.step AiAgent.AIAgent.done
       AiAgent.AIAgent.stdout AiAgent.AIAgent.gpt].
  rewrite Hload. cbn [subscript]. rewrite Et, Ep, Ea.
  cbn [fst snd AiAgent.AIAgent.self AiAgent.AIAgent.step AiAgent.AIAgent.done
       AiAgent.AIAgent.stdout AiAgent.AIAgent.gpt].
  destruct (eq_str action "CalendarAPI.check_availability");
    [|destruct (eq_str action "EmailAPI.draft_email")];
    cbn [setitem subscript];
    rewrite ?dict_get_set_same, ?(@dict_get_set_other d "observation" "final_answer")
      by discriminate;
    rewrite ?Eo, ?Ef;
    (destruct x as [| | |s| |]; [| | |exfalso; now apply (Hx s)| |]);
    cbn [lower_method fst snd AiAgent.AIAgent.self AiAgent.AIAgent.step
         AiAgent.AIAgent.done AiAgent.AIAgent.stdout AiAgent.AIAgent.gpt];
    (split; [reflexivity|]); repeat rewrite <- app_assoc; reflexivity.
Qed.

Lemma final_answer_must_be_text_witness :
  snd (@AiAgent.AIAgent.body null_reply_codec _ Script.Script_GPT "Find a slot"
         {| AiAgent.AIAgent.self := Script.agent [null_reply];
            AiAgent.AIAgent.step := 0;
            AiAgent.AIAgent.done := false;
            AiAgent.AIAgent.stdout := [] |}) = Raise AttributeError.
Proof.
  refine (proj1 (@final_answer_must_be_text null_reply_codec _ Script.Script_GPT
                   "Find a slot"
                   {| AiAgent.AIAgent.self := Script.agent [null_reply];
                      AiAgent.AIAgent.step := 0;
                      AiAgent.AIAgent.done := false;
                      AiAgent.AIAgent.stdout := [] |}
                   null_reply_value VNone _ _ _ _ _ _ _));
    try discriminate; reflexivity.
Defined.

(** ** The scripted backend keeps its place *)

(** X19.  [FakeGPT] counts its calls for as long as the object lives and
    gives its last answer from the fourth call on.  A run on an agent whose
    backend has already been called three times or more therefore ends after
    a single round, with the completion signal. *)
Theorem second_run_ends_at_once (J : Json) (L : JsonLaws J) (task : string) (n : nat) :
  3 <= n ->
  exists f,
    AiAgent.AIAgent.run {| AiAgent.AIAgent.gpt := {| AiAgent.FakeGPT.step := n |} |} task
      = Some (f, Ok VNone) /\
    AiAgent.AIAgent.step f = 1 /\
    AiAgent.AIAgent.done f = true /\
    AiAgent.FakeGPT.step (AiAgent.AIAgent.gpt (AiAgent.AIAgent.self f)) = n + 1.
Proof.
  intros Hn. unfold AiAgent.AIAgent.run.
  edestruct (@while_until_completion J AiAgent.FakeGPT.t
               (@AiAgent.FakeGPT.FakeGPT_GPT J) task 0 5
               {| AiAgent.AIAgent.self :=
                    {| AiAgent.AIAgent.gpt := {| AiAgent.FakeGPT.step := n |} |};
                  AiAgent.AIAgent.step := 0;
                  AiAgent.AIAgent.done := false;
                  AiAgent.AIAgent.stdout := [print [VStr ("User task: " ++ task ++ nl)]] |})
    as [f [Hrun [Hs [Hd Hg]]]];
    [| | | | rewrite Hrun; exists f; repeat split; [exact Hs | exact Hd | rewrite Hg]].
  - reflexivity.
  - cbn [AiAgent.AIAgent.step]. lia.
  - lia.
  - intros i Hi. assert (i = 0) by lia. subst i.
    cbn [AiAgent.AIAgent.self AiAgent.AIAgent.gpt].
    unfold response. cbn [gpt_after]. unfold AiAgent.gpt_run, AiAgent.FakeGPT.FakeGPT_GPT,
      AiAgent.FakeGPT.run. cbn [AiAgent.FakeGPT.step].
    destruct (Nat.eqb_spec (n + 1) 1); [lia|].
    destruct (Nat.eqb_spec (n + 1) 2); [lia|].
    destruct (Nat.eqb_spec (n + 1) 3); [lia|].
    cbn [snd]. eexists. split; [apply (loads_answer L) | split; reflexivity].
  - cbn [AiAgent.AIAgent.self AiAgent.AIAgent.gpt gpt_after].
    unfold AiAgent.gpt_run, AiAgent.FakeGPT.FakeGPT_GPT, AiAgent.FakeGPT.run.
    cbn [AiAgent.FakeGPT.step].
    destruct (Nat.eqb (n + 1) 1); [reflexivity|].
    destruct (Nat.eqb (n + 1) 2); [reflexivity|].
    destruct (Nat.eqb (n + 1) 3); reflexivity.
Qed.

Lemma second_run_ends_at_once_witness :
  exists f,
    @AiAgent.AIAgent.run RefJson.codec _ (@AiAgent.FakeGPT.FakeGPT_GPT RefJson.codec)
      {| AiAgent.AIAgent.gpt := {| AiAgent.FakeGPT.step := 4 |} |} "Schedule it again"
      = Some (f, Ok VNone) /\
    AiAgent.AIAgent.step f = 1 /\
    AiAgent.AIAgent.done f = true /\
    AiAgent.FakeGPT.step (AiAgent.AIAgent.gpt (AiAgent.AIAgent.self f)) = 4 + 1.
Proof.
  apply (@second_run_ends_at_once RefJson.codec RefJsonFacts.codec_laws
           "Schedule it again" 4).
  lia.
Defined.

(** ** The router of the real assistant *)

(** What [create_meeting] gives: the exception of [get_service], or
    [NameError] for [timedelta]. *)
Lemma create_meeting_raises (T : RealAssistant.Tools) :
  RealAssistant.create_meeting =
    Raise (match RealAssistant.get_service "calendar" "v3" RealAssistant.CALENDAR_SCOPES with
           | Ok _ => NameError "timedelta"
           | Raise e => e
           end).
Proof.
  unfold RealAssistant.create_meeting.
  now destruct (RealAssistant.get_service "calendar" "v3" RealAssistant.CALENDAR_SCOPES).
Qed.

(** X20.  The router of [gemini_real_assistant.py] never sends an email,
    whatever the text and whatever the services do: [send_email] is called
    after [create_meeting] returned a link, and [create_meeting] never
    returns.  A text that reaches the email branch (it holds "email" and
    none of "calendar", "meeting", "meet link") makes the one call of
    [create_meeting] and ends with its exception, [NameError] for
    [timedelta] when the calendar client could be built. *)
Theorem email_is_never_sent (T : RealAssistant.Tools) (text : string) :
  existsb is_send_email (fst (RealAssistant.handle_tools text)) = false /\
  (PyStr.str_in "calendar" (PyStr.lower text) = false ->
   PyStr.str_in "meeting" (PyStr.lower text)
     || PyStr.str_in "meet link" (PyStr.lower text) = false ->
   PyStr.str_in "email" (PyStr.lower text) = true ->
   RealAssistant.handle_tools text =
     ([CreateMeeting],
      Raise (match RealAssistant.get_service "calendar" "v3"
                     RealAssistant.CALENDAR_SCOPES with
             | Ok _ => NameError "timedelta"
             | Raise e => e
             end))).
Proof.
  split.
  - unfold RealAssistant.handle_tools. cbv zeta.
    rewrite (create_meeting_raises T).
    destruct (PyStr.str_in "calendar" (PyStr.lower text)); [reflexivity|].
    destruct (PyStr.str_in "meeting" (PyStr.lower text)
              || PyStr.str_in "meet link" (PyStr.lower text)); [reflexivity|].
    destruct (PyStr.str_in "email" (PyStr.lower text)); reflexivity.
  - intros Hc Hm He. unfold RealAssistant.handle_tools. cbv zeta.
    rewrite (create_meeting_raises T), Hc, Hm, He. reflexivity.
Qed.

Lemma email_is_never_sent_witness :
  @RealAssistant.handle_tools sample_tools "email the link to Shivam" =
  ([CreateMeeting], Raise (NameError "timedelta")).
Proof.
  exact (proj2 (@email_is_never_sent sample_tools "email the link to Shivam")
           eq_refl eq_refl eq_refl).
Defined.

(** X21.  In the router of [gemini_real_assistant.py] a text that holds
    "meeting" or "meet link", and not "calendar", takes the meeting branch,
    also when it holds "email": the one call made is [create_meeting], no
    email is sent, and no answer comes back, since [create_meeting] raises:
    the router ends with the exception of [get_service], or with
    [NameError] for [timedelta] when the calendar client could be built. *)
Theorem meeting_wins_over_email (T : RealAssistant.Tools) (text : string) :
  PyStr.str_in "calendar" (PyStr.lower text) = false ->
  PyStr.str_in "meeting" (PyStr.lower text)
    || PyStr.str_in "meet link" (PyStr.lower text) = true ->
  PyStr.str_in "email" (PyStr.lower text) = true ->
  existsb is_send_email (fst (RealAssistant.handle_tools text)) = false /\
  RealAssistant.handle_tools text =
    ([CreateMeeting],
     Raise (match RealAssistant.get_service "calendar" "v3"
                    RealAssistant.CALENDAR_SCOPES with
            | Ok _ => NameError "timedelta"
            | Raise e => e
            end)).
Proof.
  intros Hc Hm _. rewrite (real_meeting_before_email text Hc Hm).
  rewrite (create_meeting_raises T). split; reflexivity.
Qed.

Lemma meeting_wins_over_email_witness :
  @RealAssistant.handle_tools sample_tools "Email me a meeting invite" =
  ([CreateMeeting], Raise (NameError "timedelta")).
Proof.
  apply (@meeting_wins_over_email sample_tools "Email me a meeting invite"); reflexivity.
Defined.

(** X24.  In [gemini_real_assistant.py] a message that asks for a meeting or
    an email (it holds "meeting", "meet link" or "email", and not
    "calendar") ends the chat: [create_meeting] raises, the exception is not
    caught, the input that follows is not read and nothing is written to the
    transcript.  The exception is that of [get_service], or [NameError] for
    [timedelta] when the calendar client could be built. *)
Theorem meeting_request_ends_real_chat (J : Json) (B : Client.Backend)
        (T : RealAssistant.Tools) (raw : string) (rest : list Client.input_event)
        (w : Client.state) :
  PyStr.str_in "calendar" (PyStr.lower (PyStr.strip raw)) = false ->
  PyStr.str_in "meeting" (PyStr.lower (PyStr.strip raw))
    || PyStr.str_in "meet link" (PyStr.lower (PyStr.strip raw))
    || PyStr.str_in "email" (PyStr.lower (PyStr.strip raw)) = true ->
  RealChat.chat_loop (Client.Line raw :: rest) w =
    (prompted w,
     Raise (match RealAssistant.get_service "calendar" "v3"
                    RealAssistant.CALENDAR_SCOPES with
            | Ok _ => NameError "timedelta"
            | Raise e => e
            end)).
Proof.
  intros Hc Hk.
  assert (Hne : String.eqb (PyStr.strip raw) "" = false).
  { destruct (String.eqb (PyStr.strip raw) "") eqn:E; [|reflexivity].
    apply String.eqb_eq in E. rewrite E in Hk. discriminate Hk. }
  assert (Hexit : String.eqb (PyStr.lower (PyStr.strip raw)) "/exit" = false).
  { destruct (String.eqb (PyStr.lower (PyStr.strip raw)) "/exit") eqn:E; [|reflexivity].
    apply String.eqb_eq in E. rewrite E in Hk. discriminate Hk. }
  assert (Hreset : String.eqb (PyStr.lower (PyStr.strip raw)) "/reset" = false).
  { destruct (String.eqb (PyStr.lower (PyStr.strip raw)) "/reset") eqn:E; [|reflexivity].
    apply String.eqb_eq in E. rewrite E in Hk. discriminate Hk. }
  cbn [RealChat.chat_loop]. rewrite (mbind_ok _ _ _ (emit_state _ _)).
  cbv zeta. rewrite Hne, Hexit, Hreset.
  unfold RealChat.turn, RealAssistant.handle_tools. cbv zeta.
  rewrite (create_meeting_raises T), Hc.
  destruct (PyStr.str_in "meeting" (PyStr.lower (PyStr.strip raw))
            || PyStr.str_in "meet link" (PyStr.lower (PyStr.strip raw))); [reflexivity|].
  cbn [orb] in Hk. rewrite Hk. reflexivity.
Qed.

Lemma meeting_request_ends_real_chat_witness :
  @RealChat.chat_loop RefJson.codec silent_backend sample_tools
    [Client.Line "Set up a meeting with Priya"; Client.Line "hello"] fresh_state
  = (prompted fresh_state, Raise (NameError "timedelta")).
Proof.
  apply (@meeting_request_ends_real_chat RefJson.codec silent_backend sample_tools
           "Set up a meeting with Priya" [Client.Line "hello"] fresh_state);
    reflexivity.
Defined.

(** ** Keywords are found anywhere in a text *)

Lemma lower_append (a b : string) :
  PyStr.lower (a ++ b) = PyStr.lower a ++ PyStr.lower b.
Proof. induction a as [|c a IH]; cbn; [reflexivity | now rewrite IH]. Qed.

Lemma prefix_append (n b : string) : prefix n (n ++ b) = true.
Proof.
  induction n as [|c n IH]; cbn.
  - now destruct b.
  - destruct (ascii_dec c c); [exact IH | congruence].
Qed.

Lemma str_in_middle (n a b : string) : PyStr.str_in n (a ++ n ++ b) = true.
Proof.
  induction a as [|c a IH].
  - cbn [String.append]. destruct (n ++ b) eqn:E; cbn [PyStr.str_in];
      rewrite <- E, prefix_append; reflexivity.
  - cbn [String.append PyStr.str_in].
    destruct (prefix n (String c (a ++ n ++ b))); [reflexivity | exact IH].
Qed.

(** A keyword written in any letter case, anywhere in a text. *)
Lemma keyword_found (keyword written a b : string) :
  PyStr.lower written = keyword ->
  PyStr.str_in keyword (PyStr.lower (a ++ written ++ b)) = true.
Proof.
  intros <-. rewrite !lower_append. apply str_in_middle.
Qed.

(** X22.  The completion test looks for the letters "successfully" anywhere
    in the final answer and in any letter case, inside a longer word too: a
    first answer whose final answer holds them, as in "unsuccessfully",
    ends the run after one round as completed. *)
Theorem keyword_anywhere_completes (J : Json) (G : Type) (GP : AiAgent.GPT G)
        (agent : AiAgent.AIAgent.t G) (task : string) (v : value)
        (before written after : string) :
  loads (response 0 (AiAgent.AIAgent.gpt agent) task) = Ok v ->
  is_step_record v = true ->
  field v "final_answer" = VStr (before ++ written ++ after) ->
  PyStr.lower written = "successfully" ->
  exists f,
    AiAgent.AIAgent.run agent task = Some (f, Ok VNone) /\
    AiAgent.AIAgent.step f = 1 /\
    AiAgent.AIAgent.done f = true.
Proof.
  intros Hload Hrec Hfa Hkw. unfold AiAgent.AIAgent.run.
  edestruct (@while_until_completion J G GP task 0 5
               {| AiAgent.AIAgent.self := agent;
                  AiAgent.AIAgent.step := 0;
                  AiAgent.AIAgent.done := false;
                  AiAgent.AIAgent.stdout := [print [VStr ("User task: " ++ task ++ nl)]] |})
    as [f [Hrun [Hs [Hd _]]]];
    [| | | | rewrite Hrun; exists f; repeat split; [exact Hs | exact Hd]].
  - reflexivity.
  - cbn [AiAgent.AIAgent.step]. lia.
  - lia.
  - intros i Hi. assert (i = 0) by lia. subst i.
    cbn [AiAgent.AIAgent.self]. exists v. split; [exact Hload|]. split; [exact Hrec|].
    unfold signals_completion. unfold field in Hfa.
    destruct (subscript v "final_answer") as [x|e]; [|discriminate].
    subst x. cbn [Nat.eqb]. now apply keyword_found.
Qed.

Lemma keyword_anywhere_completes_witness :
  let failed := @answer RefJson.codec "The mail server refused." "Give up." "none"
                  "Nothing sent." "The email was sent UNSUCCESSFULLY." in
  exists f,
    @AiAgent.AIAgent.run RefJson.codec _ Script.Script_GPT (Script.agent [failed])
      "Send the mail" = Some (f, Ok VNone) /\
    AiAgent.AIAgent.step f = 1 /\
    AiAgent.AIAgent.done f = true.
Proof.
  intros failed.
  refine (@keyword_anywhere_completes RefJson.codec _ Script.Script_GPT
            (Script.agent [failed]) "Send the mail"
            (VDict (str_dict [("thought", "The mail server refused."); ("plan", "Give up.");
                              ("action", "none"); ("observation", "Nothing sent.");
                              ("final_answer", "The email was sent UNSUCCESSFULLY.")]))
            "The email was sent UN" "SUCCESSFULLY" "." _ _ _ _).
  - vm_compute. reflexivity.
  - reflexivity.
  - reflexivity.
  - reflexivity.
Defined.

(** X23.  The routers look for their keywords anywhere in the text and in
    any letter case, inside a longer word too: a text that holds the letters
    "calendar" gets a calendar answer from the router of [ai_agent.py], and a
    text that holds the letters "priya" as well gets Priya's slots, as
    "Priyanka's calendars" does. *)
Theorem keyword_anywhere_routes (before written after : string) :
  PyStr.lower written = "calendar" ->
  let text := before ++ written ++ after in
  existsb is_send_email (fst (Assistant.handle_tools text)) = false /\
  (forall a name b,
     PyStr.lower name = "priya" -> text = a ++ name ++ b ->
     Assistant.handle_tools text =
       ([CheckCalendar (Some "priya")],
        Some "Priya’s availability: ['Thu 11AM', 'Fri 2PM']")).
Proof.
  intros Hkw text.
  assert (Hc : PyStr.str_in "calendar" (PyStr.lower text) = true)
    by (apply keyword_found; exact Hkw).
  rewrite (assistant_calendar_first text Hc). split.
  - destruct (PyStr.str_in "priya" (PyStr.lower text));
      [|destruct (PyStr.str_in "shivam" (PyStr.lower text))]; reflexivity.
  - intros a name b Hname Htext.
    assert (Hp : PyStr.str_in "priya" (PyStr.lower text) = true)
      by (rewrite Htext; apply keyword_found; exact Hname).
    rewrite Hp. reflexivity.
Qed.

Lemma keyword_anywhere_routes_witness :
  Assistant.handle_tools "Show Priyanka's CALENDARS" =
    ([CheckCalendar (Some "priya")],
     Some "Priya’s availability: ['Thu 11AM', 'Fri 2PM']").
Proof.
  exact (proj2 (@keyword_anywhere_routes "Show Priyanka's " "CALENDAR" "S" eq_refl)
           "Show " "Priya" "nka's CALENDARS" eq_refl eq_refl).
Defined.
